(** * GTD tooling: identifier allocation, project stash/switch, task
      creation, health alerts and aside detection.

    A shallow embedding of
      - gtd-tooling/scripts/gtd_commands.py
      - gtd-tooling/scripts/gtd_health_alerts.py
      - gtd-tooling/scripts/heuristic_asides.py

    Conventions of the embedding.
      - Python [str] values are [text] = [list ascii]; the text is taken
        to be ASCII (the classes \d, \w, \b and str.strip are modelled on
        their ASCII part).
      - The workspace directory is an ordered list of entries
        (path, node); the order of the list is the order in which
        glob/rglob yield the entries.  It holds the files the scripts
        read and write; what git keeps for itself below .git is not
        part of it.
      - Functions that print, write files or can raise return an
        [outcome]; a raised exception keeps the workspace as it was left
        at the raise.
      - [datetime.now()] is read once per command ([w_now], microseconds);
        [strftime("%Y-%m-%d")] of it is [w_today].
      - Files are opened in text mode on a POSIX system: read_text hands
        over the stored text with every "\r\n" and every lone "\r" read
        as "\n"; write_text stores the text as it is.
      - A replacement template of re.sub is expanded as the re module
        of Python 3.7 and later does; a group name that these versions
        read differently is left open ([Unsettled]). *)

From Stdlib Require Import List Ascii String Bool Arith ZArith Lia.
Import ListNotations.
Open Scope bool_scope.
Open Scope list_scope.

(* ================================================================== *)
(** * Text *)
(* ================================================================== *)

Module Text.

Definition text := list ascii.

Definition str (s : string) : text := list_ascii_of_string s.

Definition code (c : ascii) : nat := nat_of_ascii c.

Definition is_digit (c : ascii) : bool :=
  (48 <=? code c) && (code c <=? 57).

Definition is_upper (c : ascii) : bool :=
  (65 <=? code c) && (code c <=? 90).

Definition is_lower (c : ascii) : bool :=
  (97 <=? code c) && (code c <=? 122).

(** \w on ASCII text: [a-zA-Z0-9_]. *)
Definition is_word (c : ascii) : bool :=
  is_digit c || is_upper c || is_lower c || (code c =? 95).

(** str.isspace on ASCII text: \t \n \v \f \r, 0x1c..0x1f and space. *)
Definition is_space (c : ascii) : bool :=
  ((9 <=? code c) && (code c <=? 13)) ||
  ((28 <=? code c) && (code c <=? 32)).

Definition lower (c : ascii) : ascii :=
  if is_upper c then ascii_of_nat (code c + 32) else c.

Definition newline : ascii := ascii_of_nat 10.

Definition is_cr (c : ascii) : bool := code c =? 13.
Definition is_lf (c : ascii) : bool := code c =? 10.
Definition is_backslash (c : ascii) : bool := code c =? 92.

(** The text a file opened in text mode hands over, given the stored
    text: "\r\n" and a lone "\r" are read as "\n".  [after_cr] says
    that the character before was a "\r". *)
Fixpoint read_newlines (after_cr : bool) (s : text) : text :=
  match s with
  | [] => []
  | c :: s' =>
      if is_cr c then newline :: read_newlines true s'
      else if after_cr && is_lf c then read_newlines false s'
      else c :: read_newlines false s'
  end.

Definition universal_newlines (s : text) : text :=
  read_newlines false s.

(** A text without a carriage return: stored or read, it is the same. *)
Definition no_cr (s : text) : bool := forallb (fun c => negb (is_cr c)) s.

Fixpoint text_eqb (a b : text) : bool :=
  match a, b with
  | [], [] => true
  | x :: a', y :: b' => Ascii.eqb x y && text_eqb a' b'
  | _, _ => false
  end.

(** [starts_with p s]: str.startswith. *)
Fixpoint starts_with (p s : text) : bool :=
  match p, s with
  | [], _ => true
  | x :: p', y :: s' => Ascii.eqb x y && starts_with p' s'
  | _ :: _, [] => false
  end.

(** [ends_with p s]: str.endswith. *)
Definition ends_with (p s : text) : bool :=
  starts_with (rev p) (rev s).

(** [contains p s]: Python's [p in s]. *)
Fixpoint contains (p s : text) : bool :=
  starts_with p s ||
  match s with
  | [] => false
  | _ :: s' => contains p s'
  end.

(** Number of (possibly overlapping) positions at which [p] occurs. *)
Fixpoint occurrences (p s : text) : nat :=
  (if starts_with p s then 1 else 0) +
  match s with
  | [] => 0
  | _ :: s' => occurrences p s'
  end.

Fixpoint drop_while (p : ascii -> bool) (s : text) : text :=
  match s with
  | [] => []
  | c :: s' => if p c then drop_while p s' else s
  end.

Fixpoint take_while (p : ascii -> bool) (s : text) : text :=
  match s with
  | [] => []
  | c :: s' => if p c then c :: take_while p s' else []
  end.

(** str.strip() *)
Definition strip (s : text) : text :=
  rev (drop_while is_space (rev (drop_while is_space s))).

(** str.lower() *)
Definition to_lower (s : text) : text := map lower s.

(** str.replace(a, b) for a one-character [a]. *)
Definition replace_char (a : ascii) (b : text) (s : text) : text :=
  flat_map (fun c => if Ascii.eqb c a then b else [c]) s.

End Text.
Import Text.

(* ================================================================== *)
(** * Regular expressions (the fragment of [re] the scripts use) *)
(* ================================================================== *)

Module Re.

Inductive re : Type :=
| Eps
| Chr (c : ascii)                    (* a literal character *)
| Cls (p : ascii -> bool)            (* a class: \d, [0-9], [^\n], .   *)
| WordB                              (* \b *)
| Eol                                (* $ : at the end, or before a final newline *)
| Seq (r1 r2 : re)
| Alt (r1 r2 : re)                   (* r1|r2 *)
| Plus (p : ascii -> bool)           (* class+ , greedy *)
| LazyStar (p : ascii -> bool).      (* class*? , lazy *)

(** A literal string. *)
Fixpoint lit_text (s : text) : re :=
  match s with
  | [] => Eps
  | c :: s' => Seq (Chr c) (lit_text s')
  end.

Definition lit (s : string) : re := lit_text (str s).

(** The dot: any character but a newline. *)
Definition dot (c : ascii) : bool := negb (Ascii.eqb c newline).

Definition chr_eq (ignorecase : bool) (a b : ascii) : bool :=
  if ignorecase then Ascii.eqb (lower a) (lower b) else Ascii.eqb a b.

Definition word_opt (c : option ascii) : bool :=
  match c with
  | Some c => is_word c
  | None => false
  end.

(** A continuation receives the character before the current position
    and the rest of the input; it answers with the input left after the
    whole match. *)
Definition cont := option ascii -> text -> option text.

Definition or_else (a : option text) (b : option text) : option text :=
  match a with
  | Some x => Some x
  | None => b
  end.

(** Greedy repetition of a class (zero or more), longest first. *)
Fixpoint greedy (p : ascii -> bool) (k : cont) (prev : option ascii)
    (s : text) : option text :=
  match s with
  | c :: s' =>
      if p c then or_else (greedy p k (Some c) s') (k prev s)
      else k prev s
  | [] => k prev []
  end.

(** Lazy repetition of a class (zero or more), shortest first. *)
Fixpoint lazy (p : ascii -> bool) (k : cont) (prev : option ascii)
    (s : text) : option text :=
  match s with
  | c :: s' =>
      or_else (k prev s) (if p c then lazy p k (Some c) s' else None)
  | [] => k prev []
  end.

(** Backtracking match of [r] at the current position, in the priority
    order of Python's engine. *)
Fixpoint re_match (ic : bool) (r : re) (prev : option ascii) (s : text)
    (k : cont) : option text :=
  match r with
  | Eps => k prev s
  | Chr c =>
      match s with
      | c' :: s' => if chr_eq ic c c' then k (Some c') s' else None
      | [] => None
      end
  | Cls p =>
      match s with
      | c' :: s' => if p c' then k (Some c') s' else None
      | [] => None
      end
  | WordB =>
      if xorb (word_opt prev) (word_opt (hd_error s)) then k prev s
      else None
  | Eol =>
      match s with
      | [] => k prev s
      | [c] => if Ascii.eqb c newline then k prev s else None
      | _ => None
      end
  | Seq r1 r2 =>
      re_match ic r1 prev s (fun prev' s' => re_match ic r2 prev' s' k)
  | Alt r1 r2 =>
      or_else (re_match ic r1 prev s k) (re_match ic r2 prev s k)
  | Plus p =>
      match s with
      | c' :: s' => if p c' then greedy p k (Some c') s' else None
      | [] => None
      end
  | LazyStar p => lazy p k prev s
  end.

Definition match_here (ic : bool) (r : re) (prev : option ascii)
    (s : text) : option text :=
  match re_match ic r prev s (fun _ rest => Some rest) with
  | Some rest => Some (firstn (List.length s - List.length rest) s)
  | None => None
  end.

(** [search_from]: the leftmost match at or after the current position;
    the answer is the matched text (group 0). *)
Fixpoint search_from (ic : bool) (r : re) (prev : option ascii)
    (s : text) : option text :=
  match match_here ic r prev s with
  | Some m => Some m
  | None =>
      match s with
      | [] => None
      | c :: s' => search_from ic r (Some c) s'
      end
  end.

(** re.search(r, s) / re.search(r, s, re.IGNORECASE). *)
Definition search (ic : bool) (r : re) (s : text) : option text :=
  search_from ic r None s.

Definition test (ic : bool) (r : re) (s : text) : bool :=
  match search ic r s with
  | Some _ => true
  | None => false
  end.

(** re.match(r, s): a match at the start of [s]. *)
Definition match_start (r : re) (s : text) : bool :=
  match match_here false r None s with
  | Some _ => true
  | None => false
  end.

(** re.sub(pat, rep, s) for a literal, non-empty [pat] and the text
    [rep] that takes the place of a match: every occurrence, leftmost
    first, not overlapping.  [skip] counts the characters of an
    occurrence still to be passed over. *)
Fixpoint sub_lit (pat rep : text) (skip : nat) (s : text) : text :=
  match s with
  | [] => []
  | c :: s' =>
      match skip with
      | S k => sub_lit pat rep k s'
      | 0 =>
          if starts_with pat s
          then rep ++ sub_lit pat rep (List.length pat - 1) s'
          else c :: sub_lit pat rep 0 s'
      end
  end.

(** ** The replacement template of re.sub

    A replacement that holds a backslash is parsed as a template before
    the search starts (so an error in it is raised whether or not the
    pattern occurs).  The patterns of the scripts are literal and have
    no group: the only group a template can name is group 0, the match
    itself. *)

Inductive expansion : Type :=
| Expanded (t : text)   (* the text that takes the place of a match *)
| BadEscape             (* re.error *)
| UnknownGroup          (* IndexError: unknown group name *)
| Unsettled.            (* read differently by different versions *)

Definition emit (t : text) (e : expansion) : expansion :=
  match e with
  | Expanded r => Expanded (t ++ r)
  | _ => e
  end.

Definition is_octal (c : ascii) : bool :=
  (48 <=? code c) && (code c <=? 55).

Definition is_letter (c : ascii) : bool := is_upper c || is_lower c.

Definition octal_val (c : ascii) : nat := code c - 48.

(** The escapes \a \b \f \n \r \t \v and \\ *)
Definition escape_char (c : ascii) : option ascii :=
  if Ascii.eqb c "a" then Some (ascii_of_nat 7)
  else if Ascii.eqb c "b" then Some (ascii_of_nat 8)
  else if Ascii.eqb c "f" then Some (ascii_of_nat 12)
  else if Ascii.eqb c "n" then Some (ascii_of_nat 10)
  else if Ascii.eqb c "r" then Some (ascii_of_nat 13)
  else if Ascii.eqb c "t" then Some (ascii_of_nat 9)
  else if Ascii.eqb c "v" then Some (ascii_of_nat 11)
  else if is_backslash c then Some c
  else None.

(** str.isidentifier() on ASCII text *)
Definition is_identifier (n : text) : bool :=
  match n with
  | [] => false
  | c :: r =>
      (is_letter c || Ascii.eqb c "_") &&
      forallb (fun x => is_letter x || is_digit x || Ascii.eqb x "_") r
  end.

(** Zeros with single underscores between them: 0, 00, 0_0, ... *)
Fixpoint zeros_body (need_digit : bool) (s : text) : bool :=
  match s with
  | [] => negb need_digit
  | c :: s' =>
      if Ascii.eqb c "0" then zeros_body false s'
      else if Ascii.eqb c "_" then negb need_digit && zeros_body true s'
      else false
  end.

(** int(n) == 0: white space around, a sign, zeros. *)
Definition int_reads_zero (n : text) : bool :=
  match strip n with
  | [] => false
  | c :: r =>
      if Ascii.eqb c "+" || Ascii.eqb c "-"
      then match r with
           | [] => false
           | _ :: _ => zeros_body true r
           end
      else zeros_body true (c :: r)
  end.

(** What \g<n> refers to, for a pattern without groups. *)
Inductive group_ref : Type :=
| Whole          (* group 0 *)
| NoSuchIndex    (* a number above 0: re.error, invalid group reference *)
| NoSuchName     (* an identifier: IndexError, unknown group name *)
| BadName        (* re.error, missing or bad group name *)
| Unclear.       (* "+0", " 0", "0_0", ...: group 0 up to Python 3.11,
                    re.error from 3.12 on; or a name beyond ASCII *)

Definition group_of (n : text) : group_ref :=
  match n with
  | [] => BadName
  | _ :: _ =>
      if negb (forallb (fun c => code c <? 128) n) then Unclear
      else if forallb is_digit n then
        if forallb (Ascii.eqb "0") n then Whole else NoSuchIndex
      else if is_identifier n then NoSuchName
      else if int_reads_zero n then Unclear
      else BadName
  end.

(** Where the template parser stands. *)
Inductive tstate : Type :=
| TNormal
| TEsc                        (* after a backslash *)
| TG                          (* after \g *)
| TName (name : text)         (* after \g< and the name so far *)
| TZero (more : nat) (v : nat)  (* after \0: octal digits still allowed,
                                   value so far *)
| TDigit (c : ascii)          (* after \ and a digit 1..9 *)
| TDigit2 (c1 c2 : ascii).    (* after \ and two octal digits *)

(** parse_template of the re module, for a pattern without groups
    whose match is [whole].  The first error met, left to right, is the
    one raised; a backslash that ends the template is met one token
    early, by the look-ahead of the tokenizer. *)
Fixpoint parse_template (whole : text) (st : tstate) (s : text)
    : expansion :=
  match s with
  | [] =>
      match st with
      | TNormal => Expanded []
      | TZero _ v => Expanded [ascii_of_nat v]
      | _ => BadEscape
      end
  | c :: s' =>
      let normal :=
        if is_backslash c then parse_template whole TEsc s'
        else emit [c] (parse_template whole TNormal s') in
      match st with
      | TNormal => normal
      | TEsc =>
          if Ascii.eqb c "g" then parse_template whole TG s'
          else if Ascii.eqb c "0" then parse_template whole (TZero 2 0) s'
          else if is_digit c then parse_template whole (TDigit c) s'
          else match escape_char c with
               | Some x => emit [x] (parse_template whole TNormal s')
               | None =>
                   if is_letter c then BadEscape
                   else emit [ascii_of_nat 92; c]
                             (parse_template whole TNormal s')
               end
      | TG =>
          if Ascii.eqb c "<" then parse_template whole (TName []) s'
          else BadEscape
      | TName n =>
          if Ascii.eqb c ">" then
            match group_of n with
            | Whole => emit whole (parse_template whole TNormal s')
            | NoSuchIndex => BadEscape
            | NoSuchName =>
                match s' with
                | [b] => if is_backslash b then BadEscape else UnknownGroup
                | _ => UnknownGroup
                end
            | BadName => BadEscape
            | Unclear => Unsettled
            end
          else if is_backslash c then BadEscape
          else parse_template whole (TName (n ++ [c])) s'
      | TZero more v =>
          match more with
          | S m =>
              if is_octal c
              then parse_template whole (TZero m (8 * v + octal_val c)) s'
              else emit [ascii_of_nat v] normal
          | 0 => emit [ascii_of_nat v] normal
          end
      | TDigit c1 =>
          if is_octal c1 && is_octal c
          then parse_template whole (TDigit2 c1 c) s'
          else BadEscape
      | TDigit2 c1 c2 =>
          if is_octal c then
            let v := 64 * octal_val c1 + 8 * octal_val c2 + octal_val c in
            if 255 <? v then BadEscape
            else emit [ascii_of_nat v] (parse_template whole TNormal s')
          else BadEscape
      end
  end.

(** The text that takes the place of each match of the literal [pat]
    when the replacement is [template]. *)
Definition expand_template (pat template : text) : expansion :=
  parse_template pat TNormal template.

(** re.sub(pat, template, s) for a literal, non-empty [pat]. *)
Definition sub (pat template s : text) : expansion :=
  match expand_template pat template with
  | Expanded rep => Expanded (sub_lit pat rep 0 s)
  | e => e
  end.

(** str.split(sep) on one character. *)
Fixpoint split_char (sep : ascii) (s : text) : list text :=
  match s with
  | [] => [[]]
  | c :: s' =>
      if Ascii.eqb c sep then [] :: split_char sep s'
      else
        match split_char sep s' with
        | h :: t => (c :: h) :: t
        | [] => [[c]]
        end
  end.

(** re.split(r'[cls]+', s): the pieces between the maximal runs of
    characters of the class. *)
Fixpoint split_runs (p : ascii -> bool) (s : text) (insep : bool)
    : list text :=
  match s with
  | [] => [[]]
  | c :: s' =>
      if p c then
        if insep then split_runs p s' true
        else [] :: split_runs p s' true
      else
        match split_runs p s' false with
        | h :: t => (c :: h) :: t
        | [] => [[c]]
        end
  end.

End Re.
Import Re.

(* ================================================================== *)
(** * heuristic_asides.py *)
(* ================================================================== *)

Module Asides.

(** r"\bphrase\b" *)
Definition phrase (s : string) : re := Seq WordB (Seq (lit s) WordB).

Definition TRIGGER_PHRASES : list re :=
  [ phrase "also";
    phrase "oh";
    phrase "by the way";
    phrase "by the way";
    phrase "reminds me of";
    phrase "speaking of";
    phrase "should look into";
    phrase "could explore";
    phrase "might want to";
    phrase "we should";
    phrase "on a side note";
    phrase "tangentially";
    phrase "on a related note";
    phrase "while we're at it";
    phrase "while i'm thinking";
    phrase "idea:";
    phrase "thought:" ].

Definition IGNORE_PATTERNS : list re :=
  [ (* \balso\b.*?(but|however|although) *)
    Seq WordB (Seq (lit "also") (Seq WordB (Seq (LazyStar dot)
      (Alt (lit "but") (Alt (lit "however") (lit "although"))))));
    (* \bspeaking of.*?we were\b *)
    Seq WordB (Seq (lit "speaking of") (Seq (LazyStar dot)
      (Seq (lit "we were") WordB))) ].

Inductive aside_type : Type :=
| DeferProject        (* "defer (project)" *)
| LaterStandalone.    (* "later (standalone)" *)

Definition immediate : list re :=
  [ phrase "need to"; phrase "must"; phrase "have to";
    phrase "start"; phrase "begin" ].

Definition infer_aside_type (sentence : text) : aside_type :=
  (* \bP\d+\b, case-sensitive *)
  if Re.test false (Seq WordB (Seq (Chr "P") (Seq (Plus is_digit) WordB)))
       sentence
  then DeferProject
  else if existsb (fun pattern => Re.test true pattern sentence) immediate
  then DeferProject
  else LaterStandalone.

Definition is_terminal (c : ascii) : bool :=
  Ascii.eqb c "." || Ascii.eqb c "!" || Ascii.eqb c "?".

(** re.split(r'[.!?]+', text) *)
Definition sentences (t : text) : list text :=
  split_runs is_terminal t false.

Definition ignored (sentence : text) : bool :=
  existsb (fun pattern => Re.test true pattern sentence) IGNORE_PATTERNS.

Definition triggered (sentence : text) : bool :=
  existsb (fun trigger => Re.test true trigger sentence) TRIGGER_PHRASES.

(** The body of the [for sentence in sentences] loop: what one raw
    sentence appends to [asides]. *)
Definition sentence_asides (raw : text) : list (text * aside_type) :=
  let sentence := strip raw in
  match sentence with
  | [] => []                                           (* continue *)
  | _ :: _ =>
      if ignored sentence then []                      (* continue *)
      else if triggered sentence                       (* first hit, break *)
      then [(sentence, infer_aside_type sentence)]
      else []
  end.

Definition detect_asides (t : text) : list (text * aside_type) :=
  flat_map sentence_asides (sentences t).

(** The stripped sentences that detect_asides reports. *)
Definition reported (sentence : text) : bool :=
  match sentence with
  | [] => false
  | _ :: _ => negb (ignored sentence) && triggered sentence
  end.

End Asides.

(* ================================================================== *)
(** * Decimal numbers: int(...) and the format {:03d} *)
(* ================================================================== *)

Module Dec.

Definition digit_val (c : ascii) : nat := code c - 48.

Definition digit_chr (d : nat) : ascii := ascii_of_nat (48 + d).

(** int(s) for a text of decimal digits. *)
Definition int_of (s : text) : nat :=
  fold_left (fun acc c => 10 * acc + digit_val c) s 0.

Fixpoint digits_fuel (fuel n : nat) (acc : text) : text :=
  match fuel with
  | 0 => acc
  | S fuel' =>
      let acc' := digit_chr (n mod 10) :: acc in
      if n / 10 =? 0 then acc' else digits_fuel fuel' (n / 10) acc'
  end.

(** str(n) *)
Definition digits (n : nat) : text := digits_fuel (S n) n [].

(** f"{n:03d}" *)
Definition format_03d (n : nat) : text :=
  let d := digits n in
  repeat (digit_chr 0) (3 - List.length d) ++ d.

End Dec.
Import Dec.

(* ================================================================== *)
(** * The workspace: files, clock, collaborators, printed output *)
(* ================================================================== *)

Module Fs.

(** A path relative to WORKSPACE, one name per component. *)
Definition path := list text.

Inductive node : Type :=
| File (content : text) (mtime : Z)     (* st_mtime in microseconds *)
| Dir.

Definition fs := list (path * node).

Fixpoint path_eqb (p q : path) : bool :=
  match p, q with
  | [], [] => true
  | a :: p', b :: q' => text_eqb a b && path_eqb p' q'
  | _, _ => false
  end.

Fixpoint lookup (p : path) (f : fs) : option node :=
  match f with
  | [] => None
  | (q, n) :: f' => if path_eqb p q then Some n else lookup p f'
  end.

(** Path.exists() *)
Definition exists_ (p : path) (f : fs) : bool :=
  match lookup p f with
  | Some _ => true
  | None => false
  end.

(** The workspace root is a directory that always exists. *)
Definition is_dir (p : path) (f : fs) : bool :=
  match p with
  | [] => true
  | _ :: _ =>
      match lookup p f with
      | Some Dir => true
      | _ => false
      end
  end.

(** Path.parent and Path.name *)
Definition parent (p : path) : path := removelast p.
Definition name (p : path) : text := last p [].

Fixpoint replace_node (p : path) (n : node) (f : fs) : fs :=
  match f with
  | [] => []
  | (q, m) :: f' =>
      if path_eqb p q then (q, n) :: f' else (q, m) :: replace_node p n f'
  end.

(** Path.write_text at time [now]; [None] is the OSError of open():
    the path is a directory, or its parent is not one. *)
Definition write_text (p : path) (c : text) (now : Z) (f : fs)
    : option fs :=
  match p with
  | [] => None
  | _ :: _ =>
      match lookup p f with
      | Some Dir => None
      | Some (File _ _) => Some (replace_node p (File c now) f)
      | None =>
          if is_dir (parent p) f then Some (f ++ [(p, File c now)])
          else None
      end
  end.

(** The text stored in the file at [p], if [p] is a file. *)
Definition file_text (p : path) (f : fs) : option text :=
  match lookup p f with
  | Some (File c _) => Some c
  | _ => None
  end.

(** Path.read_text, in text mode; [None] is the OSError of open(). *)
Definition read_text (p : path) (f : fs) : option text :=
  option_map universal_newlines (file_text p f).

(** Path.mkdir(exist_ok=True); [None] is FileExistsError on a file or
    FileNotFoundError on a missing parent. *)
Definition mkdir_exist_ok (p : path) (f : fs) : option fs :=
  match lookup p f with
  | Some Dir => Some f
  | Some (File _ _) => None
  | None =>
      match p with
      | [] => Some f
      | _ :: _ => if is_dir (parent p) f then Some (f ++ [(p, Dir)]) else None
      end
  end.

(** A name with a NUL character: the path is refused with ValueError
    (embedded null byte) before the system is asked. *)
Definition has_nul (p : path) : bool :=
  existsb (existsb (fun c => code c =? 0)) p.

(** [d] is a proper ancestor of [p]. *)
Fixpoint under (d p : path) : bool :=
  match d, p with
  | [], _ :: _ => true
  | a :: d', b :: p' => text_eqb a b && under d' p'
  | _, _ => false
  end.

(** d.glob(pattern) for a pattern without a separator: the entries
    directly in [d] whose name matches. *)
Definition glob (d : path) (pat : text -> bool) (f : fs)
    : list (path * node) :=
  filter (fun e => path_eqb (parent (fst e)) d
                   && negb (path_eqb (fst e) [])
                   && pat (name (fst e))) f.

(** d.rglob(pattern): the entries anywhere below [d] whose name
    matches. *)
Definition rglob (d : path) (pat : text -> bool) (f : fs)
    : list (path * node) :=
  filter (fun e => under d (fst e) && pat (name (fst e))) f.

End Fs.
Import Fs.

Module World.

(** How a subprocess.run(..., check=True) ends. *)
Inductive proc : Type :=
| Exit0              (* exit status 0 *)
| ExitNonZero        (* CalledProcessError *)
| NotLaunched.       (* OSError: the program cannot be started *)

(** The lines the commands print. *)
Inductive message : Type :=
| MsgNoActiveProject               (* "No active project. Use ':switch P00X' first" *)
| MsgNoActiveToStash               (* "No active project to stash" *)
| MsgProjectNotFound (pid : text)  (* "Project {pid} not found" *)
| MsgInvalidProjectId (pid : text) (* "Invalid project ID: {pid}" *)
| MsgSwitchUsage                   (* "Usage: :switch P00X" *)
| MsgGitCommitted (tid : text)     (* "Git: Committed task {tid}" *)
| MsgCreatedTask (tid pid : text)  (* "Created task: {tid} in {pid}" *)
| MsgFile (p : path)               (* "   File: {task_file}" *)
| MsgStashed (pid : text)          (* "Stashed project: {pid}" *)
| MsgSwitched (pid : text)         (* "Switched to project: {pid}" *)
| MsgPath (p : path)               (* "   Path: {project_folder}" *)
| MsgPreview (folder : text) (lines : list text)   (* README preview *)
| MsgGitHelperError.               (* "Git helper error: {e}" (warning) *)

Record world : Type := mkWorld {
  w_fs : fs;                      (* the files below WORKSPACE *)
  w_now : Z;                      (* datetime.now(), microseconds *)
  w_today : text;                 (* its strftime("%Y-%m-%d") *)
  w_git_add : proc;               (* how `git add <file>` ends *)
  w_git_commit : proc;            (* how `git commit -m ...` ends *)
  w_helper : text -> proc;        (* how gtd_git_helper.sh <cmd> ends *)
  w_out : list message            (* printed so far, oldest first *)
}.

Inductive exn : Type :=
| CalledProcessError
| OSError
| ValueError             (* embedded null byte in a path *)
| ReError                (* re.error *)
| IndexError.            (* unknown group name *)

(** The result of running a command.  [Unmodelled] marks an input
    outside the fragment this embedding follows (it is never used to
    stand for a behaviour of the code). *)
Inductive outcome (A : Type) : Type :=
| Ok (a : A) (w : world)
| Raise (e : exn) (w : world)
| Unmodelled.

Arguments Ok {A} a w.
Arguments Raise {A} e w.
Arguments Unmodelled {A}.

Definition M (A : Type) : Type := world -> outcome A.

Definition ret {A} (a : A) : M A := fun w => Ok a w.

Definition bind {A B} (m : M A) (k : A -> M B) : M B :=
  fun w =>
    match m w with
    | Ok a w' => k a w'
    | Raise e w' => Raise e w'
    | Unmodelled => Unmodelled
    end.

Definition raise {A} (e : exn) : M A := fun w => Raise e w.

Definition unmodelled {A} : M A := fun _ => Unmodelled.

Definition set_fs (f : fs) (w : world) : world :=
  mkWorld f (w_now w) (w_today w) (w_git_add w) (w_git_commit w)
          (w_helper w) (w_out w).

(** The world [w] with other files and other output. *)
Definition with_out (w : world) (out : list message) (f : fs) : world :=
  mkWorld f (w_now w) (w_today w) (w_git_add w) (w_git_commit w)
          (w_helper w) out.

Definition print (m : message) : M unit :=
  fun w => Ok tt (mkWorld (w_fs w) (w_now w) (w_today w) (w_git_add w)
                          (w_git_commit w) (w_helper w) (w_out w ++ [m])).

Definition m_exists (p : path) : M bool :=
  fun w => Ok (exists_ p (w_fs w)) w.

Definition m_read_text (p : path) : M text :=
  fun w =>
    match read_text p (w_fs w) with
    | Some c => Ok c w
    | None => Raise OSError w
    end.

Definition m_write_text (p : path) (c : text) : M unit :=
  fun w =>
    if has_nul p then Raise ValueError w
    else
      match write_text p c (w_now w) (w_fs w) with
      | Some f => Ok tt (set_fs f w)
      | None => Raise OSError w
      end.

Definition m_mkdir_exist_ok (p : path) : M unit :=
  fun w =>
    if has_nul p then Raise ValueError w
    else
      match mkdir_exist_ok p (w_fs w) with
      | Some f => Ok tt (set_fs f w)
      | None => Raise OSError w
      end.

(** The outcome of a re.sub whose replacement is a template. *)
Definition m_expanded (e : expansion) : M text :=
  match e with
  | Expanded t => ret t
  | BadEscape => raise ReError
  | UnknownGroup => raise IndexError
  | Unsettled => unmodelled
  end.

(** subprocess.run(..., check=True) *)
Definition m_run_checked (result : world -> proc) : M unit :=
  fun w =>
    match result w with
    | Exit0 => Ok tt w
    | ExitNonZero => Raise CalledProcessError w
    | NotLaunched => Raise OSError w
    end.

(** A command that leaves the clock and the collaborators alone: it can
    only change the files and print. *)
Definition keeps_env {A} (m : M A) : Prop :=
  forall w a w1, m w = Ok a w1 -> w1 = with_out w (w_out w1) (w_fs w1).

End World.
Import World.

Declare Scope gtd_scope.
Delimit Scope gtd_scope with gtd.
Notation "x <- m ;; k" := (bind m (fun x => k))
  (at level 61, m at next level, right associativity) : gtd_scope.
Notation "m ;;; k" := (bind m (fun _ => k))
  (at level 61, right associativity) : gtd_scope.

(* ================================================================== *)
(** * gtd_commands.py *)
(* ================================================================== *)

Module Gtd.

Local Open Scope gtd_scope.

Definition nl : text := [newline].

Definition ACTIVE_FILE : path := [str ".active"].
Definition PROJECTS_DIR : path := [str "projects"].
Definition MEMORY_DIR : path := [str "memory"].

(** A text usable as one path component and as a literal part of a glob
    pattern: no separator, no NUL, no glob metacharacter. *)
Definition plain_name (t : text) : bool :=
  forallb (fun c => negb (Ascii.eqb c "/" || Ascii.eqb c "*" ||
                          Ascii.eqb c "?" || Ascii.eqb c "[" ||
                          (code c =? 0))) t.

(** fnmatch of a name against "K[0-9]*.md" *)
Definition glob_K_digit_md (n : text) : bool :=
  match n with
  | k :: d :: rest =>
      Ascii.eqb k "K" && is_digit d && ends_with (str ".md") rest
  | _ => false
  end.

(** fnmatch of a name against "P[0-9]*" *)
Definition glob_P_digit (n : text) : bool :=
  match n with
  | p :: d :: _ => Ascii.eqb p "P" && is_digit d
  | _ => false
  end.

(** fnmatch of a name against f"{project_id}-*" *)
Definition glob_project (project_id : text) (n : text) : bool :=
  starts_with (project_id ++ str "-") n.

(** re.search(r'X(\d+)', name).group(1) for a letter X *)
Definition letter_digits (x : ascii) (n : text) : option text :=
  option_map (skipn 1) (Re.search false (Seq (Chr x) (Plus is_digit)) n).

(** The glob pattern get_next_id chooses: the task pattern for "K", the
    project pattern for anything else. *)
Definition kind_pattern (prefix : text) : text -> bool :=
  if text_eqb prefix (str "K") then glob_K_digit_md else glob_P_digit.

(** The list [ids] of get_next_id. *)
Definition scan_ids (prefix : text) (f : fs) : list nat :=
  let is_K := text_eqb prefix (str "K") in
  let pattern := kind_pattern prefix in
  flat_map
    (fun e =>
       match letter_digits (if is_K then "K"%char else "P"%char)
                           (name (fst e)) with
       | Some ds => [int_of ds]
       | None => []
       end)
    (rglob PROJECTS_DIR pattern f).

(** The numbers carried by the records of one kind: for every entry
    below projects/ whose name matches the pattern of the kind, the
    number written by the run of digits after the first letter. *)
Definition record_numbers (pattern : text -> bool) (f : fs) : list nat :=
  map (fun e => int_of (take_while is_digit (skipn 1 (name (fst e)))))
      (rglob PROJECTS_DIR pattern f).

Definition max_list (l : list nat) : nat := fold_right Nat.max 0 l.

Definition next_number (ids : list nat) : nat :=
  match ids with
  | [] => 1
  | _ :: _ => max_list ids + 1
  end.

Definition get_next_id (prefix : text) : M text :=
  fun w => Ok (prefix ++ format_03d (next_number (scan_ids prefix (w_fs w)))) w.

(** [None] is Python's None; the file content is stripped. *)
Definition get_active_project : M (option text) :=
  e <- m_exists ACTIVE_FILE ;;
  if e then (c <- m_read_text ACTIVE_FILE ;; ret (Some (strip c)))
  else ret None.

Definition set_active_project (project_id : text) : M unit :=
  m_write_text ACTIVE_FILE project_id.

(** Python's truth value of an optional text. *)
Definition truthy (o : option text) : bool :=
  match o with
  | Some (_ :: _) => true
  | _ => false
  end.

(** update_memory(message) *)
Definition update_memory (message : text) : M unit :=
  fun w =>
    let memory_file := MEMORY_DIR ++ [w_today w ++ str ".md"] in
    (e <- m_exists memory_file ;;
     (if e then ret tt
      else m_write_text memory_file
             (str "# Memory: " ++ w_today w ++ nl ++ nl ++
              str "## Activities" ++ nl)) ;;;
     m_write_text memory_file (str "- " ++ message ++ nl)) w.

Definition helper_commands : list text :=
  [str "commit"; str "push"; str "status"; str "stash"; str "init"].

(** call_git_helper(command, message): a CalledProcessError is caught,
    reported and answered with False; nothing else is caught. *)
Definition call_git_helper (command : text) : M bool :=
  if existsb (text_eqb command) helper_commands then
    fun w =>
      match w_helper w command with
      | Exit0 => Ok true w
      | ExitNonZero => (print MsgGitHelperError ;;; ret false) w
      | NotLaunched => Raise OSError w
      end
  else ret true.

(** The UTF-8 bytes of the arrow that opens a parent link. *)
Definition up_arrow : text := map ascii_of_nat [226; 134; 145].

(** The optional keyword arguments of create_task that reach the
    template ([tags] is the str() of the list). *)
Record kwargs : Type := mkKwargs {
  kw_energy : option text;
  kw_due : option text;
  kw_context : option text;
  kw_tags : option text;
  kw_notes : option text
}.

Definition no_kwargs : kwargs := mkKwargs None None None None None.

(** kwargs.get(key, default) *)
Definition kw_get (o : option text) (default : text) : text :=
  match o with
  | Some v => v
  | None => default
  end.

Definition line (parts : list text) : text := List.concat parts ++ nl.

(** TASK_TEMPLATE.format(...) *)
Definition TASK_TEMPLATE (id project title status energy due context tags
    created project_name notes : text) : text :=
  List.concat
    [ line [str "---"];
      line [str "id: "; id];
      line [str "project: "; project];
      line [str "title: "; title];
      line [str "status: "; status];
      line [str "energy: "; energy];
      line [str "due: "; due];
      line [str "context: "; context];
      line [str "tags: "; tags];
      line [str "created: "; created];
      line [str "---"];
      line [];
      line [str "# "; title];
      line [];
      line [up_arrow; str " Part of [[../README|P"; project; str " ";
            project_name; str "]]"];
      line [];
      line [str "## Context"];
      line [context];
      line [];
      line [str "## Next Action"];
      line [str "- [ ] [Specific next step] #next"];
      line [];
      line [str "## Definition of Done"];
      line [str "- [ ] [Criteria 1]"];
      line [str "- [ ] [Criteria 2]"];
      line [];
      line [str "## Notes"];
      line [notes] ].

(** s.split(sep)[1] for a text [s] that starts with [sep]: what lies
    between the leading [sep] and the next one (or the end). *)
Fixpoint until_sep (sep s : text) : text :=
  match s with
  | [] => []
  | c :: s' => if starts_with sep s then [] else c :: until_sep sep s'
  end.

Definition split_1 (sep s : text) : text :=
  until_sep sep (skipn (List.length sep) s).

(** title.lower().replace(" ", "-")[:50] *)
Definition slug_of (title : text) : text :=
  firstn 50 (replace_char " " (str "-") (to_lower title)).

Definition tasks_heading : text := str "## Tasks" ++ nl.

(** f"- [ ] [[tasks/{task_id}|{task_id}]]: {title} #next\n" *)
Definition task_ref_line (task_id title : text) : text :=
  str "- [ ] [[tasks/" ++ task_id ++ str "|" ++ task_id ++ str "]]: " ++
  title ++ str " #next" ++ nl.

(** re.sub(r'## Tasks\n', f'## Tasks\n{new_task}', readme_content):
    the title is part of the replacement template. *)
Definition insert_task_ref (task_id title readme_content : text)
    : expansion :=
  Re.sub tasks_heading (tasks_heading ++ task_ref_line task_id title)
         readme_content.

Definition has_backslash (t : text) : bool := existsb is_backslash t.

(** A text usable as part of one file name: no separator and no NUL. *)
Definition one_component (t : text) : bool :=
  forallb (fun c => negb (Ascii.eqb c "/" || (code c =? 0))) t.

Definition README (project_folder : path) : path :=
  project_folder ++ [str "README.md"].

(** The step "Update project README with task link" of create_task. *)
Definition update_readme (project_folder : path) (task_id title : text)
    : M unit :=
  let readme := README project_folder in
  e <- m_exists readme ;;
  if e then
    readme_content <- m_read_text readme ;;
    if contains tasks_heading readme_content then
      new_content <-
        m_expanded (insert_task_ref task_id title readme_content) ;;
      m_write_text readme new_content
    else ret tt
  else ret tt.

(** The first five lines of a filled TASK_TEMPLATE. *)
Definition record_header (id project title status : text) : text :=
  List.concat
    [ line [str "---"];
      line [str "id: "; id];
      line [str "project: "; project];
      line [str "title: "; title];
      line [str "status: "; status] ].

(** The components pathlib makes of a text that is joined to a path:
    the pieces between the separators, without the empty pieces and the
    pieces ".". *)
Definition path_parts (t : text) : path :=
  filter (fun piece => negb (text_eqb piece [] || text_eqb piece (str ".")))
         (split_char "/" t).

(** f"{task_id}-{slug}.md" *)
Definition task_file_name (task_id slug : text) : text :=
  task_id ++ str "-" ++ slug ++ str ".md".

(** project_folder / "tasks" / f"{task_id}-{slug}.md": a separator in
    the slug opens a directory level. *)
Definition task_file_of (project_folder : path) (task_id slug : text)
    : path :=
  project_folder ++ str "tasks" :: path_parts (task_file_name task_id slug).

(** The call TASK_TEMPLATE.format(...) of create_task, with the defaults
    of the keyword arguments. *)
Definition task_content (task_id project_id title status : text)
    (kw : kwargs) (created project_name : text) : text :=
  TASK_TEMPLATE task_id project_id title status
    (kw_get (kw_energy kw) (str "medium"))
    (kw_get (kw_due kw) [])
    (kw_get (kw_context kw) (str "computer"))
    (kw_get (kw_tags kw) (str "['next']"))
    created
    project_name
    (kw_get (kw_notes kw) []).

(** create_task(title, project_id=None, status="next", **kwargs);
    an omitted [status] is [None] here.  The answer [None] is Python's
    None, [Some task_id] the identifier of the created task.  Two
    kinds of input are left out of the embedding: a title that puts a
    component ".." into the path of the record (the path then steps
    back through a directory, possibly out of the workspace), and a
    project identifier with a glob metacharacter. *)
Definition create_task (title : text) (project_id : option text)
    (status : option text) (kw : kwargs) : M (option text) :=
  let status := kw_get status (str "next") in
  chosen <- (if truthy project_id then ret project_id
             else get_active_project) ;;
  if negb (truthy chosen) then
    print MsgNoActiveProject ;;; ret None
  else
    let project_id := kw_get chosen [] in
    if negb (plain_name project_id) then unmodelled
    else fun w =>
      match glob PROJECTS_DIR (glob_project project_id) (w_fs w) with
      | [] => (print (MsgProjectNotFound project_id) ;;; ret None) w
      | (project_folder, _) :: _ =>
          (let project_name :=
             split_1 (project_id ++ str "-") (name project_folder) in
           task_id <- get_next_id (str "K") ;;
           let slug := slug_of title in
           if existsb (text_eqb (str ".."))
                      (path_parts (task_file_name task_id slug))
           then unmodelled
           else
             let task_file := task_file_of project_folder task_id slug in
             m_mkdir_exist_ok (parent task_file) ;;;
             (fun w1 =>
                m_write_text task_file
                  (task_content task_id project_id title status kw
                     (w_today w1) project_name) w1) ;;;
             m_run_checked w_git_add ;;;
             m_run_checked w_git_commit ;;;
             print (MsgGitCommitted task_id) ;;;
             update_readme project_folder task_id title ;;;
             print (MsgCreatedTask task_id project_id) ;;;
             print (MsgFile task_file) ;;;
             _ <- call_git_helper (str "commit") ;;
             ret (Some task_id)) w
      end.

Definition STASH_DIR : path := PROJECTS_DIR ++ [str "P000-STASH"].

Definition stashed_false : text := str "stashed: false".
Definition stashed_true : text := str "stashed: true".

(** content = re.sub(r'stashed: false', 'stashed: true', content) and
    its converse, on the README of a project folder if there is one. *)
Definition rewrite_readme (pat rep : text) (project_folder : path)
    : M unit :=
  let readme := README project_folder in
  e <- m_exists readme ;;
  if e then
    content <- m_read_text readme ;;
    m_write_text readme (sub_lit pat rep 0 content)
  else ret tt.

(** f"[[{project_folder.name}/README|{project_id}]]" *)
Definition project_link (project_folder : path) (project_id : text) : text :=
  str "[[" ++ name project_folder ++ str "/README|" ++ project_id ++
  str "]]".

(** cmd_stash(args) *)
Definition cmd_stash : M bool :=
  active <- get_active_project ;;
  if negb (truthy active) then
    print MsgNoActiveToStash ;;; ret false
  else
    let project_id := kw_get active [] in
    if negb (plain_name project_id) then unmodelled
    else fun w =>
      match glob PROJECTS_DIR (glob_project project_id) (w_fs w) with
      | [] => (print (MsgProjectNotFound project_id) ;;; ret false) w
      | (project_folder, _) :: _ =>
          (rewrite_readme stashed_false stashed_true project_folder ;;;
           m_write_text (STASH_DIR ++ [project_id ++ str ".md"])
             (up_arrow ++ str " Project: " ++
              project_link project_folder project_id ++ nl ++ nl) ;;;
           m_write_text ACTIVE_FILE [] ;;;
           print (MsgStashed project_id) ;;;
           update_memory (str "Stashed project " ++
                          project_link project_folder project_id) ;;;
           _ <- call_git_helper (str "stash") ;;
           ret true) w
      end.

(** re.match(r'^P\d+$', project_id) *)
Definition valid_project_id (project_id : text) : bool :=
  match_start (Seq (Chr "P") (Seq (Plus is_digit) Eol)) project_id.

(** cmd_switch(args) *)
Definition cmd_switch (args : list text) : M bool :=
  match args with
  | [] => print MsgSwitchUsage ;;; ret false
  | project_id :: _ =>
      if negb (valid_project_id project_id) then
        print (MsgInvalidProjectId project_id) ;;; ret false
      else fun w =>
        match glob PROJECTS_DIR (glob_project project_id) (w_fs w) with
        | [] => (print (MsgProjectNotFound project_id) ;;; ret false) w
        | (project_folder, _) :: _ =>
            (rewrite_readme stashed_true stashed_false project_folder ;;;
             set_active_project project_id ;;;
             print (MsgSwitched project_id) ;;;
             print (MsgPath project_folder) ;;;
             _ <- call_git_helper (str "commit") ;;
             e <- m_exists (README project_folder) ;;
             (if e then
                content <- m_read_text (README project_folder) ;;
                print (MsgPreview (name project_folder)
                         (firstn 15 (split_char newline content)))
              else ret tt) ;;;
             ret true) w
        end
  end.

(** " ".join(parts) *)
Fixpoint join_words (parts : list text) : text :=
  match parts with
  | [] => []
  | [a] => a
  | a :: rest => a ++ str " " ++ join_words rest
  end.

(** The loop of cmd_defer over its arguments: the last argument that
    looks like a project identifier, and the other arguments in their
    order. *)
Definition defer_args (args : list text) : option text * list text :=
  fold_left
    (fun (st : option text * list text) (arg : text) =>
       if valid_project_id arg then (Some arg, snd st)
       else (fst st, snd st ++ [arg]))
    args (None, []).

(** f"Deferred task [[projects/*/tasks/{task_id}|{task_id}]]: {title}" *)
Definition deferred_message (task_id title : text) : text :=
  str "Deferred task [[projects/*/tasks/" ++ task_id ++ str "|" ++ task_id ++
  str "]]: " ++ title.

(** cmd_defer(args).  The call without arguments, which only prints
    the usage line, is left out of the embedding. *)
Definition cmd_defer (args : list text) : M bool :=
  match args with
  | [] => unmodelled
  | _ :: _ =>
      let project_id := fst (defer_args args) in
      let title := join_words (snd (defer_args args)) in
      task_id <- create_task title project_id (Some (str "later"))
                             no_kwargs ;;
      if truthy task_id then
        update_memory (deferred_message (kw_get task_id []) title) ;;;
        ret true
      else ret false
  end.

(** f"Created task [[projects/*/tasks/{task_id}|{task_id}]]: {title}" *)
Definition created_message (task_id title : text) : text :=
  str "Created task [[projects/*/tasks/" ++ task_id ++ str "|" ++ task_id ++
  str "]]: " ++ title.

(** cmd_add_task(args).  The call without arguments, which only prints
    the usage line, is left out of the embedding. *)
Definition cmd_add_task (args : list text) : M bool :=
  match args with
  | [] => unmodelled
  | _ :: _ =>
      let title := join_words args in
      task_id <- create_task title None None no_kwargs ;;
      if truthy task_id then
        update_memory (created_message (kw_get task_id []) title) ;;;
        ret true
      else ret false
  end.

(** What strftime("%Y-%m-%d") returns: digits and hyphens, a text that
    stands for itself as a pattern and as a template. *)
Definition is_date (today : text) : bool :=
  forallb (fun c => is_digit c || Ascii.eqb c "-") today.

(** The new content of Someday.md in cmd_later, for the date [today]
    and the item [title], from the content read.  Without the text
    "## {today}" in the content, str.replace puts a new section after
    every line "---"; with it, re.sub puts the entry after every
    heading line of today, the title being part of the replacement
    template.  A [today] that is no date is outside the embedding. *)
Definition later_content (today title content : text) : expansion :=
  let entry := str "- [ ] " ++ title ++ nl in
  let heading := str "## " ++ today in
  if negb (is_date today) then Unsettled
  else if negb (contains heading content) then
    (* content.replace("---\n", f"---\n\n## {today}\n{entry}") *)
    Expanded (sub_lit (str "---" ++ nl)
                      (str "---" ++ nl ++ nl ++ heading ++ nl ++ entry)
                      0 content)
  else
    (* re.sub(f"## {today}\n", f"## {today}\n{entry}", content) *)
    Re.sub (heading ++ nl) (heading ++ nl ++ entry) content.

End Gtd.
Import Gtd.

(* ================================================================== *)
(** * gtd_health_alerts.py *)
(* ================================================================== *)

Module Health.

Local Open Scope gtd_scope.
Local Open Scope Z_scope.

(** One alert line; each constructor is one f-string of the script. *)
Inductive alert : Type :=
| AlertWaiting (task_file : path) (task_id title : text) (days : Z)
    (* "[[{task_file}|{task_id}]]: {title} ({days} days) - Waiting" *)
| AlertNext (task_file : path) (task_id title : text) (days : Z)
    (* "... ({days} days) - Next > 7 days -> break down or demote?" *)
| AlertStash (project_link project_id : text) (days : Z)
    (* "[[{project_link}|{project_id}]] stashed for {days} days - Recall?" *)
| AlertInbox (inbox_count : nat).
    (* "{inbox_count} tasks in inbox - Consider triage" *)

Inductive alert_kind : Type :=
| WaitingStale | NextStale | StashStale | InboxOverflow.

Definition kind_of (a : alert) : alert_kind :=
  match a with
  | AlertWaiting _ _ _ _ => WaitingStale
  | AlertNext _ _ _ _ => NextStale
  | AlertStash _ _ _ => StashStale
  | AlertInbox _ => InboxOverflow
  end.

(** timedelta(days=1) in microseconds *)
Definition day : Z := 86400 * 1000000.

(** (datetime.now() - mtime).days *)
Definition days_between (now mtime : Z) : Z := (now - mtime) / day.

(** fnmatch of a name against "X*.md" for a letter X *)
Definition glob_letter_md (x : ascii) (n : text) : bool :=
  match n with
  | c :: rest => Ascii.eqb c x && ends_with (str ".md") rest
  | [] => false
  end.

(** re.search(r'id: (K\d+)', content).group(1) *)
Definition id_match (content : text) : option text :=
  option_map (skipn 4)
    (Re.search false (Seq (lit "id: K") (Plus is_digit)) content).

(** re.search(r'title: ([^\n]+)', content).group(1) *)
Definition title_match (content : text) : option text :=
  option_map (skipn 7)
    (Re.search false (Seq (lit "title: ") (Plus dot)) content).

(** One of the two blocks of the loop body of check_aging_tasks. *)
Definition aging_rule (status : string) (limit : Z)
    (mk : path -> text -> text -> Z -> alert)
    (now : Z) (task_file : path) (content : text) (mtime : Z)
    : list alert :=
  if contains (str status) content && (mtime <? now - limit * day) then
    match id_match content, title_match content with
    | Some task_id, Some title =>
        [mk task_file task_id title (days_between now mtime)]
    | _, _ => []
    end
  else [].

(** What one task file appends to [alerts] in check_aging_tasks. *)
Definition task_alerts (now : Z) (task_file : path) (content : text)
    (mtime : Z) : list alert :=
  aging_rule "status: waiting" 3 AlertWaiting now task_file content mtime ++
  aging_rule "status: next" 7 AlertNext now task_file content mtime.

(** The loop over the files a glob yields: the body receives the path,
    the text read_text hands over and the modification time; [None]
    when read_text meets a directory. *)
Fixpoint for_files {A} (body : path -> text -> Z -> list A)
    (entries : list (path * node)) : option (list A) :=
  match entries with
  | [] => Some []
  | (p, File c t) :: rest =>
      match for_files body rest with
      | Some l => Some (body p (universal_newlines c) t ++ l)
      | None => None
      end
  | (_, Dir) :: _ => None
  end.

Definition task_files (f : fs) : list (path * node) :=
  rglob PROJECTS_DIR (glob_letter_md "K") f.

Definition check_aging_tasks : M (list alert) :=
  fun w =>
    match for_files (task_alerts (w_now w)) (task_files (w_fs w)) with
    | Some alerts => Ok alerts w
    | None => Raise OSError w
    end.

Definition not_bar_bracket (c : ascii) : bool :=
  negb (Ascii.eqb c "|" || Ascii.eqb c "]").

(** re.search(r'\[\[([^|\]]+)\|([^|\]]+)\]\]', content), groups 1, 2 *)
Definition project_match (content : text) : option (text * text) :=
  match Re.search false
          (Seq (lit "[[") (Seq (Plus not_bar_bracket)
             (Seq (Chr "|") (Seq (Plus not_bar_bracket) (lit "]]")))))
          content with
  | Some m =>
      let inner := firstn (List.length m - 4) (skipn 2 m) in
      Some (take_while not_bar_bracket inner,
            skipn 1 (drop_while not_bar_bracket inner))
  | None => None
  end.

(** What one stash file appends to [alerts]. *)
Definition stash_alerts (now : Z) (stash_file : path) (content : text)
    (mtime : Z) : list alert :=
  if mtime <? now - 7 * day then
    match project_match content with
    | Some (project_link, project_id) =>
        [AlertStash project_link project_id (days_between now mtime)]
    | None => []
    end
  else [].

Definition stash_files (f : fs) : list (path * node) :=
  glob STASH_DIR (glob_letter_md "P") f.

(** A directory named P*.md in the stash directory is outside the
    embedding (directories carry no mtime here). *)
Definition check_stashed_projects : M (list alert) :=
  fun w =>
    if exists_ STASH_DIR (w_fs w) then
      match for_files (stash_alerts (w_now w)) (stash_files (w_fs w)) with
      | Some alerts => Ok alerts w
      | None => Unmodelled
      end
    else Ok [] w.

Definition inbox_count (entries : list (path * node)) : option nat :=
  option_map (@List.length unit)
    (for_files (fun _ content _ =>
                  if contains (str "status: inbox") content then [tt]
                  else []) entries).

Definition check_inbox_overflow : M (list alert) :=
  fun w =>
    match inbox_count (task_files (w_fs w)) with
    | Some n => Ok (if (10 <? Z.of_nat n) then [AlertInbox n] else []) w
    | None => Raise OSError w
    end.

Definition is_file (e : path * node) : bool :=
  match snd e with
  | File _ _ => true
  | Dir => false
  end.

(** What the loop body yields for one entry that is a file. *)
Definition on_file {A} (body : path -> text -> Z -> list A)
    (e : path * node) : list A :=
  match e with
  | (p, File c t) => body p (universal_newlines c) t
  | (_, Dir) => []
  end.

Definition has_kind (k : alert_kind) (a : alert) : bool :=
  match k, kind_of a with
  | WaitingStale, WaitingStale => true
  | NextStale, NextStale => true
  | StashStale, StashStale => true
  | InboxOverflow, InboxOverflow => true
  | _, _ => false
  end.

Definition generate_alerts : M (list alert) :=
  a <- check_aging_tasks ;;
  s <- check_stashed_projects ;;
  i <- check_inbox_overflow ;;
  ret (a ++ s ++ i).

(** The age or count an alert reports is beyond the limit of its rule. *)
Definition beyond_limit (a : alert) : Prop :=
  match a with
  | AlertWaiting _ _ _ days => 3 <= days
  | AlertNext _ _ _ days => 7 <= days
  | AlertStash _ _ days => 7 <= days
  | AlertInbox inbox_count => (11 <= inbox_count)%nat
  end.

(** The entry is a file whose text, as read, contains the given
    words. *)
Definition file_says (words : string) (e : path * node) : bool :=
  match snd e with
  | File content _ => contains (str words) (universal_newlines content)
  | Dir => false
  end.

End Health.
Import Health.

(* ================================================================== *)
(** * Concrete workspaces and inputs *)
(* ================================================================== *)

Module Examples.

Definition covered_input : text := str "Also, but we already covered that.".
Definition covered_sentence : text := str "Also, but we already covered that".

(** PROJECT_TEMPLATE filled in for a project P001: what stands before
    the value of the stashed flag, and what stands after it. *)
Definition readme_pre (title : string) : text :=
  List.concat
    [ line [str "---"];
      line [str "id: P001"];
      line [str "title: "; str title];
      line [str "status: active"];
      line [str "area: home"];
      line [str "created: 2026-01-01"] ].

Definition readme_post : text :=
  nl ++
  List.concat
    [ line [str "tags: [project]"];
      line [str "---"];
      line [];
      line [str "# Demo"];
      line [];
      line [str "## Overview"];
      line [str "A demo project"];
      line [];
      line [str "## Tasks"];
      line [str "- [ ] [[tasks/K001|K001]]: [First task] #next"];
      line [];
      line [str "## Last Session"];
      line [str "[2026-01-01] - Initial project creation"] ].

Definition readme_P001 : text :=
  readme_pre "Demo" ++ stashed_false ++ readme_post.

(** The same index document for a project whose title quotes the flag. *)
Definition readme_quoting : text :=
  readme_pre "Why stashed: false stays" ++ stashed_false ++ readme_post.

Definition P001_folder : path := [str "projects"; str "P001-demo"].

(** A workspace with one project and no stash directory yet. *)
Definition fs_fresh : fs :=
  [ ([str "projects"], Dir);
    (P001_folder, Dir);
    (README P001_folder, File readme_P001 0%Z);
    ([str "memory"], Dir) ].

(** The same workspace with the stash directory. *)
Definition fs_with_stash : fs :=
  fs_fresh ++ [(STASH_DIR, Dir)].

Definition all_fine (f : fs) : world :=
  mkWorld f 1000%Z (str "2026-01-02") Exit0 Exit0 (fun _ => Exit0) [].

Definition w_fresh : world := all_fine fs_fresh.
Definition w_with_stash : world := all_fine fs_with_stash.

(** P001 is the active project. *)
Definition w_active : world :=
  all_fine (fs_with_stash ++ [(ACTIVE_FILE, File (str "P001") 0%Z)]).

(** P001 is active and its title quotes the flag. *)
Definition w_quoting : world :=
  all_fine [ ([str "projects"], Dir);
             (P001_folder, Dir);
             (README P001_folder, File readme_quoting 0%Z);
             ([str "memory"], Dir);
             (STASH_DIR, Dir);
             (ACTIVE_FILE, File (str "P001") 0%Z) ].

(** A text with the line ends "\r\n". *)
Definition crlf (s : text) : text :=
  flat_map (fun c => if is_lf c then [ascii_of_nat 13; c] else [c]) s.

(** P001 is active and its index document is stored with "\r\n". *)
Definition w_crlf : world :=
  all_fine [ ([str "projects"], Dir);
             (P001_folder, Dir);
             (README P001_folder, File (crlf readme_P001) 0%Z);
             ([str "memory"], Dir);
             (STASH_DIR, Dir);
             (ACTIVE_FILE, File (str "P001") 0%Z) ].

(** The world a command leaves, however it ends. *)
Definition world_after {A} (o : outcome A) (default : world) : world :=
  match o with
  | Ok _ w => w
  | Raise _ w => w
  | Unmodelled => default
  end.

(** A task record of P001 with the given identifier and status. *)
Definition sample_task (id status : string) : text :=
  task_content (str id) (str "P001") (str "Call back") (str status)
               no_kwargs (str "2026-01-02") (str "demo").

Definition sample_task_file (file : string) : path :=
  P001_folder ++ [str "tasks"; str file].

Definition hour : Z := (3600 * 1000000)%Z.

(** Two old task records: the first one the scan meets is a "next"
    task, the second a "waiting" task. *)
Definition w_two_tasks : world :=
  mkWorld
    [ ([str "projects"], Dir);
      (P001_folder, Dir);
      (P001_folder ++ [str "tasks"], Dir);
      (sample_task_file "K001-plan.md", File (sample_task "K001" "next") 0%Z);
      (sample_task_file "K002-call-back.md",
       File (sample_task "K002" "waiting") 0%Z) ]
    (30 * day)%Z (str "2026-01-31") Exit0 Exit0 (fun _ => Exit0) [].

(** `git commit` fails. *)
Definition w_commit_fails : world :=
  mkWorld fs_with_stash 1000%Z (str "2026-01-02") Exit0 ExitNonZero
          (fun _ => Exit0) [].

(** The helper script fails. *)
Definition w_helper_fails : world :=
  mkWorld fs_with_stash 1000%Z (str "2026-01-02") Exit0 Exit0
          (fun _ => ExitNonZero) [].

Definition first_task_file : path :=
  task_file_of P001_folder (str "K001") (str "write-spec").


(** The workspace after the first task was created in P001. *)
Definition first_task_world : world :=
  world_after (create_task (str "Write spec") (Some (str "P001")) None
                           no_kwargs w_with_stash) w_with_stash.

(** A second task whose title holds a separator, and where its record
    goes. *)
Definition slash_title : text := str "Fix a/b test".

Definition slash_task_file : path :=
  P001_folder ++ [str "tasks"; str "K002-fix-a"; str "b-test.md"].

Definition slash_task_world : world :=
  world_after (create_task slash_title (Some (str "P001")) None no_kwargs
                           first_task_world) first_task_world.

End Examples.
Import Examples.

(** Splitting conjunctions only, and closing closed goals by
    evaluation. *)
Ltac conj := match goal with |- _ /\ _ => split end.
Ltac evaluate := repeat conj; vm_compute; reflexivity.

(* ================================================================== *)
(** * Properties of the aside detector *)
(* ================================================================== *)

Section AsideProps.

Import Asides.

(** Every aside that is reported comes from a sentence that no ignore
    pattern matches and that some trigger matches. *)
Lemma detect_asides_sound (t s : text) (ty : aside_type) :
  In (s, ty) (detect_asides t) ->
  ignored s = false /\ triggered s = true /\ ty = infer_aside_type s.
Proof.
  unfold detect_asides. rewrite in_flat_map.
  intros [raw [_ Hin]]. unfold sentence_asides in Hin.
  destruct (strip raw) as [|c rest] eqn:Hs; [contradiction|].
  destruct (ignored (c :: rest)) eqn:Hi; [contradiction|].
  destruct (triggered (c :: rest)) eqn:Ht; [|contradiction].
  destruct Hin as [Heq|[]]. inversion Heq; subst. auto.
Qed.

(** C9. The ignore patterns are tested, case-insensitively, before the
    triggers, and a match suppresses the sentence: a sentence of the
    input that an ignore pattern matches contributes no aside, whatever
    the triggers say; the input "Also, but we already covered that."
    consists of a sentence that both an ignore pattern and a trigger
    match, and yields no aside. *)
Theorem ignore_precedence :
  (forall (t raw : text) (ty : aside_type),
      In raw (sentences t) ->
      ignored (strip raw) = true ->
      sentence_asides raw = [] /\ ~ In (strip raw, ty) (detect_asides t)) /\
  In covered_sentence (sentences covered_input) /\
  ignored covered_sentence = true /\
  triggered covered_sentence = true /\
  detect_asides covered_input = [].
Proof.
  split.
  - intros t raw ty _ Hign. split.
    + unfold sentence_asides. destruct (strip raw); [reflexivity|].
      now rewrite Hign.
    + intros Hin. apply detect_asides_sound in Hin.
      destruct Hin as [Hno _]. congruence.
  - repeat conj; vm_compute; auto.
Qed.

Lemma ignore_precedence_witness :
  In (str "Also, however it went") (sentences (str "Also, however it went! Oh, nice.")) /\
  ignored (strip (str "Also, however it went")) = true /\
  sentence_asides (str "Also, however it went") = [] /\
  ~ In (strip (str "Also, however it went"), LaterStandalone)
       (detect_asides (str "Also, however it went! Oh, nice.")).
Proof.
  assert (H1 : In (str "Also, however it went")
                  (sentences (str "Also, however it went! Oh, nice."))).
  { vm_compute. left. reflexivity. }
  assert (H2 : ignored (strip (str "Also, however it went")) = true).
  { vm_compute. reflexivity. }
  destruct (proj1 ignore_precedence _ _ LaterStandalone H1 H2) as [Ha Hb].
  repeat split; assumption.
Defined.

End AsideProps.

(* ================================================================== *)
(** * Basic facts: texts, decimal numbers, the regex engine *)
(* ================================================================== *)

Section TextFacts.

Lemma text_eqb_refl (a : text) : text_eqb a a = true.
Proof.
  induction a as [|c a IH]; simpl; [reflexivity|].
  now rewrite Ascii.eqb_refl, IH.
Qed.

Lemma text_eqb_eq (a b : text) : text_eqb a b = true <-> a = b.
Proof.
  split.
  - revert b. induction a as [|x a IH]; intros [|y b]; simpl; try easy.
    rewrite andb_true_iff, Ascii.eqb_eq. intros [-> H]. f_equal. now apply IH.
  - intros ->. apply text_eqb_refl.
Qed.

Lemma text_eqb_neq (a b : text) : a <> b -> text_eqb a b = false.
Proof.
  intros H. destruct (text_eqb a b) eqn:E; [|reflexivity].
  apply text_eqb_eq in E. contradiction.
Qed.

Lemma path_eqb_eq (p q : path) : path_eqb p q = true <-> p = q.
Proof.
  split.
  - revert q. induction p as [|x p IH]; intros [|y q]; simpl; try easy.
    rewrite andb_true_iff, text_eqb_eq. intros [-> H]. f_equal. now apply IH.
  - intros ->. induction q as [|x q IH]; simpl; [reflexivity|].
    now rewrite text_eqb_refl, IH.
Qed.

Lemma starts_with_app (p s : text) : starts_with p (p ++ s) = true.
Proof.
  induction p as [|c p IH]; simpl; [reflexivity|].
  now rewrite Ascii.eqb_refl, IH.
Qed.


Lemma take_drop_while (p : ascii -> bool) (s : text) :
  take_while p s ++ drop_while p s = s.
Proof.
  induction s as [|c s IH]; simpl; [reflexivity|].
  destruct (p c); simpl; [now rewrite IH | reflexivity].
Qed.

Lemma take_while_length (p : ascii -> bool) (s : text) :
  firstn (List.length s - List.length (drop_while p s)) s = take_while p s.
Proof.
  rewrite <- (take_drop_while p s) at 1 3.
  rewrite length_app.
  replace (List.length (take_while p s) + List.length (drop_while p s)
           - List.length (drop_while p s))
    with (List.length (take_while p s) + 0) by lia.
  rewrite firstn_app_2. simpl. now rewrite app_nil_r.
Qed.

Lemma take_while_all (p : ascii -> bool) (a b : text) :
  forallb p a = true ->
  take_while p (a ++ b) = a ++ take_while p b.
Proof.
  induction a as [|c a IH]; simpl; [reflexivity|].
  rewrite andb_true_iff. intros [Hc Ha]. rewrite Hc. now rewrite IH.
Qed.

(** ** Text mode *)

Lemma read_newlines_plain (s : text) :
  no_cr s = true -> read_newlines false s = s.
Proof.
  induction s as [|c s IH]; [reflexivity|].
  unfold no_cr in *. cbn [forallb read_newlines andb].
  rewrite andb_true_iff, negb_true_iff. intros [Hc Hs].
  rewrite Hc. now rewrite IH.
Qed.

Lemma universal_newlines_plain (s : text) :
  no_cr s = true -> universal_newlines s = s.
Proof. apply read_newlines_plain. Qed.



Lemma no_cr_app (a b : text) : no_cr (a ++ b) = no_cr a && no_cr b.
Proof. apply forallb_app. Qed.

(** A stretch without carriage return at the start is read as it is. *)
Lemma read_newlines_app_plain (a s : text) :
  no_cr a = true ->
  read_newlines false (a ++ s) = a ++ read_newlines false s.
Proof.
  induction a as [|c a IH]; [reflexivity|].
  unfold no_cr in *. cbn [forallb app read_newlines andb].
  rewrite andb_true_iff, negb_true_iff. intros [Hc Ha].
  rewrite Hc. now rewrite IH.
Qed.

Lemma digits_no_cr (ds : text) :
  forallb is_digit ds = true -> no_cr ds = true.
Proof.
  unfold no_cr. induction ds as [|c ds IH]; [reflexivity|].
  cbn [forallb]. rewrite andb_true_iff. intros [Hc Hds].
  rewrite (IH Hds), andb_true_r. apply negb_true_iff.
  unfold is_digit in Hc. apply andb_true_iff in Hc.
  rewrite !Nat.leb_le in Hc. apply Nat.eqb_neq. lia.
Qed.



End TextFacts.

Section DecFacts.

Lemma digit_val_chr (d : nat) : d < 10 -> digit_val (digit_chr d) = d.
Proof.
  intros H. unfold digit_val, digit_chr, code.
  rewrite nat_ascii_embedding by lia. lia.
Qed.

Lemma is_digit_chr (d : nat) : d < 10 -> is_digit (digit_chr d) = true.
Proof.
  intros H. unfold is_digit, digit_chr, code.
  rewrite nat_ascii_embedding by lia.
  apply andb_true_iff. split; apply Nat.leb_le; lia.
Qed.

Lemma fold_digits_fuel (fuel n : nat) (acc : text) :
  n < fuel ->
  fold_left (fun a c => 10 * a + digit_val c) (digits_fuel fuel n acc) 0 =
  fold_left (fun a c => 10 * a + digit_val c) acc n.
Proof.
  revert n acc. induction fuel as [|fuel IH]; intros n acc Hn; [lia|].
  cbn [digits_fuel]. pose proof (Nat.mod_upper_bound n 10 ltac:(lia)) as Hm.
  pose proof (Nat.div_mod_eq n 10) as Hd.
  destruct (n / 10 =? 0) eqn:E.
  - apply Nat.eqb_eq in E. cbn [fold_left]. rewrite digit_val_chr by lia.
    f_equal. lia.
  - apply Nat.eqb_neq in E. rewrite IH by lia. cbn [fold_left].
    rewrite digit_val_chr by lia. f_equal. lia.
Qed.

Lemma int_of_digits (n : nat) : int_of (digits n) = n.
Proof.
  unfold int_of, digits. rewrite fold_digits_fuel by lia. reflexivity.
Qed.

Lemma digits_fuel_all (fuel n : nat) (acc : text) :
  forallb is_digit acc = true ->
  forallb is_digit (digits_fuel fuel n acc) = true.
Proof.
  revert n acc.
  induction fuel as [|fuel IH]; intros n acc Hacc; cbn [digits_fuel]; auto.
  pose proof (Nat.mod_upper_bound n 10 ltac:(lia)) as Hm.
  assert (H : forallb is_digit (digit_chr (n mod 10) :: acc) = true).
  { cbn [forallb]. now rewrite is_digit_chr, Hacc. }
  destruct (n / 10 =? 0); auto.
Qed.

Lemma int_of_zeros (k : nat) (s : text) :
  int_of (repeat (digit_chr 0) k ++ s) = int_of s.
Proof.
  unfold int_of. rewrite fold_left_app. f_equal.
  induction k as [|k IH]; [reflexivity|].
  change (repeat (digit_chr 0) (S k)) with (digit_chr 0 :: repeat (digit_chr 0) k).
  cbn [fold_left]. rewrite digit_val_chr by lia. exact IH.
Qed.

(** int() reads back what {:03d} wrote. *)
Lemma int_of_format_03d (n : nat) : int_of (format_03d n) = n.
Proof.
  unfold format_03d. rewrite int_of_zeros. apply int_of_digits.
Qed.

Lemma format_03d_all_digits (n : nat) :
  forallb is_digit (format_03d n) = true.
Proof.
  unfold format_03d. rewrite forallb_app. apply andb_true_iff. split.
  - induction (3 - List.length (digits n)) as [|k IH]; simpl; auto.
  - apply digits_fuel_all. reflexivity.
Qed.

Lemma digits_fuel_nonempty (fuel m : nat) (acc : text) :
  acc <> [] -> digits_fuel fuel m acc <> [].
Proof.
  revert m acc. induction fuel as [|fuel IH]; intros m acc Hacc; auto.
  cbn [digits_fuel]. destruct (m / 10 =? 0); [discriminate|].
  apply IH. discriminate.
Qed.

Lemma format_03d_nonempty (n : nat) : format_03d n <> [].
Proof.
  unfold format_03d. intros H. apply app_eq_nil in H. destruct H as [_ H].
  revert H. unfold digits. cbn [digits_fuel].
  destruct (n / 10 =? 0); [discriminate|].
  apply digits_fuel_nonempty. discriminate.
Qed.

End DecFacts.

Section ReFacts.

Lemma drop_while_length (p : ascii -> bool) (s : text) :
  List.length (drop_while p s) <= List.length s.
Proof.
  induction s as [|c s IH]; simpl; [lia|].
  destruct (p c); simpl; lia.
Qed.

(** With nothing after it, a greedy class run takes the longest run. *)
Lemma greedy_final (p : ascii -> bool) (prev : option ascii) (s : text) :
  greedy p (fun _ rest => Some rest) prev s = Some (drop_while p s).
Proof.
  revert prev. induction s as [|c s IH]; intros prev; simpl; [reflexivity|].
  destruct (p c); [|reflexivity]. now rewrite IH.
Qed.

(** X(\d+) on a text that begins with X and a digit: the match is at the
    start and the group is the whole run of digits. *)
Lemma letter_digits_head (x d : ascii) (rest : text) :
  is_digit d = true ->
  letter_digits x (x :: d :: rest) = Some (take_while is_digit (d :: rest)).
Proof.
  intros Hd. unfold letter_digits, Re.search.
  cbn [search_from]. unfold match_here. cbn [re_match].
  unfold chr_eq. rewrite Ascii.eqb_refl, Hd, greedy_final.
  cbn [option_map]. f_equal.
  pose proof (drop_while_length is_digit rest) as Hl.
  pose proof (take_while_length is_digit (d :: rest)) as Ht.
  cbn [drop_while] in Ht. rewrite Hd in Ht.
  replace (List.length (x :: d :: rest) - List.length (drop_while is_digit rest))
    with (S (List.length (d :: rest) - List.length (drop_while is_digit rest)))
    by (cbn [List.length]; lia).
  cbn [firstn skipn]. exact Ht.
Qed.

End ReFacts.

(* ================================================================== *)
(** * How the commands run *)
(* ================================================================== *)

Section CommandFacts.

Local Open Scope gtd_scope.

Lemma get_active_project_ok w a w' : get_active_project w = Ok a w' -> w' = w.
Proof.
  unfold get_active_project, bind, m_exists, m_read_text, ret.
  destruct (exists_ ACTIVE_FILE (w_fs w)).
  - destruct (read_text ACTIVE_FILE (w_fs w)); congruence.
  - congruence.
Qed.

Lemma split_char_plain (sep : ascii) (s : text) :
  forallb (fun c => negb (Ascii.eqb c sep)) s = true ->
  split_char sep s = [s].
Proof.
  induction s as [|c s IH]; [reflexivity|].
  cbn [forallb split_char]. rewrite andb_true_iff, negb_true_iff.
  intros [Hc Hs]. now rewrite Hc, IH.
Qed.

Lemma one_component_no_slash (t : text) :
  one_component t = true ->
  forallb (fun c => negb (Ascii.eqb c "/")) t = true.
Proof.
  unfold one_component. induction t as [|c t IH]; [reflexivity|].
  cbn [forallb]. rewrite !andb_true_iff, negb_true_iff, orb_false_iff.
  intros [[Hc _] Ht]. split; [now rewrite Hc | now apply IH].
Qed.

Lemma one_component_app (a b : text) :
  one_component (a ++ b) = one_component a && one_component b.
Proof. apply forallb_app. Qed.

(** A name without separator is one component. *)
Lemma path_parts_plain (t : text) :
  one_component t = true -> 2 <= List.length t -> path_parts t = [t].
Proof.
  intros H Hlen. unfold path_parts.
  rewrite (split_char_plain "/" t (one_component_no_slash t H)).
  cbn [filter].
  destruct t as [|a [|b t]]; cbn [List.length] in Hlen; try lia.
  change (str ".") with ["."%char]. cbn [text_eqb orb].
  now rewrite andb_false_r.
Qed.

Lemma task_file_name_length (tid slug : text) :
  2 <= List.length (task_file_name tid slug).
Proof.
  unfold task_file_name. rewrite !length_app.
  change (List.length (str ".md")) with 3. lia.
Qed.

(** Without a separator in the slug, the record lies directly in the
    tasks directory. *)
Lemma task_file_plain (folder : path) (tid slug : text) :
  one_component tid = true -> one_component slug = true ->
  task_file_of folder tid slug =
  folder ++ [str "tasks"; task_file_name tid slug].
Proof.
  intros Ht Hs. unfold task_file_of. rewrite path_parts_plain; auto.
  - unfold task_file_name. rewrite !one_component_app, Ht, Hs. reflexivity.
  - apply task_file_name_length.
Qed.

Lemma parent_task_file folder tid slug :
  one_component tid = true -> one_component slug = true ->
  parent (task_file_of folder tid slug) = folder ++ [str "tasks"].
Proof.
  intros Ht Hs. rewrite task_file_plain by assumption. unfold parent.
  change [str "tasks"; task_file_name tid slug]
    with ([str "tasks"] ++ [task_file_name tid slug]).
  rewrite app_assoc. apply removelast_last.
Qed.

Lemma m_expanded_ok (e : expansion) (w : world) (t : text) (w1 : world) :
  m_expanded e w = Ok t w1 -> e = Expanded t /\ w1 = w.
Proof.
  destruct e; cbn; unfold ret, raise, unmodelled; intros H;
    inversion H; auto.
Qed.

Lemma update_readme_ok folder tid title w w1 :
  update_readme folder tid title w = Ok tt w1 ->
  w1 = set_fs (w_fs w1) w /\
  ((w_fs w1 = w_fs w /\
    (exists_ (README folder) (w_fs w) = false \/
     exists c, read_text (README folder) (w_fs w) = Some c /\
               contains tasks_heading c = false)) \/
   (exists c doc, read_text (README folder) (w_fs w) = Some c /\
                  contains tasks_heading c = true /\
                  insert_task_ref tid title c = Expanded doc /\
                  write_text (README folder) doc (w_now w) (w_fs w) =
                    Some (w_fs w1))).
Proof.
  unfold update_readme, bind, m_exists, m_read_text, m_write_text, ret.
  destruct (exists_ (README folder) (w_fs w)) eqn:He.
  - destruct (read_text (README folder) (w_fs w)) as [c|] eqn:Hr; [|discriminate].
    destruct (contains tasks_heading c) eqn:Hc.
    + destruct (m_expanded (insert_task_ref tid title c) w)
        as [doc w0| |] eqn:Hx; try discriminate.
      apply m_expanded_ok in Hx. destruct Hx as [Hx ->].
      destruct (has_nul (README folder)); [discriminate|].
      destruct (write_text _ _ _ _) as [f|] eqn:Hw; [|discriminate].
      intros H. inversion H; subst. cbn. split; [reflexivity|].
      right. exists c, doc. auto.
    + intros H. inversion H; subst. split; [destruct w1; reflexivity|].
      left. split; [reflexivity|]. right. eauto.
  - intros H. inversion H; subst. split; [destruct w1; reflexivity|]. auto.
Qed.

Lemma world_eta (w : world) : with_out w (w_out w) (w_fs w) = w.
Proof. destruct w; reflexivity. Qed.

(** The git helper leaves the files alone; it can only print. *)
Lemma call_git_helper_ok command w b w1 :
  call_git_helper command w = Ok b w1 ->
  exists out, w1 = with_out w out (w_fs w).
Proof.
  unfold call_git_helper.
  destruct (existsb (text_eqb command) helper_commands).
  - destruct (w_helper w command); unfold bind, print, ret; intros H;
      inversion H; subst.
    + exists (w_out w1). now rewrite world_eta.
    + eexists. reflexivity.
  - unfold ret. intros H. inversion H; subst.
    exists (w_out w1). now rewrite world_eta.
Qed.

Lemma create_task_ok title pid status kw w tid w' :
  create_task title pid status kw w = Ok (Some tid) w' ->
  exists project_id folder nd more f1 f2 out,
    (if truthy pid then pid = Some project_id
     else get_active_project w = Ok (Some project_id) w) /\
    glob PROJECTS_DIR (glob_project project_id) (w_fs w) = (folder, nd) :: more /\
    tid = str "K" ++ format_03d (next_number (scan_ids (str "K") (w_fs w))) /\
    mkdir_exist_ok (parent (task_file_of folder tid (slug_of title))) (w_fs w)
      = Some f1 /\
    write_text (task_file_of folder tid (slug_of title))
      (task_content tid project_id title (kw_get status (str "next")) kw
         (w_today w) (split_1 (project_id ++ str "-") (name folder)))
      (w_now w) f1 = Some f2 /\
    w_git_add w = Exit0 /\ w_git_commit w = Exit0 /\
    update_readme folder tid title (with_out w out f2) = Ok tt (with_out w out (w_fs w')).
Proof.
  unfold create_task. unfold bind at 1.
  destruct ((if truthy pid then ret pid else get_active_project) w)
    as [chosen w0| |] eqn:Hres; try discriminate.
  assert (w0 = w) as ->.
  { destruct (truthy pid); [unfold ret in Hres; congruence|].
    eapply get_active_project_ok; eauto. }
  assert (Hch : if truthy pid then pid = chosen
                else get_active_project w = Ok chosen w).
  { destruct (truthy pid); [unfold ret in Hres; congruence | exact Hres]. }
  clear Hres.
  destruct (truthy chosen) eqn:Htc; cbn [negb].
  2:{ unfold bind, print, ret. discriminate. }
  assert (Hsome : chosen = Some (kw_get chosen [])).
  { destruct chosen as [[|c r]|]; try discriminate. reflexivity. }
  rewrite Hsome in Hch.
  destruct (plain_name (kw_get chosen [])); cbn [negb]; [|discriminate].
  destruct (glob PROJECTS_DIR (glob_project (kw_get chosen [])) (w_fs w))
    as [|[folder nd] more] eqn:Hg.
  { unfold bind, print, ret. discriminate. }
  unfold bind at 1, get_next_id at 1.
  destruct (existsb (text_eqb (str "..")) _); [discriminate|].
  unfold bind at 1, m_mkdir_exist_ok at 1.
  destruct (has_nul (parent _)); [discriminate|].
  destruct (mkdir_exist_ok _ (w_fs w)) as [f1|] eqn:Hmk; [|discriminate].
  unfold bind at 1, m_write_text at 1. cbn [w_fs w_now w_today set_fs].
  destruct (has_nul (task_file_of _ _ _)); [discriminate|].
  match goal with |- context[write_text ?p ?c ?n ?f] =>
    destruct (write_text p c n f) as [f2|] eqn:Hw end; [|discriminate].
  unfold bind at 1, m_run_checked at 1. cbn [w_git_add set_fs].
  destruct (w_git_add w) eqn:Hga; try discriminate.
  unfold bind at 1, m_run_checked at 1. cbn [w_git_commit set_fs].
  destruct (w_git_commit w) eqn:Hgc; try discriminate.
  unfold bind at 1, print at 1.
  cbn [w_fs w_now w_today w_git_add w_git_commit w_helper w_out set_fs].
  unfold bind at 1.
  match goal with |- context[update_readme ?a ?b ?c ?d] =>
    destruct (update_readme a b c d) as [[] w1| |] eqn:Hup end; try discriminate.
  pose proof Hup as Hw1. apply update_readme_ok in Hw1. destruct Hw1 as [Hw1 _].
  cbn [w_fs w_now w_today w_git_add w_git_commit w_helper w_out set_fs] in Hw1.
  unfold bind at 1, print at 1. unfold bind at 1, print at 1.
  cbn [w_fs w_now w_today w_git_add w_git_commit w_helper w_out set_fs].
  unfold bind at 1.
  match goal with |- context[call_git_helper ?c ?d] =>
    destruct (call_git_helper c d) as [b w2| |] eqn:Hh end; try discriminate.
  apply call_git_helper_ok in Hh. destruct Hh as [out2 Hh].
  cbn [w_fs w_now w_today w_git_add w_git_commit w_helper w_out set_fs
       with_out] in Hh.
  unfold ret. intros H.
  assert (Hfs : w_fs w' = w_fs w1 /\ tid = str "K" ++ format_03d (next_number (scan_ids (str "K") (w_fs w)))).
  { inversion H; subst. cbn. auto. }
  destruct Hfs as [Hfs ->].
  exists (kw_get chosen []), folder, nd, more, f1, f2.
  exists (w_out w ++
          [MsgGitCommitted
             (str "K" ++ format_03d (next_number (scan_ids (str "K") (w_fs w))))]).
  repeat (split; [first [eassumption | reflexivity]|]).
  unfold with_out. rewrite Hfs, Hup. f_equal. exact Hw1.
Qed.

End CommandFacts.

(* ================================================================== *)
(** * The identifier allocator *)
(* ================================================================== *)

Section AllocatorFacts.

Local Open Scope gtd_scope.

Lemma glob_K_digit_md_shape (n : text) :
  glob_K_digit_md n = true ->
  exists d rest, n = "K"%char :: d :: rest /\ is_digit d = true.
Proof.
  destruct n as [|k [|d rest]]; simpl; try discriminate.
  rewrite !andb_true_iff, Ascii.eqb_eq. intros [[-> Hd] _]. eauto.
Qed.

Lemma glob_P_digit_shape (n : text) :
  glob_P_digit n = true ->
  exists d rest, n = "P"%char :: d :: rest /\ is_digit d = true.
Proof.
  destruct n as [|k [|d rest]]; simpl; try discriminate.
  rewrite !andb_true_iff, Ascii.eqb_eq. intros [-> Hd]. eauto.
Qed.

(** On the names a pattern "X[0-9]..." lets through, X(\d+) finds the
    digits that follow the first letter. *)
Lemma scan_is_record_numbers (x : ascii) (pattern : text -> bool) (f : fs) :
  (forall n, pattern n = true ->
             exists d rest, n = x :: d :: rest /\ is_digit d = true) ->
  flat_map
    (fun e => match letter_digits x (name (fst e)) with
              | Some ds => [int_of ds]
              | None => []
              end)
    (rglob PROJECTS_DIR pattern f)
  = record_numbers pattern f.
Proof.
  intros Hshape. unfold record_numbers, rglob.
  induction f as [|e f IH]; [reflexivity|].
  cbn [filter].
  destruct (under PROJECTS_DIR (fst e) && pattern (name (fst e))) eqn:E;
    [|exact IH].
  apply andb_true_iff in E. destruct E as [_ Hp].
  destruct (Hshape _ Hp) as [d [rest [Hn Hd]]].
  cbn [flat_map map]. rewrite IH, Hn, (letter_digits_head x d rest Hd).
  reflexivity.
Qed.

Lemma scan_ids_K (f : fs) :
  scan_ids (str "K") f = record_numbers glob_K_digit_md f.
Proof.
  unfold scan_ids, kind_pattern.
  change (text_eqb (str "K") (str "K")) with true. cbv iota. apply scan_is_record_numbers, glob_K_digit_md_shape.
Qed.

Lemma scan_ids_not_K (prefix : text) (f : fs) :
  prefix <> str "K" ->
  scan_ids prefix f = record_numbers glob_P_digit f.
Proof.
  intros H. unfold scan_ids, kind_pattern. rewrite (text_eqb_neq _ _ H).
  cbv iota. apply scan_is_record_numbers, glob_P_digit_shape.
Qed.

Lemma next_number_max (ids : list nat) : next_number ids = max_list ids + 1.
Proof. destruct ids; reflexivity. Qed.

Lemma max_list_app (a b : list nat) :
  max_list (a ++ b) = Nat.max (max_list a) (max_list b).
Proof.
  induction a as [|x a IH]; simpl; [reflexivity|]. rewrite IH. lia.
Qed.

Lemma max_list_ge (l : list nat) (x : nat) : In x l -> x <= max_list l.
Proof.
  induction l as [|y l IH]; simpl; [contradiction|].
  intros [->|H]; [lia|]. specialize (IH H). lia.
Qed.

End AllocatorFacts.

Section FsFacts.

Lemma replace_node_paths (p : path) (n : node) (f : fs) :
  map fst (replace_node p n f) = map fst f.
Proof.
  induction f as [|[q m] f IH]; simpl; [reflexivity|].
  destruct (path_eqb p q); simpl; [reflexivity | now rewrite IH].
Qed.

Lemma lookup_in (p : path) (f : fs) (n : node) :
  lookup p f = Some n -> In (p, n) f.
Proof.
  induction f as [|[q m] f IH]; simpl; [discriminate|].
  destruct (path_eqb p q) eqn:E.
  - apply path_eqb_eq in E. subst q. intros H. inversion H. now left.
  - intros H. right. now apply IH.
Qed.

(** A write either keeps the paths (the file was there) or adds the
    file at the end. *)
Lemma write_text_cases (p : path) (c : text) (t : Z) (f f' : fs) :
  write_text p c t f = Some f' ->
  (exists c0 t0, lookup p f = Some (File c0 t0) /\
                 f' = replace_node p (File c t) f) \/
  (lookup p f = None /\ is_dir (parent p) f = true /\
   f' = f ++ [(p, File c t)]).
Proof.
  unfold write_text. destruct p as [|a p]; [discriminate|].
  destruct (lookup (a :: p) f) as [[c0 t0|]|] eqn:E.
  - intros H. inversion H. left. eauto.
  - discriminate.
  - destruct (is_dir (parent (a :: p)) f) eqn:D; [|discriminate].
    intros H. inversion H. right. auto.
Qed.

Lemma mkdir_cases (p : path) (f f' : fs) :
  mkdir_exist_ok p f = Some f' -> f' = f \/ f' = f ++ [(p, Dir)].
Proof.
  unfold mkdir_exist_ok.
  destruct (lookup p f) as [[c0 t0|]|]; try discriminate.
  - intros H. inversion H. now left.
  - destruct p; [intros H; inversion H; now left|].
    destruct (is_dir _ f); [|discriminate].
    intros H. inversion H. now right.
Qed.

(** The record numbers depend on the paths only. *)
Lemma record_numbers_paths (pattern : text -> bool) (f g : fs) :
  map fst f = map fst g ->
  record_numbers pattern f = record_numbers pattern g.
Proof.
  unfold record_numbers, rglob. revert g.
  induction f as [|[p n] f IH]; intros [|[q m] g] H; try discriminate;
    [reflexivity|].
  cbn [map fst] in H. inversion H; subst.
  specialize (IH g ltac:(assumption)).
  cbn [filter fst].
  destruct (under PROJECTS_DIR q && pattern (name q)); cbn [map fst];
    now rewrite IH.
Qed.

Lemma record_numbers_app (pattern : text -> bool) (f g : fs) :
  record_numbers pattern (f ++ g) =
  record_numbers pattern f ++ record_numbers pattern g.
Proof.
  unfold record_numbers, rglob. now rewrite filter_app, map_app.
Qed.

Lemma record_numbers_in (pattern : text -> bool) (f : fs) (p : path)
    (n : node) :
  In (p, n) f -> under PROJECTS_DIR p = true -> pattern (name p) = true ->
  In (int_of (take_while is_digit (skipn 1 (name p))))
     (record_numbers pattern f).
Proof.
  intros Hin Hu Hp. unfold record_numbers, rglob.
  apply (in_map (fun e => int_of (take_while is_digit (skipn 1 (name (fst e))))) _ (p, n)).
  apply filter_In. split; [exact Hin|]. cbn [fst]. now rewrite Hu, Hp.
Qed.

Lemma ends_with_app (a p : text) : ends_with p (a ++ p) = true.
Proof.
  unfold ends_with. rewrite rev_app_distr. apply starts_with_app.
Qed.

Lemma name_snoc (d : path) (n : text) : name (d ++ [n]) = n.
Proof. unfold name. apply last_last. Qed.

Lemma parent_snoc (d : path) (n : text) : parent (d ++ [n]) = d.
Proof. unfold parent. apply removelast_last. Qed.

End FsFacts.

Section CreationFacts.

Local Open Scope gtd_scope.

Lemma glob_child (d : path) (pat : text -> bool) (f : fs) (p : path)
    (n : node) :
  In (p, n) (glob d pat f) ->
  exists nm, p = d ++ [nm] /\ pat nm = true /\ In (p, n) f.
Proof.
  unfold glob. rewrite filter_In. cbn [fst].
  rewrite !andb_true_iff, negb_true_iff, path_eqb_eq.
  intros [Hin [[Hpar Hne] Hpat]].
  assert (Hp : p <> []).
  { intros ->. simpl in Hne. discriminate. }
  exists (name p). split; [|auto].
  rewrite <- Hpar. unfold parent, name. now apply app_removelast_last.
Qed.

Lemma under_projects (nm : text) (rest : path) :
  under PROJECTS_DIR ((PROJECTS_DIR ++ [nm]) ++ rest) = true.
Proof.
  unfold PROJECTS_DIR. cbn [app under]. now rewrite text_eqb_refl.
Qed.

(** The file name of a new task record carries its number. *)
Lemma task_name_number (n : nat) (slug : text) :
  let nm := (str "K" ++ format_03d n) ++ str "-" ++ slug ++ str ".md" in
  glob_K_digit_md nm = true /\
  int_of (take_while is_digit (skipn 1 nm)) = n.
Proof.
  pose proof (int_of_format_03d n) as Hint.
  pose proof (format_03d_all_digits n) as Hall.
  pose proof (format_03d_nonempty n) as Hne.
  destruct (format_03d n) as [|d ds] eqn:E; [congruence|].
  cbn [forallb] in Hall. apply andb_true_iff in Hall. destruct Hall as [Hd Hds].
  change (str "K") with ["K"%char]. change (str "-") with ["-"%char].
  cbn [app]. split.
  - cbn [glob_K_digit_md]. rewrite Ascii.eqb_refl, Hd. cbn [andb].
    change (ds ++ "-"%char :: slug ++ str ".md")
      with (ds ++ ("-"%char :: slug) ++ str ".md").
    rewrite app_assoc. apply ends_with_app.
  - cbn [skipn].
    change (d :: ds ++ "-"%char :: slug ++ str ".md")
      with ((d :: ds) ++ "-"%char :: slug ++ str ".md").
    rewrite take_while_all by (cbn [forallb]; now rewrite Hd, Hds).
    cbn [take_while]. change (is_digit "-") with false. cbv iota.
    now rewrite app_nil_r.
Qed.

Lemma numbers_of_tasks_dir (folder : path) :
  record_numbers glob_K_digit_md [(folder ++ [str "tasks"], Dir)] = [].
Proof.
  unfold record_numbers, rglob. cbn [filter fst]. rewrite name_snoc.
  change (glob_K_digit_md (str "tasks")) with false.
  now rewrite andb_false_r.
Qed.

Lemma numbers_of_readme (folder : path) (n : node) :
  record_numbers glob_K_digit_md [(README folder, n)] = [].
Proof.
  unfold record_numbers, rglob, README. cbn [filter fst]. rewrite name_snoc.
  change (glob_K_digit_md (str "README.md")) with false.
  now rewrite andb_false_r.
Qed.

Lemma write_readme_numbers (folder : path) (c : text) (t : Z) (f f' : fs) :
  write_text (README folder) c t f = Some f' ->
  record_numbers glob_K_digit_md f' = record_numbers glob_K_digit_md f.
Proof.
  intros H. apply write_text_cases in H.
  destruct H as [[c0 [t0 [_ ->]]] | [_ [_ ->]]].
  - apply record_numbers_paths, replace_node_paths.
  - now rewrite record_numbers_app, numbers_of_readme, app_nil_r.
Qed.

Lemma digit_one_component (ds : text) :
  forallb is_digit ds = true -> one_component ds = true.
Proof.
  unfold one_component. induction ds as [|c ds IH]; [reflexivity|].
  cbn [forallb]. rewrite andb_true_iff. intros [Hc Hds].
  rewrite (IH Hds), andb_true_r. apply negb_true_iff, orb_false_iff.
  unfold is_digit in Hc. apply andb_true_iff in Hc.
  rewrite !Nat.leb_le in Hc. split.
  - destruct (Ascii.eqb c "/") eqn:E; [|reflexivity].
    apply Ascii.eqb_eq in E. subst c. cbn in Hc. lia.
  - apply Nat.eqb_neq. lia.
Qed.

Lemma task_id_one_component (n : nat) :
  one_component (str "K" ++ format_03d n) = true.
Proof.
  rewrite one_component_app, (digit_one_component _ (format_03d_all_digits n)).
  reflexivity.
Qed.

(** The identifier create_task returns is the one the allocator
    announces. *)
Lemma create_task_id title pid status kw w tid w' :
  create_task title pid status kw w = Ok (Some tid) w' ->
  tid = str "K" ++
        format_03d (max_list (record_numbers glob_K_digit_md (w_fs w)) + 1).
Proof.
  intros H. apply create_task_ok in H.
  destruct H as (project_id & folder & nd & more & f1 & f2 & out &
                 _ & _ & Htid & _).
  now rewrite scan_ids_K, next_number_max in Htid.
Qed.

(** A successful create_task whose slug has no separator adds one task
    number: the successor of the largest one, which is also the number
    of the identifier it returns. *)
Lemma create_task_numbers title pid status kw w tid w' :
  create_task title pid status kw w = Ok (Some tid) w' ->
  one_component (slug_of title) = true ->
  record_numbers glob_K_digit_md (w_fs w') =
  record_numbers glob_K_digit_md (w_fs w) ++
  [max_list (record_numbers glob_K_digit_md (w_fs w)) + 1].
Proof.
  intros H Hslug. pose proof (create_task_id _ _ _ _ _ _ _ H) as Htid.
  apply create_task_ok in H.
  destruct H as (project_id & folder & nd & more & f1 & f2 & out &
                 _ & Hg & _ & Hmk & Hw & _ & _ & Hup).
  set (n := max_list (record_numbers glob_K_digit_md (w_fs w)) + 1) in *.
  assert (Hk : one_component tid = true)
    by (rewrite Htid; apply task_id_one_component).
  rewrite parent_task_file in Hmk by assumption.
  rewrite task_file_plain in Hw by assumption.
  assert (Hin : In (folder, nd)
                   (glob PROJECTS_DIR (glob_project project_id) (w_fs w))).
  { rewrite Hg. now left. }
  apply glob_child in Hin. destruct Hin as [nm [Hfolder _]].
  (* the tasks directory *)
  assert (H1 : record_numbers glob_K_digit_md f1 =
               record_numbers glob_K_digit_md (w_fs w)).
  { apply mkdir_cases in Hmk. destruct Hmk as [->| ->]; [reflexivity|].
    now rewrite record_numbers_app, numbers_of_tasks_dir, app_nil_r. }
  (* the task record *)
  pose proof (task_name_number n (slug_of title)) as [Hglob Hnum].
  set (task_file := folder ++ [str "tasks"; task_file_name tid (slug_of title)])
    in *.
  assert (Hname : name task_file =
                  (str "K" ++ format_03d n) ++ str "-" ++ slug_of title ++
                  str ".md").
  { unfold task_file, task_file_name. rewrite Htid.
    change [str "tasks"; (str "K" ++ format_03d n) ++ str "-" ++
                         slug_of title ++ str ".md"]
      with ([str "tasks"] ++ [(str "K" ++ format_03d n) ++ str "-" ++
                              slug_of title ++ str ".md"]).
    rewrite app_assoc. apply name_snoc. }
  assert (Hunder : under PROJECTS_DIR task_file = true).
  { unfold task_file. rewrite Hfolder. apply under_projects. }
  assert (H2 : record_numbers glob_K_digit_md f2 =
               record_numbers glob_K_digit_md f1 ++ [n]).
  { apply write_text_cases in Hw.
    destruct Hw as [[c0 [t0 [Hl _]]] | [_ [_ ->]]].
    - exfalso. apply lookup_in in Hl.
      apply (record_numbers_in glob_K_digit_md) in Hl;
        [|exact Hunder|rewrite Hname; exact Hglob].
      rewrite Hname, Hnum, H1 in Hl. apply max_list_ge in Hl.
      unfold n in Hl. lia.
    - rewrite record_numbers_app. f_equal.
      unfold record_numbers, rglob. cbn [filter fst].
      rewrite Hunder, Hname, Hglob. cbn [andb map fst].
      now rewrite Hname, Hnum. }
  (* the project index *)
  apply update_readme_ok in Hup. cbn [with_out w_fs w_now] in Hup.
  destruct Hup as [_ [[Hsame _] | [c [doc [_ [_ [_ Hwr]]]]]]].
  - rewrite Hsame, H2, H1. reflexivity.
  - apply write_readme_numbers in Hwr. rewrite Hwr, H2, H1. reflexivity.
Qed.

End CreationFacts.

(* ================================================================== *)
(** * Claims about the identifier allocator *)
(* ================================================================== *)

Section AllocatorClaims.

Local Open Scope gtd_scope.

Lemma get_next_id_value (prefix : text) (w : world) :
  get_next_id prefix w =
  Ok (prefix ++
      format_03d (max_list (record_numbers (kind_pattern prefix) (w_fs w)) + 1))
     w.
Proof.
  unfold get_next_id. rewrite next_number_max. do 3 f_equal.
  unfold kind_pattern. destruct (text_eqb prefix (str "K")) eqn:E.
  - apply text_eqb_eq in E. subst. now rewrite scan_ids_K.
  - rewrite scan_ids_not_K; [reflexivity|].
    intros ->. now rewrite text_eqb_refl in E.
Qed.

Lemma glob_K_digit_md_iff (n : text) :
  glob_K_digit_md n = true <->
  exists d rest, n = "K"%char :: d :: rest /\ is_digit d = true /\
                 ends_with (str ".md") rest = true.
Proof.
  split.
  - destruct n as [|k [|d rest]]; cbn [glob_K_digit_md]; try discriminate.
    rewrite !andb_true_iff, Ascii.eqb_eq. intros [[-> Hd] He]. eauto.
  - intros (d & rest & -> & Hd & He). cbn [glob_K_digit_md].
    now rewrite Ascii.eqb_refl, Hd, He.
Qed.

Lemma glob_P_digit_iff (n : text) :
  glob_P_digit n = true <->
  exists d rest, n = "P"%char :: d :: rest /\ is_digit d = true.
Proof.
  split.
  - apply glob_P_digit_shape.
  - intros (d & rest & -> & Hd). cbn [glob_P_digit].
    now rewrite Ascii.eqb_refl, Hd.
Qed.

(** The entries the scan of get_next_id counts for "K" and for "P", in
    terms of their names, and the number each one carries. *)
Lemma scanned_numbers (prefix : text) (f : fs) (n : nat) :
  prefix = str "K" \/ prefix = str "P" ->
  In n (record_numbers (kind_pattern prefix) f) <->
  exists e d rest,
    In e f /\ under PROJECTS_DIR (fst e) = true /\
    name (fst e) = prefix ++ d :: rest /\ is_digit d = true /\
    (prefix = str "K" -> ends_with (str ".md") rest = true) /\
    n = int_of (take_while is_digit (d :: rest)).
Proof.
  intros Hreg. unfold record_numbers, rglob. rewrite in_map_iff. split.
  - intros (e & Hn & He). apply filter_In in He. destruct He as [Hin He].
    apply andb_true_iff in He. destruct He as [Hu Hp].
    destruct Hreg as [-> | ->].
    + change (kind_pattern (str "K")) with glob_K_digit_md in Hp.
      apply glob_K_digit_md_iff in Hp. destruct Hp as (d & rest & Hnm & Hd & He).
      exists e, d, rest. rewrite Hnm in Hn. cbn [skipn] in Hn.
      repeat split; auto.
    + change (kind_pattern (str "P")) with glob_P_digit in Hp.
      apply glob_P_digit_iff in Hp. destruct Hp as (d & rest & Hnm & Hd).
      exists e, d, rest. rewrite Hnm in Hn. cbn [skipn] in Hn.
      repeat split; auto. discriminate.
  - intros (e & d & rest & Hin & Hu & Hnm & Hd & He & ->).
    exists e. split.
    + rewrite Hnm. destruct Hreg as [-> | ->]; reflexivity.
    + apply filter_In. split; [exact Hin|]. rewrite Hu. cbn [andb].
      destruct Hreg as [-> | ->].
      * change (kind_pattern (str "K")) with glob_K_digit_md.
        apply glob_K_digit_md_iff. exists d, rest. auto.
      * change (kind_pattern (str "P")) with glob_P_digit.
        apply glob_P_digit_iff. exists d, rest. auto.
Qed.

(** The allocator on its own, and after a task with a plain title.
    For the prefixes "K" and "P" get_next_id counts the entries below
    projects/ whose name is the prefix letter and a digit (for "K":
    and ends in ".md"), reads the number each one carries, takes the
    largest (0 when there is none) and returns the prefix followed by
    that number plus one, zero-padded to three digits.  It leaves the
    workspace as it was, so that calling it again gives the same
    identifier.  After create_task has created a task whose slug holds
    no separator, which gets exactly the identifier K<n> the allocator
    announced, the next allocation for "K" is K<n+1>. *)
Theorem next_id_allocation (w : world) (prefix : text) :
  prefix = str "K" \/ prefix = str "P" ->
  exists numbers,
    (forall n,
        In n numbers <->
        exists e d rest,
          In e (w_fs w) /\ under PROJECTS_DIR (fst e) = true /\
          name (fst e) = prefix ++ d :: rest /\ is_digit d = true /\
          (prefix = str "K" -> ends_with (str ".md") rest = true) /\
          n = int_of (take_while is_digit (d :: rest))) /\
    let id := prefix ++ format_03d (max_list numbers + 1) in
    get_next_id prefix w = Ok id w /\
    (numbers = [] -> id = prefix ++ str "001") /\
    (a <- get_next_id prefix ;; b <- get_next_id prefix ;; ret (a, b)) w
      = Ok (id, id) w /\
    (forall title project_id status kw task_id w',
        create_task title project_id status kw w = Ok (Some task_id) w' ->
        one_component (slug_of title) = true ->
        exists n,
          task_id = str "K" ++ format_03d n /\
          get_next_id (str "K") w = Ok task_id w /\
          get_next_id (str "K") w' = Ok (str "K" ++ format_03d (n + 1)) w').
Proof.
  intros Hreg. exists (record_numbers (kind_pattern prefix) (w_fs w)).
  split; [intros n; now apply scanned_numbers|].
  cbv zeta. split; [apply get_next_id_value|]. split.
  { intros ->. reflexivity. }
  split.
  { unfold bind. rewrite !get_next_id_value. reflexivity. }
  intros title project_id status kw task_id w' Hc Hslug.
  pose proof (create_task_id _ _ _ _ _ _ _ Hc) as Hid.
  pose proof (create_task_numbers _ _ _ _ _ _ _ Hc Hslug) as Hnums.
  exists (max_list (record_numbers glob_K_digit_md (w_fs w)) + 1).
  split; [exact Hid|]. split.
  + rewrite get_next_id_value, Hid. reflexivity.
  + rewrite get_next_id_value.
    change (kind_pattern (str "K")) with glob_K_digit_md.
    rewrite Hnums, max_list_app. simpl max_list at 2.
    do 3 f_equal. lia.
Qed.

Lemma next_id_allocation_witness :
  get_next_id (str "P") w_fresh = Ok (str "P002") w_fresh /\
  get_next_id (str "K") w_with_stash = Ok (str "K001") w_with_stash /\
  get_next_id (str "K") first_task_world = Ok (str "K002") first_task_world.
Proof.
  assert (Hc : create_task (str "Write spec") (Some (str "P001")) None
                 no_kwargs w_with_stash
               = Ok (Some (str "K001")) first_task_world).
  { vm_compute. reflexivity. }
  destruct (next_id_allocation w_fresh (str "P") (or_intror eq_refl))
    as (numbers & Hnum & Hp & _).
  assert (Hin : In 1 numbers).
  { apply Hnum. exists (P001_folder, Dir), "0"%char, (str "01-demo").
    split; [right; left; reflexivity|].
    split; [reflexivity|]. split; [reflexivity|]. split; [reflexivity|].
    split; [discriminate | reflexivity]. }
  assert (Hall : forall n, In n numbers -> n = 1).
  { intros n Hn. apply Hnum in Hn.
    destruct Hn as (e & d & rest & He & Hu & Hnm & _ & _ & ->).
    destruct He as [<- | [<- | [<- | [<- | []]]]];
      vm_compute in Hu; try discriminate Hu; vm_compute in Hnm.
    - injection Hnm as <- <-. reflexivity.
    - discriminate Hnm. }
  assert (Hmax : max_list numbers = 1).
  { apply Nat.le_antisymm; [|now apply max_list_ge].
    clear Hin Hp Hnum. induction numbers as [|x l IH]; [cbn; lia|].
    cbn [max_list fold_right].
    rewrite (Hall x (or_introl eq_refl)).
    assert (max_list l <= 1) by (apply IH; intros n Hn; apply Hall; now right).
    unfold max_list in *. lia. }
  rewrite Hmax in Hp. split; [exact Hp|].
  destruct (next_id_allocation w_with_stash (str "K") (or_introl eq_refl))
    as (numbersK & _ & _ & _ & _ & Hnext).
  destruct (Hnext _ _ _ _ _ _ Hc eq_refl) as (n & Hn & Hbefore & Hafter).
  assert (n = 1) as ->.
  { rewrite <- (int_of_format_03d n).
    change (format_03d n) with (skipn 1 (str "K" ++ format_03d n)).
    rewrite <- Hn. reflexivity. }
  split; [rewrite Hbefore, Hn; reflexivity | exact Hafter].
Defined.

(** C1 on a title with a separator.  In a project that holds the task
    K001, the allocator announces K002 and create_task("Fix a/b test")
    returns K002; the slug "fix-a/b-test" makes the record the file
    b-test.md in a new directory tasks/K002-fix-a, a name the pattern
    K[0-9]*.md of the scan does not match.  The next allocation for "K"
    is K002 again, not K003, and the next task gets the identifier of
    this one. *)
Theorem slash_title_repeats_identifier :
  get_next_id (str "K") first_task_world = Ok (str "K002") first_task_world /\
  create_task slash_title (Some (str "P001")) None no_kwargs first_task_world
    = Ok (Some (str "K002")) slash_task_world /\
  task_file_of P001_folder (str "K002") (slug_of slash_title)
    = slash_task_file /\
  lookup (parent slash_task_file) (w_fs slash_task_world) = Some Dir /\
  (exists c,
      file_text slash_task_file (w_fs slash_task_world) = Some c /\
      nth 1 (split_char newline c) [] = str "id: K002") /\
  glob_K_digit_md (name slash_task_file) = false /\
  get_next_id (str "K") slash_task_world = Ok (str "K002") slash_task_world /\
  exists w3,
    create_task (str "Plan") (Some (str "P001")) None no_kwargs
                slash_task_world = Ok (Some (str "K002")) w3.
Proof.
  split; [vm_compute; reflexivity|].
  split; [vm_compute; reflexivity|].
  split; [vm_compute; reflexivity|].
  split; [vm_compute; reflexivity|].
  split.
  { exists (task_content (str "K002") (str "P001") slash_title (str "next")
              no_kwargs (str "2026-01-02") (str "demo")).
    evaluate. }
  split; [vm_compute; reflexivity|].
  split; [vm_compute; reflexivity|].
  exists (world_after
            (create_task (str "Plan") (Some (str "P001")) None no_kwargs
                         slash_task_world) slash_task_world).
  vm_compute. reflexivity.
Qed.

(** C7, as the code has it.  get_next_id has no error for a prefix it
    does not know: every prefix other than "K" is treated like "P".  The
    project names (P followed by digits) are scanned and the answer is
    the given prefix followed by the largest project number plus one,
    zero-padded to three digits. *)
Theorem other_prefix_allocation (w : world) (prefix : text) :
  prefix <> str "K" ->
  get_next_id prefix w =
  Ok (prefix ++
      format_03d (max_list (record_numbers glob_P_digit (w_fs w)) + 1)) w.
Proof.
  intros H. rewrite get_next_id_value. unfold kind_pattern.
  now rewrite (text_eqb_neq _ _ H).
Qed.

Lemma other_prefix_allocation_witness :
  get_next_id (str "X") w_fresh = Ok (str "X002") w_fresh.
Proof.
  rewrite (other_prefix_allocation w_fresh (str "X"));
    [reflexivity | discriminate].
Defined.

(** C7, as it is stated, fails: "X" is neither "K" nor "P", and the
    allocator answers with an identifier. *)
Lemma unknown_prefix_gets_identifier :
  str "X" <> str "K" /\ str "X" <> str "P" /\
  get_next_id (str "X") w_fresh = Ok (str "X002") w_fresh.
Proof.
  repeat split; try discriminate.
Qed.

End AllocatorClaims.

(* ================================================================== *)
(** * Literal substitution *)
(* ================================================================== *)

Section SubFacts.

Lemma occurrences_suffix (pat a s : text) :
  occurrences pat s <= occurrences pat (a ++ s).
Proof.
  induction a as [|c a IH]; [apply Nat.le_refl|].
  change ((c :: a) ++ s) with (c :: (a ++ s)). cbn [occurrences]. lia.
Qed.

Lemma occurrences_here (pat s : text) : 1 <= occurrences pat (pat ++ s).
Proof.
  pose proof (starts_with_app pat s) as H.
  destruct (pat ++ s) as [|c r]; cbn [occurrences]; rewrite H; lia.
Qed.

(** Without an occurrence nothing is replaced. *)
Lemma sub_lit_none (pat rep s : text) :
  occurrences pat s = 0 -> sub_lit pat rep 0 s = s.
Proof.
  induction s as [|c s IH]; [reflexivity|].
  cbn [occurrences sub_lit]. destruct (starts_with pat (c :: s)); [lia|].
  intros H. now rewrite IH by lia.
Qed.

(** The characters of an occurrence are passed over. *)
Lemma sub_lit_skip (pat rep a s : text) :
  sub_lit pat rep (List.length a) (a ++ s) = sub_lit pat rep 0 s.
Proof.
  induction a as [|c a IH]; [reflexivity|]. exact IH.
Qed.

Lemma sub_lit_here (x : ascii) (p rep s : text) :
  sub_lit (x :: p) rep 0 ((x :: p) ++ s) =
  rep ++ sub_lit (x :: p) rep 0 s.
Proof.
  pose proof (starts_with_app (x :: p) s) as H.
  change ((x :: p) ++ s) with (x :: (p ++ s)) in *.
  cbn [sub_lit]. rewrite H. f_equal.
  replace (List.length (x :: p) - 1) with (List.length p)
    by (cbn [List.length]; lia).
  apply sub_lit_skip.
Qed.

(** A document with exactly one occurrence: that occurrence is replaced
    and every other character stays. *)
Lemma sub_lit_single (pat rep pre post : text) :
  pat <> [] ->
  occurrences pat (pre ++ pat ++ post) = 1 ->
  sub_lit pat rep 0 (pre ++ pat ++ post) = pre ++ rep ++ post.
Proof.
  destruct pat as [|x p]; [congruence|]. intros _.
  induction pre as [|c pre IH]; intros Hocc.
  - cbn [app] in Hocc. change ([] ++ (x :: p) ++ post) with ((x :: p) ++ post).
    rewrite sub_lit_here. cbn [app]. f_equal.
    apply sub_lit_none.
    pose proof (occurrences_suffix (x :: p) p post) as Hp.
    cbn [occurrences] in Hocc.
    pose proof (starts_with_app (x :: p) post) as H.
    change ((x :: p) ++ post) with (x :: (p ++ post)) in H.
    rewrite H in Hocc. lia.
  - change ((c :: pre) ++ (x :: p) ++ post)
      with (c :: (pre ++ (x :: p) ++ post)) in *.
    cbn [occurrences] in Hocc.
    pose proof (occurrences_suffix (x :: p) pre ((x :: p) ++ post)) as Hs.
    pose proof (occurrences_here (x :: p) post) as Hh.
    cbn [sub_lit].
    destruct (starts_with (x :: p) (c :: pre ++ (x :: p) ++ post)); [lia|].
    cbn [app]. f_equal. apply IH. lia.
Qed.

End SubFacts.

(* ================================================================== *)
(** * Frame lemmas for the workspace *)
(* ================================================================== *)

Section FrameFacts.

Local Open Scope gtd_scope.

Lemma path_eqb_neq (p q : path) : p <> q -> path_eqb p q = false.
Proof.
  intros H. destruct (path_eqb p q) eqn:E; [|reflexivity].
  apply path_eqb_eq in E. contradiction.
Qed.

Lemma lookup_replace_other (p q : path) (n : node) (f : fs) :
  q <> p -> lookup q (replace_node p n f) = lookup q f.
Proof.
  intros H. induction f as [|[r m] f IH]; [reflexivity|].
  cbn [replace_node]. destruct (path_eqb p r) eqn:E.
  - apply path_eqb_eq in E. subst r. cbn [lookup].
    now rewrite (path_eqb_neq _ _ H).
  - cbn [lookup]. now rewrite IH.
Qed.

Lemma lookup_replace_same (p : path) (n m : node) (f : fs) :
  lookup p f = Some m -> lookup p (replace_node p n f) = Some n.
Proof.
  induction f as [|[r k] f IH]; [discriminate|].
  cbn [lookup replace_node]. destruct (path_eqb p r) eqn:E.
  - intros _. cbn [lookup]. now rewrite E.
  - intros H. cbn [lookup]. rewrite E. now apply IH.
Qed.

Lemma lookup_app (q : path) (f g : fs) :
  lookup q (f ++ g) =
  match lookup q f with
  | Some n => Some n
  | None => lookup q g
  end.
Proof.
  induction f as [|[r m] f IH]; [reflexivity|].
  cbn [app lookup]. destruct (path_eqb q r); [reflexivity | exact IH].
Qed.

Lemma lookup_single (p : path) (n : node) : lookup p [(p, n)] = Some n.
Proof.
  cbn [lookup]. now rewrite (proj2 (path_eqb_eq p p) eq_refl).
Qed.

(** After a write the file holds what was written ... *)
Lemma write_text_same (p : path) (c : text) (t : Z) (f f' : fs) :
  write_text p c t f = Some f' -> lookup p f' = Some (File c t).
Proof.
  intros H. apply write_text_cases in H.
  destruct H as [[c0 [t0 [Hl ->]]] | [Hl [_ ->]]].
  - eapply lookup_replace_same; eauto.
  - rewrite lookup_app, Hl. apply lookup_single.
Qed.

(** ... and every other path is as before. *)
Lemma write_text_other (p q : path) (c : text) (t : Z) (f f' : fs) :
  write_text p c t f = Some f' -> q <> p -> lookup q f' = lookup q f.
Proof.
  intros H Hq. apply write_text_cases in H.
  destruct H as [[c0 [t0 [Hl ->]]] | [Hl [_ ->]]].
  - now apply lookup_replace_other.
  - rewrite lookup_app. destruct (lookup q f); [reflexivity|].
    cbn [lookup]. now rewrite (path_eqb_neq _ _ Hq).
Qed.

Lemma m_write_text_ok (p : path) (c : text) (w w1 : world) :
  m_write_text p c w = Ok tt w1 ->
  write_text p c (w_now w) (w_fs w) = Some (w_fs w1) /\
  w1 = with_out w (w_out w) (w_fs w1).
Proof.
  unfold m_write_text. destruct (has_nul p); [discriminate|].
  destruct (write_text p c (w_now w) (w_fs w)); [|discriminate].
  intros H. inversion H; subst. cbn. auto.
Qed.

Lemma exists_file_text (p : path) (f : fs) (c : text) :
  file_text p f = Some c -> exists_ p f = true.
Proof.
  unfold file_text, exists_. destruct (lookup p f); [reflexivity | discriminate].
Qed.

Lemma read_text_of_file (p : path) (f : fs) (c : text) :
  file_text p f = Some c -> read_text p f = Some (universal_newlines c).
Proof. unfold read_text. now intros ->. Qed.

Lemma read_text_some (p : path) (f : fs) (r : text) :
  read_text p f = Some r ->
  exists c, file_text p f = Some c /\ r = universal_newlines c.
Proof.
  unfold read_text. destruct (file_text p f) as [c|]; [|discriminate].
  intros H. inversion H. eauto.
Qed.

(** A write stores the text as it is. *)
Lemma write_text_stored (p : path) (c : text) (t : Z) (f f' : fs) :
  write_text p c t f = Some f' -> file_text p f' = Some c.
Proof.
  intros H. unfold file_text. now rewrite (write_text_same _ _ _ _ _ H).
Qed.

Lemma file_text_lookup (p : path) (f g : fs) :
  lookup p g = lookup p f -> file_text p g = file_text p f.
Proof. unfold file_text. now intros ->. Qed.

(** Replacing by a text without carriage return, in a text without
    one, gives a text without one. *)
Lemma sub_lit_forallb (q : ascii -> bool) (pat rep : text) (k : nat)
    (s : text) :
  forallb q rep = true -> forallb q s = true ->
  forallb q (sub_lit pat rep k s) = true.
Proof.
  intros Hr. revert k. induction s as [|c s IH]; intros k Hs; [reflexivity|].
  cbn [forallb] in Hs. apply andb_true_iff in Hs. destruct Hs as [Hc Hs].
  cbn [sub_lit]. destruct k as [|k]; [|now apply IH].
  destruct (starts_with pat (c :: s)).
  - rewrite forallb_app, Hr. now apply IH.
  - cbn [forallb]. rewrite Hc. now apply IH.
Qed.

Lemma rewrite_readme_ok (pat rep : text) (folder : path) (w w1 : world) :
  rewrite_readme pat rep folder w = Ok tt w1 ->
  w1 = with_out w (w_out w) (w_fs w1) /\
  ((exists_ (README folder) (w_fs w) = false /\ w_fs w1 = w_fs w) \/
   (exists c, file_text (README folder) (w_fs w) = Some c /\
              write_text (README folder)
                         (sub_lit pat rep 0 (universal_newlines c)) (w_now w)
                         (w_fs w) = Some (w_fs w1))).
Proof.
  unfold rewrite_readme, bind, m_exists, m_read_text, ret.
  destruct (exists_ (README folder) (w_fs w)) eqn:He.
  - unfold read_text.
    destruct (file_text (README folder) (w_fs w)) as [c|] eqn:Hr;
      [|discriminate].
    cbn [option_map].
    intros H. apply m_write_text_ok in H. destruct H as [H1 H2].
    split; [exact H2|]. right. eauto.
  - intros H. inversion H; subst. rewrite world_eta. auto.
Qed.

Lemma update_memory_ok (message : text) (w w1 : world) :
  update_memory message w = Ok tt w1 ->
  w1 = with_out w (w_out w) (w_fs w1) /\
  forall q, q <> MEMORY_DIR ++ [w_today w ++ str ".md"] ->
            lookup q (w_fs w1) = lookup q (w_fs w).
Proof.
  unfold update_memory, bind, m_exists, ret.
  destruct (exists_ (MEMORY_DIR ++ [w_today w ++ str ".md"]) (w_fs w)).
  - intros H. apply m_write_text_ok in H. destruct H as [H1 H2].
    split; [exact H2|]. intros q Hq. eapply write_text_other; eauto.
  - destruct (m_write_text _ _ w) as [[] w0| |] eqn:H0; try discriminate.
    apply m_write_text_ok in H0. destruct H0 as [H01 H02].
    intros H. apply m_write_text_ok in H. destruct H as [H1 H2].
    rewrite H02 in H1, H2. cbn [with_out w_now w_fs w_out w_today] in H1, H2.
    split; [exact H2|]. intros q Hq.
    rewrite (write_text_other _ _ _ _ _ _ H1 Hq).
    exact (write_text_other _ _ _ _ _ _ H01 Hq).
Qed.

End FrameFacts.

(* ================================================================== *)
(** * Stash and switch, step by step *)
(* ================================================================== *)

Section StashFacts.

Local Open Scope gtd_scope.

Lemma readme_not_stash_file (nm pid : text) :
  glob_project pid nm = true ->
  README (PROJECTS_DIR ++ [nm]) <> STASH_DIR ++ [pid ++ str ".md"].
Proof.
  unfold README, STASH_DIR, PROJECTS_DIR, glob_project. cbn [app].
  intros Hg Heq. inversion Heq as [[Hnm Hpid]].
  assert (Hpid' : str "README" ++ str ".md" = pid ++ str ".md")
    by exact Hpid.
  apply app_inv_tail in Hpid'. subst. discriminate.
Qed.

Lemma length_neq (p q : path) : List.length p <> List.length q -> p <> q.
Proof. intros H ->. now apply H. Qed.

(** The pointer file as get_active_project reads it. *)
Lemma get_active_project_value (w : world) (c : text) :
  file_text ACTIVE_FILE (w_fs w) = Some c ->
  get_active_project w = Ok (Some (strip (universal_newlines c))) w.
Proof.
  intros H. unfold get_active_project, bind, m_exists, m_read_text, ret.
  now rewrite (exists_file_text _ _ _ H), (read_text_of_file _ _ _ H).
Qed.

Lemma cmd_stash_true (w w' : world) :
  cmd_stash w = Ok true w' ->
  exists pid folder nd more,
    get_active_project w = Ok (Some pid) w /\ pid <> [] /\
    glob PROJECTS_DIR (glob_project pid) (w_fs w) = (folder, nd) :: more /\
    (forall c, file_text (README folder) (w_fs w) = Some c ->
               file_text (README folder) (w_fs w') =
               Some (sub_lit stashed_false stashed_true 0
                             (universal_newlines c))) /\
    file_text ACTIVE_FILE (w_fs w') = Some [] /\
    file_text (STASH_DIR ++ [pid ++ str ".md"]) (w_fs w') =
      Some (up_arrow ++ str " Project: " ++ project_link folder pid ++
            nl ++ nl).
Proof.
  unfold cmd_stash. unfold bind at 1.
  destruct (get_active_project w) as [active w0| |] eqn:Ha; try discriminate.
  pose proof (get_active_project_ok _ _ _ Ha) as ->.
  destruct (truthy active) eqn:Ht; cbn [negb].
  2:{ unfold bind, print, ret. discriminate. }
  destruct active as [[|a pid]|]; try discriminate. cbn [kw_get].
  destruct (plain_name (a :: pid)); cbn [negb]; [|discriminate].
  destruct (glob PROJECTS_DIR (glob_project (a :: pid)) (w_fs w))
    as [|[folder nd] more] eqn:Hg.
  { unfold bind, print, ret. discriminate. }
  assert (Hin : In (folder, nd)
                   (glob PROJECTS_DIR (glob_project (a :: pid)) (w_fs w))).
  { rewrite Hg. now left. }
  apply glob_child in Hin. destruct Hin as [nm [-> [Hnm _]]].
  unfold bind at 1.
  destruct (rewrite_readme _ _ _ w) as [[] w1| |] eqn:H1; try discriminate.
  apply rewrite_readme_ok in H1. destruct H1 as [E1 R1].
  unfold bind at 1.
  destruct (m_write_text _ _ w1) as [[] w2| |] eqn:H2; try discriminate.
  apply m_write_text_ok in H2. destruct H2 as [W2 E2].
  unfold bind at 1.
  destruct (m_write_text _ _ w2) as [[] w3| |] eqn:H3; try discriminate.
  apply m_write_text_ok in H3. destruct H3 as [W3 E3].
  unfold bind at 1, print at 1. unfold bind at 1.
  match goal with |- context[update_memory ?m ?x] =>
    destruct (update_memory m x) as [[] w4| |] eqn:H4 end; try discriminate.
  apply update_memory_ok in H4. destruct H4 as [E4 F4].
  cbn [w_fs w_today] in F4.
  unfold bind at 1.
  destruct (call_git_helper _ w4) as [b w5| |] eqn:H5; try discriminate.
  apply call_git_helper_ok in H5. destruct H5 as [out5 E5].
  unfold ret. intros H. inversion H; subst w'. clear H.
  assert (Hfs : w_fs w5 = w_fs w4) by (rewrite E5; reflexivity).
  assert (Ht3 : w_today w3 = w_today w).
  { rewrite E3, E2, E1. reflexivity. }
  rewrite Ht3 in F4.
  exists (a :: pid), (PROJECTS_DIR ++ [nm]), nd, more.
  split; [reflexivity|]. split; [discriminate|]. split; [exact Hg|].
  rewrite Hfs. repeat split.
  - intros c Hc. destruct R1 as [[Hex _] | [c' [Hc' Hw]]].
    { rewrite (exists_file_text _ _ _ Hc) in Hex. discriminate. }
    assert (c' = c) as -> by congruence.
    unfold file_text at 1. rewrite F4 by (apply length_neq; discriminate).
    rewrite (write_text_other _ _ _ _ _ _ W3)
      by (apply length_neq; discriminate).
    rewrite (write_text_other _ _ _ _ _ _ W2)
      by (now apply readme_not_stash_file).
    now rewrite (write_text_same _ _ _ _ _ Hw).
  - unfold file_text. rewrite F4 by (apply length_neq; discriminate).
    now rewrite (write_text_same _ _ _ _ _ W3).
  - unfold file_text. rewrite F4 by (apply length_neq; discriminate).
    rewrite (write_text_other _ _ _ _ _ _ W3)
      by (apply length_neq; discriminate).
    now rewrite (write_text_same _ _ _ _ _ W2).
Qed.

Lemma cmd_switch_true (args : list text) (w w' : world) :
  cmd_switch args w = Ok true w' ->
  exists pid rest folder nd more,
    args = pid :: rest /\ valid_project_id pid = true /\
    glob PROJECTS_DIR (glob_project pid) (w_fs w) = (folder, nd) :: more /\
    (forall c, file_text (README folder) (w_fs w) = Some c ->
               file_text (README folder) (w_fs w') =
               Some (sub_lit stashed_true stashed_false 0
                             (universal_newlines c))) /\
    file_text ACTIVE_FILE (w_fs w') = Some pid.
Proof.
  unfold cmd_switch. destruct args as [|pid rest].
  { unfold bind, print, ret. discriminate. }
  destruct (valid_project_id pid) eqn:Hv; cbn [negb].
  2:{ unfold bind, print, ret. discriminate. }
  destruct (glob PROJECTS_DIR (glob_project pid) (w_fs w))
    as [|[folder nd] more] eqn:Hg.
  { unfold bind, print, ret. discriminate. }
  assert (Hin : In (folder, nd)
                   (glob PROJECTS_DIR (glob_project pid) (w_fs w))).
  { rewrite Hg. now left. }
  apply glob_child in Hin. destruct Hin as [nm [-> [Hnm _]]].
  unfold bind at 1.
  destruct (rewrite_readme _ _ _ w) as [[] w1| |] eqn:H1; try discriminate.
  apply rewrite_readme_ok in H1. destruct H1 as [E1 R1].
  unfold bind at 1, set_active_project.
  destruct (m_write_text _ _ w1) as [[] w2| |] eqn:H2; try discriminate.
  apply m_write_text_ok in H2. destruct H2 as [W2 E2].
  unfold bind at 1, print at 1. unfold bind at 1, print at 1.
  unfold bind at 1.
  match goal with |- context[call_git_helper ?c ?x] =>
    destruct (call_git_helper c x) as [b w3| |] eqn:H3 end;
    try discriminate.
  apply call_git_helper_ok in H3. destruct H3 as [out3 E3].
  cbn [w_fs] in E3.
  assert (Hfinal : forall w'', (e <- m_exists (README (PROJECTS_DIR ++ [nm])) ;;
            (if e
             then content <- m_read_text (README (PROJECTS_DIR ++ [nm])) ;;
                  print (MsgPreview (name (PROJECTS_DIR ++ [nm]))
                           (firstn 15 (split_char newline content)))
             else ret tt) ;;; ret true)%gtd w3 = Ok true w'' ->
          w_fs w'' = w_fs w2).
  { intros w''. subst w3. unfold bind, m_exists, m_read_text, print, ret.
    cbn -[exists_ read_text README PROJECTS_DIR firstn split_char name].
    destruct (exists_ (README (PROJECTS_DIR ++ [nm])) (w_fs w2));
      cbn -[exists_ read_text README PROJECTS_DIR firstn split_char name].
    - destruct (read_text (README (PROJECTS_DIR ++ [nm])) (w_fs w2));
        [|discriminate].
      intros H. inversion H. reflexivity.
    - intros H. inversion H. reflexivity. }
  intros H. apply Hfinal in H.
  exists pid, rest, (PROJECTS_DIR ++ [nm]), nd, more.
  split; [reflexivity|]. split; [exact Hv|]. split; [exact Hg|].
  rewrite H. split.
  - intros c Hc. destruct R1 as [[Hex _] | [c' [Hc' Hw]]].
    { rewrite (exists_file_text _ _ _ Hc) in Hex. discriminate. }
    assert (c' = c) as -> by congruence.
    unfold file_text at 1.
    rewrite (write_text_other _ _ _ _ _ _ W2)
      by (apply length_neq; discriminate).
    now rewrite (write_text_same _ _ _ _ _ Hw).
  - unfold file_text. now rewrite (write_text_same _ _ _ _ _ W2).
Qed.

End StashFacts.

(* ================================================================== *)
(** * Claims about stash and switch *)
(* ================================================================== *)

Section StashClaims.

Local Open Scope gtd_scope.

(** Stashing with no active project: the error is printed, False is
    returned and nothing else changes. *)
Lemma stash_without_active (w : world) (active : option text) :
  get_active_project w = Ok active w ->
  truthy active = false ->
  cmd_stash w =
  Ok false (with_out w (w_out w ++ [MsgNoActiveToStash]) (w_fs w)).
Proof.
  intros Ha Ht. unfold cmd_stash. unfold bind at 1. rewrite Ha, Ht.
  reflexivity.
Qed.

(** Whenever cmd_stash goes through, the pointer reads as none and the
    stash entry of the project is written. *)
Lemma stash_clears_pointer (w w' : world) :
  cmd_stash w = Ok true w' ->
  exists active, get_active_project w' = Ok active w' /\
                 truthy active = false.
Proof.
  intros H. apply cmd_stash_true in H.
  destruct H as (pid & folder & nd & more & _ & _ & _ & _ & Hp & _).
  exists (Some []). split; [|reflexivity].
  now rewrite (get_active_project_value _ _ Hp).
Qed.

(** C2 on a workspace that has no projects/P000-STASH directory yet
    (the state in which cmd_stashed and check_stashed_projects report
    "no stashed projects").  switch(P001) succeeds; stash() then marks
    the index document as stashed and raises at the write of the stash
    entry, before the pointer is cleared: P001 stays the active
    project. *)
Theorem stash_fails_without_stash_dir :
  exists_ STASH_DIR (w_fs w_fresh) = false /\
  exists w1 w2,
    cmd_switch [str "P001"] w_fresh = Ok true w1 /\
    cmd_stash w1 = Raise OSError w2 /\
    get_active_project w2 = Ok (Some (str "P001")) w2 /\
    read_text (README P001_folder) (w_fs w2) =
      Some (readme_pre "Demo" ++ stashed_true ++ readme_post) /\
    exists_ (STASH_DIR ++ [str "P001.md"]) (w_fs w2) = false.
Proof.
  split; [reflexivity|].
  exists (world_after (cmd_switch [str "P001"] w_fresh) w_fresh).
  exists (world_after
            (cmd_stash (world_after (cmd_switch [str "P001"] w_fresh) w_fresh))
            w_fresh).
  evaluate.
Qed.

(** With the directory in place the same two commands do what C2 says. *)
Lemma switch_then_stash_with_stash_dir :
  exists w1 w2,
    cmd_switch [str "P001"] w_with_stash = Ok true w1 /\
    cmd_stash w1 = Ok true w2 /\
    get_active_project w2 = Ok (Some []) w2 /\
    read_text (README P001_folder) (w_fs w2) =
      Some (readme_pre "Demo" ++ stashed_true ++ readme_post) /\
    exists_ (STASH_DIR ++ [str "P001.md"]) (w_fs w2) = true.
Proof.
  exists (world_after (cmd_switch [str "P001"] w_with_stash) w_fresh).
  exists (world_after
            (cmd_stash
               (world_after (cmd_switch [str "P001"] w_with_stash) w_fresh))
            w_fresh).
  evaluate.
Qed.

(** C10, as the code has it.  stash reads the index document in text
    mode, so that every "\r\n" and every lone "\r" of the stored text
    becomes "\n"; it replaces every occurrence of the text
    "stashed: false" by "stashed: true", wherever the text stands, and
    writes the result back.  switch does the same with
    "stashed: true" and "stashed: false".  When the stored document
    holds no carriage return and the text occurs in it exactly once
    (the frontmatter line of the template), only that occurrence is
    rewritten: everything before it and after it, the status: field
    included, is stored again byte for byte. *)
Theorem flag_rewrite_frame :
  (forall w w' pid folder nd more c,
      cmd_stash w = Ok true w' ->
      get_active_project w = Ok (Some pid) w ->
      glob PROJECTS_DIR (glob_project pid) (w_fs w) = (folder, nd) :: more ->
      file_text (README folder) (w_fs w) = Some c ->
      file_text (README folder) (w_fs w') =
        Some (sub_lit stashed_false stashed_true 0 (universal_newlines c)) /\
      (forall pre post,
          c = pre ++ stashed_false ++ post ->
          occurrences stashed_false c = 1 ->
          no_cr c = true ->
          file_text (README folder) (w_fs w') =
            Some (pre ++ stashed_true ++ post))) /\
  (forall w w' pid rest folder nd more c,
      cmd_switch (pid :: rest) w = Ok true w' ->
      glob PROJECTS_DIR (glob_project pid) (w_fs w) = (folder, nd) :: more ->
      file_text (README folder) (w_fs w) = Some c ->
      file_text (README folder) (w_fs w') =
        Some (sub_lit stashed_true stashed_false 0 (universal_newlines c)) /\
      (forall pre post,
          c = pre ++ stashed_true ++ post ->
          occurrences stashed_true c = 1 ->
          no_cr c = true ->
          file_text (README folder) (w_fs w') =
            Some (pre ++ stashed_false ++ post))).
Proof.
  split.
  - intros w w' pid folder nd more c Hs Ha Hg Hr.
    apply cmd_stash_true in Hs.
    destruct Hs as (pid' & folder' & nd' & more' & Ha' & _ & Hg' & Hrw & _).
    assert (pid' = pid) as -> by congruence.
    assert (folder' = folder) as -> by congruence.
    specialize (Hrw c Hr). split; [exact Hrw|].
    intros pre post Hc Hocc Hcr. rewrite Hrw. f_equal.
    rewrite (universal_newlines_plain c Hcr). subst c.
    apply sub_lit_single; [discriminate | exact Hocc].
  - intros w w' pid rest folder nd more c Hs Hg Hr.
    apply cmd_switch_true in Hs.
    destruct Hs as (pid' & rest' & folder' & nd' & more' & Hargs & _ & Hg' &
                    Hrw & _).
    inversion Hargs; subst pid' rest'.
    assert (folder' = folder) as -> by congruence.
    specialize (Hrw c Hr). split; [exact Hrw|].
    intros pre post Hc Hocc Hcr. rewrite Hrw. f_equal.
    rewrite (universal_newlines_plain c Hcr). subst c.
    apply sub_lit_single; [discriminate | exact Hocc].
Qed.

Lemma flag_rewrite_frame_witness :
  file_text (README P001_folder)
            (w_fs (world_after (cmd_stash w_active) w_active)) =
    Some (readme_pre "Demo" ++ stashed_true ++ readme_post) /\
  file_text (README P001_folder)
            (w_fs (world_after
                     (cmd_switch [str "P001"]
                        (world_after (cmd_stash w_active) w_active))
                     w_active)) =
    Some (readme_pre "Demo" ++ stashed_false ++ readme_post).
Proof.
  destruct flag_rewrite_frame as [Hstash Hswitch].
  split.
  - refine (proj2 (Hstash w_active (world_after (cmd_stash w_active) w_active)
                     (str "P001") P001_folder Dir [] readme_P001
                     _ _ _ _) (readme_pre "Demo") readme_post _ _ _);
      vm_compute; reflexivity.
  - refine (proj2 (Hswitch (world_after (cmd_stash w_active) w_active)
                     (world_after
                        (cmd_switch [str "P001"]
                           (world_after (cmd_stash w_active) w_active))
                        w_active)
                     (str "P001") [] P001_folder Dir []
                     (readme_pre "Demo" ++ stashed_true ++ readme_post)
                     _ _ _) (readme_pre "Demo") readme_post _ _ _);
      vm_compute; reflexivity.
Defined.

(** C10, as it is stated, fails.  The title of the first index
    document quotes the flag, and stash rewrites the title: line as
    well as the stashed: line.  The second index document is stored
    with the line ends "\r\n" and holds the flag once; stash stores it
    again with the line ends "\n", so that every line of it changes. *)
Lemma stash_rewrites_title_line :
  (exists w',
      cmd_stash w_quoting = Ok true w' /\
      read_text (README P001_folder) (w_fs w_quoting) = Some readme_quoting /\
      nth 2 (split_char newline readme_quoting) [] =
        str "title: Why stashed: false stays" /\
      nth 6 (split_char newline readme_quoting) [] = str "stashed: false" /\
      exists doc',
        read_text (README P001_folder) (w_fs w') = Some doc' /\
        nth 2 (split_char newline doc') [] =
          str "title: Why stashed: true stays" /\
        nth 6 (split_char newline doc') [] = str "stashed: true") /\
  (exists w',
      cmd_stash w_crlf = Ok true w' /\
      file_text (README P001_folder) (w_fs w_crlf) =
        Some (crlf readme_P001) /\
      occurrences stashed_false (crlf readme_P001) = 1 /\
      nth 0 (split_char newline (crlf readme_P001)) [] =
        str "---" ++ [ascii_of_nat 13] /\
      exists doc',
        file_text (README P001_folder) (w_fs w') = Some doc' /\
        nth 0 (split_char newline doc') [] = str "---" /\
        no_cr doc' = true).
Proof.
  split.
  - exists (world_after (cmd_stash w_quoting) w_quoting).
    split; [vm_compute; reflexivity|].
    split; [vm_compute; reflexivity|].
    split; [vm_compute; reflexivity|].
    split; [vm_compute; reflexivity|].
    exists (readme_pre "Why stashed: true stays" ++ stashed_true ++
            readme_post).
    evaluate.
  - exists (world_after (cmd_stash w_crlf) w_crlf).
    split; [vm_compute; reflexivity|].
    split; [vm_compute; reflexivity|].
    split; [vm_compute; reflexivity|].
    split; [vm_compute; reflexivity|].
    exists (readme_pre "Demo" ++ stashed_true ++ readme_post).
    evaluate.
Qed.

End StashClaims.

(* ================================================================== *)
(** * What create_task leaves behind *)
(* ================================================================== *)

Section TaskFacts.

Local Open Scope gtd_scope.

Lemma mkdir_other (p q : path) (f f1 : fs) :
  mkdir_exist_ok p f = Some f1 -> q <> p -> lookup q f1 = lookup q f.
Proof.
  intros H Hq. apply mkdir_cases in H. destruct H as [-> | ->];
    [reflexivity|].
  rewrite lookup_app. destruct (lookup q f); [reflexivity|].
  cbn [lookup]. now rewrite (path_eqb_neq _ _ Hq).
Qed.

Lemma name_task_file (folder : path) (tid slug : text) :
  one_component tid = true -> one_component slug = true ->
  name (task_file_of folder tid slug) = task_file_name tid slug.
Proof.
  intros Ht Hs. rewrite task_file_plain by assumption.
  change [str "tasks"; task_file_name tid slug]
    with ([str "tasks"] ++ [task_file_name tid slug]).
  rewrite app_assoc. apply name_snoc.
Qed.

(** No record, directly in a tasks directory, carries the identifier
    the allocator hands out next. *)
Lemma fresh_task_file (f : fs) (nm slug : text) :
  one_component slug = true ->
  lookup (task_file_of (PROJECTS_DIR ++ [nm])
            (str "K" ++
             format_03d (max_list (record_numbers glob_K_digit_md f) + 1))
            slug) f = None.
Proof.
  intros Hslug.
  set (n := max_list (record_numbers glob_K_digit_md f) + 1).
  pose proof (task_id_one_component n) as Hk.
  destruct (lookup _ f) as [nd|] eqn:Hl; [|reflexivity].
  exfalso. apply lookup_in in Hl.
  pose proof (task_name_number n slug) as [Hglob Hnum].
  apply (record_numbers_in glob_K_digit_md) in Hl.
  - rewrite name_task_file in Hl by assumption. unfold task_file_name in Hl.
    change (str "K" ++ format_03d n ++ str "-" ++ slug ++ str ".md")
      with ((str "K" ++ format_03d n) ++ str "-" ++ slug ++ str ".md") in Hl.
    rewrite Hnum in Hl. apply max_list_ge in Hl. unfold n in Hl. lia.
  - unfold task_file_of.
    change (str "tasks" :: ?x) with ([str "tasks"] ++ x).
    apply under_projects.
  - rewrite name_task_file by assumption. exact Hglob.
Qed.

Lemma snoc_neq (d : path) (a b : text) : a <> b -> d ++ [a] <> d ++ [b].
Proof.
  intros H E. apply app_inv_head in E. inversion E. contradiction.
Qed.

Lemma app_cons_neq (d : path) (a b : text) (r1 r2 : path) :
  a <> b -> d ++ a :: r1 <> d ++ b :: r2.
Proof.
  intros H E. apply app_inv_head in E. inversion E. contradiction.
Qed.

Lemma snoc_length (d : path) (a : text) :
  List.length (d ++ [a]) = List.length d + 1.
Proof. rewrite length_app. reflexivity. Qed.

Lemma split_char_nonempty (sep : ascii) (s : text) : split_char sep s <> [].
Proof.
  destruct s as [|c s]; cbn [split_char]; [discriminate|].
  destruct (Ascii.eqb c sep); [discriminate|].
  destruct (split_char sep s); discriminate.
Qed.

(** A stretch without separator at the start belongs to the first
    piece. *)
Lemma split_char_app_plain (sep : ascii) (a s : text) :
  forallb (fun c => negb (Ascii.eqb c sep)) a = true ->
  exists h t, split_char sep s = h :: t /\
              split_char sep (a ++ s) = (a ++ h) :: t.
Proof.
  induction a as [|c a IH].
  - intros _. destruct (split_char sep s) as [|h t] eqn:E.
    + now apply split_char_nonempty in E.
    + exists h, t. now rewrite <- E.
  - cbn [forallb]. rewrite andb_true_iff, negb_true_iff. intros [Hc Ha].
    destruct (IH Ha) as (h & t & Hs & Has). exists h, t.
    split; [exact Hs|]. cbn [app split_char]. now rewrite Hc, Has.
Qed.

(** The record of a task lies below the tasks directory of the
    project, in a component that begins with the identifier. *)
Lemma task_file_shape (folder : path) (tid slug : text) :
  one_component tid = true ->
  exists first rest,
    task_file_of folder tid slug = folder ++ str "tasks" :: first :: rest /\
    parent (task_file_of folder tid slug) =
      folder ++ str "tasks" :: removelast (first :: rest).
Proof.
  intros Ht. unfold task_file_of, path_parts, task_file_name.
  assert (Hplain : forallb (fun c => negb (Ascii.eqb c "/"))
                           (tid ++ str "-") = true).
  { apply one_component_no_slash. rewrite one_component_app, Ht. reflexivity. }
  destruct (split_char_app_plain "/" (tid ++ str "-") (slug ++ str ".md")
              Hplain) as (h & t & _ & Hsplit).
  rewrite <- app_assoc in Hsplit. rewrite Hsplit. cbn [filter].
  assert (Hfirst : text_eqb ((tid ++ str "-") ++ h) [] ||
                   text_eqb ((tid ++ str "-") ++ h) (str ".") = false).
  { apply orb_false_iff. split; apply text_eqb_neq.
    - intros E. apply app_eq_nil in E. destruct E as [E _].
      apply app_eq_nil in E. destruct E as [_ E]. discriminate E.
    - intros E. destruct tid as [|a tid]; [discriminate E|].
      cbn [app] in E. injection E as _ E.
      apply app_eq_nil in E. destruct E as [E _].
      apply app_eq_nil in E. destruct E as [_ E]. discriminate E. }
  rewrite Hfirst. cbn [negb].
  eexists. eexists. split; [reflexivity|].
  unfold parent. rewrite removelast_app by discriminate.
  reflexivity.
Qed.

(** The files after a successful create_task. *)
Lemma create_task_effect title pid status kw w tid w' :
  create_task title pid status kw w = Ok (Some tid) w' ->
  exists project_id folder nd more,
    (if truthy pid then pid = Some project_id
     else get_active_project w = Ok (Some project_id) w) /\
    glob PROJECTS_DIR (glob_project project_id) (w_fs w) =
      (folder, nd) :: more /\
    let task_file := task_file_of folder tid (slug_of title) in
    lookup task_file (w_fs w') =
      Some (File (task_content tid project_id title
                    (kw_get status (str "next")) kw (w_today w)
                    (split_1 (project_id ++ str "-") (name folder)))
                 (w_now w)) /\
    (forall q, q <> task_file -> q <> parent task_file ->
               q <> README folder ->
               lookup q (w_fs w') = lookup q (w_fs w)) /\
    (lookup (README folder) (w_fs w) = None ->
     lookup (README folder) (w_fs w') = None) /\
    (forall c, file_text (README folder) (w_fs w) = Some c ->
               contains tasks_heading (universal_newlines c) = false ->
               file_text (README folder) (w_fs w') = Some c) /\
    (forall c, file_text (README folder) (w_fs w) = Some c ->
               contains tasks_heading (universal_newlines c) = true ->
               exists doc,
                 insert_task_ref tid title (universal_newlines c) =
                   Expanded doc /\
                 file_text (README folder) (w_fs w') = Some doc).
Proof.
  intros H. pose proof (create_task_id _ _ _ _ _ _ _ H) as Htid.
  apply create_task_ok in H.
  destruct H as (project_id & folder & nd & more & f1 & f2 & out &
                 Hpid & Hg & _ & Hmk & Hw & _ & _ & Hup).
  exists project_id, folder, nd, more.
  split; [exact Hpid|]. split; [exact Hg|]. cbv zeta.
  set (task_file := task_file_of folder tid (slug_of title)) in *.
  assert (Hk : one_component tid = true)
    by (rewrite Htid; apply task_id_one_component).
  destruct (task_file_shape folder tid (slug_of title) Hk)
    as (first & rest & Hshape & Hparent).
  fold task_file in Hshape, Hparent.
  assert (Nrt : README folder <> task_file).
  { rewrite Hshape. unfold README.
    apply (app_cons_neq folder (str "README.md") (str "tasks") [] _).
    discriminate. }
  assert (Nrd : README folder <> parent task_file).
  { rewrite Hparent. unfold README.
    apply (app_cons_neq folder (str "README.md") (str "tasks") [] _).
    discriminate. }
  apply update_readme_ok in Hup. cbn [with_out w_fs w_now] in Hup.
  destruct Hup as [_ Hup].
  assert (Hr2 : forall q, q <> task_file -> q <> parent task_file ->
                          lookup q f2 = lookup q (w_fs w)).
  { intros q Hq1 Hq2. rewrite (write_text_other _ _ _ _ _ _ Hw Hq1).
    exact (mkdir_other _ _ _ _ Hmk Hq2). }
  assert (Ht2 : lookup task_file f2 =
                Some (File (task_content tid project_id title
                              (kw_get status (str "next")) kw (w_today w)
                              (split_1 (project_id ++ str "-") (name folder)))
                           (w_now w)))
    by exact (write_text_same _ _ _ _ _ Hw).
  assert (Hreadme2 : lookup (README folder) f2 =
                     lookup (README folder) (w_fs w))
    by (now apply Hr2).
  destruct Hup as [[Hsame Hno] | [c [doc [Hc [Hheading [Hdoc Hwr]]]]]].
  - rewrite Hsame. repeat split.
    + exact Ht2.
    + intros q Hq1 Hq2 _. now apply Hr2.
    + intros Hn. now rewrite Hreadme2.
    + intros c Hc _. unfold file_text in *. now rewrite Hreadme2.
    + intros c Hc Hh. exfalso.
      assert (Hc2 : file_text (README folder) f2 = Some c)
        by (unfold file_text in *; now rewrite Hreadme2).
      destruct Hno as [Hno | [c' [Hc' Hh']]].
      * rewrite (exists_file_text _ _ _ Hc2) in Hno. discriminate.
      * rewrite (read_text_of_file _ _ _ Hc2) in Hc'.
        inversion Hc'; subst c'. congruence.
  - apply read_text_some in Hc. destruct Hc as (c0 & Hc0 & ->).
    assert (Hc1 : file_text (README folder) (w_fs w) = Some c0)
      by (unfold file_text in *; now rewrite <- Hreadme2).
    repeat split.
    + rewrite (write_text_other _ _ _ _ _ _ Hwr) by (now apply not_eq_sym).
      exact Ht2.
    + intros q Hq1 Hq2 Hq3.
      rewrite (write_text_other _ _ _ _ _ _ Hwr Hq3). now apply Hr2.
    + intros Hn. unfold file_text in Hc1. rewrite Hn in Hc1. discriminate.
    + intros c Hc Hh. exfalso. congruence.
    + intros c Hc Hh. assert (c = c0) as -> by congruence.
      exists doc. split; [exact Hdoc|].
      exact (write_text_stored _ _ _ _ _ Hwr).
Qed.

(** With a slug that holds no separator the record is a new file
    directly in the tasks directory of the project. *)
Lemma create_task_plain title pid status kw w tid w' project_id folder nd
    more :
  create_task title pid status kw w = Ok (Some tid) w' ->
  glob PROJECTS_DIR (glob_project project_id) (w_fs w) =
    (folder, nd) :: more ->
  one_component (slug_of title) = true ->
  task_file_of folder tid (slug_of title) =
    folder ++ [str "tasks"; task_file_name tid (slug_of title)] /\
  parent (task_file_of folder tid (slug_of title)) = folder ++ [str "tasks"] /\
  lookup (task_file_of folder tid (slug_of title)) (w_fs w) = None.
Proof.
  intros H Hg Hslug. pose proof (create_task_id _ _ _ _ _ _ _ H) as Htid.
  assert (Hk : one_component tid = true)
    by (rewrite Htid; apply task_id_one_component).
  split; [now apply task_file_plain|].
  split; [now apply parent_task_file|].
  assert (Hin : In (folder, nd)
                   (glob PROJECTS_DIR (glob_project project_id) (w_fs w))).
  { rewrite Hg. now left. }
  apply glob_child in Hin. destruct Hin as [nm [-> _]].
  rewrite Htid. now apply fresh_task_file.
Qed.

End TaskFacts.

(* ================================================================== *)
(** * Claims about create_task *)
(* ================================================================== *)

Section TaskClaims.

Local Open Scope gtd_scope.

Lemma task_content_header tid pid title status kw created project_name :
  exists rest,
    task_content tid pid title status kw created project_name =
    record_header tid pid title status ++ rest.
Proof.
  unfold task_content, TASK_TEMPLATE, record_header.
  match goal with
  | |- exists rest, List.concat (?a :: ?b :: ?c :: ?d :: ?e :: ?l) = _ =>
      exists (List.concat l);
      change (a :: b :: c :: d :: e :: l) with ([a; b; c; d; e] ++ l)
  end.
  apply concat_app.
Qed.

(** C5, as the code has it.  When create_task is called without a
    status, the record it writes carries "status: next": the record
    begins with the lines ---, id, project, title and status: next. *)
Theorem default_status_is_next title project_id kw w task_id w' :
  create_task title project_id None kw w = Ok (Some task_id) w' ->
  exists pid folder rest,
    In folder (map fst (glob PROJECTS_DIR (glob_project pid) (w_fs w))) /\
    file_text (task_file_of folder task_id (slug_of title)) (w_fs w') =
      Some (record_header task_id pid title (str "next") ++ rest).
Proof.
  intros H. apply create_task_effect in H.
  destruct H as (pid & folder & nd & more & _ & Hg & Hr & _).
  cbn [kw_get] in Hr.
  destruct (task_content_header task_id pid title (str "next") kw (w_today w)
              (split_1 (pid ++ str "-") (name folder))) as [rest Hrest].
  exists pid, folder, rest. split.
  - rewrite Hg. now left.
  - unfold file_text. now rewrite Hr, Hrest.
Qed.

Lemma default_status_is_next_witness :
  exists pid folder rest,
    In folder (map fst (glob PROJECTS_DIR (glob_project pid)
                          (w_fs w_with_stash))) /\
    file_text (task_file_of folder (str "K001") (slug_of (str "Write spec")))
              (w_fs first_task_world) =
      Some (record_header (str "K001") pid (str "Write spec") (str "next")
            ++ rest).
Proof.
  assert (Hc : create_task (str "Write spec") (Some (str "P001")) None
                 no_kwargs w_with_stash
               = Ok (Some (str "K001")) first_task_world).
  { vm_compute. reflexivity. }
  exact (default_status_is_next _ _ _ _ _ _ Hc).
Defined.

(** C5, as it is stated, fails: the first task created in P001 without
    a status is K001, and its record says "status: next"; the text
    "status: inbox" does not occur in it. *)
Lemma first_task_status_not_inbox :
  create_task (str "Write spec") (Some (str "P001")) None no_kwargs
              w_with_stash
    = Ok (Some (str "K001")) first_task_world /\
  exists c,
    read_text first_task_file (w_fs first_task_world) = Some c /\
    nth 4 (split_char newline c) [] = str "status: next" /\
    contains (str "status: inbox") c = false.
Proof.
  split; [vm_compute; reflexivity|].
  exists (task_content (str "K001") (str "P001") (str "Write spec")
            (str "next") no_kwargs (str "2026-01-02") (str "demo")).
  evaluate.
Qed.


(** ** Replacement templates without a backslash *)

Lemma has_backslash_app (a b : text) :
  has_backslash (a ++ b) = has_backslash a || has_backslash b.
Proof. apply existsb_app. Qed.

(** A stretch without backslash at the start of a template stands for
    itself. *)
Lemma parse_template_app_plain (whole a t : text) :
  has_backslash a = false ->
  parse_template whole TNormal (a ++ t) =
  emit a (parse_template whole TNormal t).
Proof.
  induction a as [|c a IH]; intros H.
  - cbn [app]. destruct (parse_template whole TNormal t); reflexivity.
  - unfold has_backslash in H. cbn [existsb] in H.
    apply orb_false_iff in H. destruct H as [Hc Ha].
    cbn [app parse_template]. rewrite Hc.
    rewrite (IH Ha).
    destruct (parse_template whole TNormal t); reflexivity.
Qed.

Lemma expand_template_plain (whole t : text) :
  has_backslash t = false -> expand_template whole t = Expanded t.
Proof.
  intros H. unfold expand_template.
  rewrite <- (app_nil_r t) at 1. rewrite parse_template_app_plain by exact H.
  cbn. now rewrite app_nil_r.
Qed.








(** A title with a backslash.  "\n" in the title is an escape of the
    replacement template: the reference line is inserted as two lines.
    A title with "\U" is a bad escape: re.sub raises after the record
    was written and committed, and the index document stays as it
    was. *)
Lemma backslash_title_is_expanded :
  (exists w' doc,
      create_task (str "Fix C:\new folder") (Some (str "P001")) None no_kwargs
                  w_with_stash = Ok (Some (str "K001")) w' /\
      file_text (README P001_folder) (w_fs w') = Some doc /\
      nth 15 (split_char newline doc) [] = str "## Tasks" /\
      nth 16 (split_char newline doc) [] =
        str "- [ ] [[tasks/K001|K001]]: Fix C:" /\
      nth 17 (split_char newline doc) [] = str "ew folder #next") /\
  (exists w',
      create_task (str "Tidy C:\Users") (Some (str "P001")) None no_kwargs
                  w_with_stash = Raise ReError w' /\
      exists_ (task_file_of P001_folder (str "K001")
                            (slug_of (str "Tidy C:\Users"))) (w_fs w') = true /\
      file_text (README P001_folder) (w_fs w') = Some readme_P001).
Proof.
  split.
  - exists (world_after
              (create_task (str "Fix C:\new folder") (Some (str "P001")) None
                           no_kwargs w_with_stash) w_with_stash).
    eexists. split; [vm_compute; reflexivity|].
    split; [vm_compute; reflexivity|]. evaluate.
  - exists (world_after
              (create_task (str "Tidy C:\Users") (Some (str "P001")) None
                           no_kwargs w_with_stash) w_with_stash).
    evaluate.
Qed.

(** call_git_helper turns a failing helper into a warning and False. *)
Lemma helper_failure_is_a_warning (command : text) (w : world) :
  existsb (text_eqb command) helper_commands = true ->
  w_helper w command = ExitNonZero ->
  call_git_helper command w =
  Ok false (with_out w (w_out w ++ [MsgGitHelperError]) (w_fs w)).
Proof.
  intros Hk Hf. unfold call_git_helper. rewrite Hk, Hf. reflexivity.
Qed.

(** With a failing helper script create_task still returns the
    identifier; the warning is the last line printed. *)
Lemma create_task_with_failing_helper :
  exists w',
    create_task (str "Write spec") (Some (str "P001")) None no_kwargs
                w_helper_fails = Ok (Some (str "K001")) w' /\
    exists_ first_task_file (w_fs w') = true /\
    last (w_out w') MsgNoActiveProject = MsgGitHelperError.
Proof.
  exists (world_after
            (create_task (str "Write spec") (Some (str "P001")) None
                         no_kwargs w_helper_fails) w_helper_fails).
  evaluate.
Qed.

(** C3 where the commit itself fails.  create_task runs `git add` and
    `git commit` with check=True and without a handler: when the commit
    exits with an error after the record was written, create_task
    raises CalledProcessError.  The record stays (no rollback), but no
    warning is printed, the index document is not updated and no
    identifier is returned. *)
Theorem commit_failure_is_raised :
  exists w',
    create_task (str "Write spec") (Some (str "P001")) None no_kwargs
                w_commit_fails = Raise CalledProcessError w' /\
    exists_ first_task_file (w_fs w_commit_fails) = false /\
    exists_ first_task_file (w_fs w') = true /\
    read_text (README P001_folder) (w_fs w') = Some readme_P001 /\
    w_out w' = [].
Proof.
  exists (world_after
            (create_task (str "Write spec") (Some (str "P001")) None
                         no_kwargs w_commit_fails) w_commit_fails).
  evaluate.
Qed.

End TaskClaims.

(* ================================================================== *)
(** * Health alerts *)
(* ================================================================== *)

Section HealthFacts.

Local Open Scope gtd_scope.
Local Open Scope Z_scope.

Lemma for_files_some {A} (body : path -> text -> Z -> list A)
    (entries : list (path * node)) (l : list A) :
  for_files body entries = Some l ->
  l = flat_map (on_file body) entries /\ forallb is_file entries = true.
Proof.
  revert l. induction entries as [|[p [c t|]] es IH]; intros l H.
  - inversion H. auto.
  - cbn [for_files] in H.
    destruct (for_files body es) as [l'|]; [|discriminate].
    inversion H; subst. destruct (IH l' eq_refl) as [-> Hall].
    cbn [flat_map on_file forallb]. auto.
  - discriminate.
Qed.

Lemma for_files_total {A} (body : path -> text -> Z -> list A)
    (entries : list (path * node)) :
  forallb is_file entries = true ->
  for_files body entries = Some (flat_map (on_file body) entries).
Proof.
  induction entries as [|[p [c t|]] es IH]; intros H.
  - reflexivity.
  - cbn [for_files]. cbn [forallb] in H. apply andb_true_iff in H.
    now rewrite (IH (proj2 H)).
  - discriminate.
Qed.

Lemma aging_rule_kind status limit mk now task_file content mtime k :
  (forall p i t d, kind_of (mk p i t d) = k) ->
  Forall (fun a => kind_of a = k)
         (aging_rule status limit mk now task_file content mtime).
Proof.
  intros Hk. unfold aging_rule.
  destruct (contains (str status) content && (mtime <? now - limit * day));
    [|constructor].
  destruct (id_match content); [|constructor].
  destruct (title_match content); constructor; [apply Hk | constructor].
Qed.

(** The waiting-stale alerts of one task record. *)
Lemma waiting_alerts_of_task now task_file content mtime :
  filter (has_kind WaitingStale) (task_alerts now task_file content mtime) =
  aging_rule "status: waiting" 3 AlertWaiting now task_file content mtime.
Proof.
  unfold task_alerts. rewrite filter_app.
  assert (H1 : forall l, Forall (fun a => kind_of a = WaitingStale) l ->
                         filter (has_kind WaitingStale) l = l).
  { induction 1 as [|a l Ha _ IH]; [reflexivity|].
    cbn [filter]. unfold has_kind at 1. rewrite Ha. now rewrite IH. }
  assert (H2 : forall l, Forall (fun a => kind_of a = NextStale) l ->
                         filter (has_kind WaitingStale) l = []).
  { induction 1 as [|a l Ha _ IH]; [reflexivity|].
    cbn [filter]. unfold has_kind at 1. rewrite Ha. exact IH. }
  rewrite H1 by (apply aging_rule_kind; reflexivity).
  rewrite H2 by (apply aging_rule_kind; reflexivity).
  apply app_nil_r.
Qed.

End HealthFacts.

Section HealthClaims.

Local Open Scope gtd_scope.
Local Open Scope Z_scope.

(** C4, as the code has it.  The age test compares the modification
    time with now minus 3 days, strictly, on the exact elapsed time and
    not on the whole-day count.  For a task record that says
    "status: waiting" and has an id and a title: up to exactly 3 days
    of age there is no waiting alert; beyond 3 days, by however little,
    there is exactly one, and it reports the whole-day count.  So a
    count of 4 (or more) gives exactly one alert, and a count of 3 gives
    none only at exactly 3 days. *)
Theorem waiting_alert_boundary now task_file content mtime task_id title :
  contains (str "status: waiting") content = true ->
  id_match content = Some task_id ->
  title_match content = Some title ->
  let waiting :=
    filter (has_kind WaitingStale) (task_alerts now task_file content mtime) in
  (now - mtime <= 3 * day -> waiting = []) /\
  (3 * day < now - mtime ->
   waiting = [AlertWaiting task_file task_id title (days_between now mtime)]) /\
  (4 <= days_between now mtime ->
   waiting = [AlertWaiting task_file task_id title (days_between now mtime)]) /\
  (now - mtime = 3 * day -> days_between now mtime = 3 /\ waiting = []).
Proof.
  intros Hc Hi Ht waiting. unfold waiting.
  rewrite waiting_alerts_of_task. unfold aging_rule. rewrite Hc, Hi, Ht.
  cbn [andb].
  assert (Hday : 0 < day) by reflexivity.
  assert (Hno : now - mtime <= 3 * day -> (mtime <? now - 3 * day) = false).
  { intros H. apply Z.ltb_ge. lia. }
  assert (Hyes : 3 * day < now - mtime -> (mtime <? now - 3 * day) = true).
  { intros H. apply Z.ltb_lt. lia. }
  repeat split.
  - intros H. now rewrite (Hno H).
  - intros H. now rewrite (Hyes H).
  - intros H. rewrite Hyes; [reflexivity|].
    unfold days_between in H.
    pose proof (Z.mul_div_le (now - mtime) day Hday) as Hle. nia.
  - unfold days_between. rewrite H. now rewrite Z.div_mul by discriminate.
  - rewrite Hno; [reflexivity | lia].
Qed.

Lemma waiting_alert_boundary_witness :
  filter (has_kind WaitingStale)
    (task_alerts (4 * day) (sample_task_file "K002-call-back.md")
       (sample_task "K002" "waiting") 0) =
  [AlertWaiting (sample_task_file "K002-call-back.md") (str "K002")
     (str "Call back") 4].
Proof.
  refine (proj1 (proj2 (proj2
    (waiting_alert_boundary (4 * day) (sample_task_file "K002-call-back.md")
       (sample_task "K002" "waiting") 0 (str "K002") (str "Call back")
       _ _ _))) _); vm_compute; first [reflexivity | discriminate].
Defined.

(** C4, as it is stated, fails: this waiting task is 3 days and one hour
    old, its whole-day count is 3, and it gets a waiting alert. *)
Lemma waiting_three_days_alerts :
  days_between (3 * day + hour) 0 = 3 /\
  contains (str "status: waiting") (sample_task "K002" "waiting") = true /\
  task_alerts (3 * day + hour) (sample_task_file "K002-call-back.md")
              (sample_task "K002" "waiting") 0 =
  [AlertWaiting (sample_task_file "K002-call-back.md") (str "K002")
     (str "Call back") 3].
Proof.
  evaluate.
Qed.



Lemma Forall_flat_map {A B} (P : B -> Prop) (f : A -> list B) (l : list A) :
  (forall a, Forall P (f a)) -> Forall P (flat_map f l).
Proof.
  intros H. induction l as [|a l IH]; [constructor|].
  cbn [flat_map]. apply Forall_app. auto.
Qed.




End HealthClaims.

(* ================================================================== *)
(** * Further properties of the commands *)
(* ================================================================== *)

Section RefusedCommands.

Local Open Scope gtd_scope.

Lemma print_then_ret {A} (m : message) (a : A) (w : world) :
  (print m ;;; ret a) w = Ok a (with_out w (w_out w ++ [m]) (w_fs w)).
Proof. reflexivity. Qed.

Lemma cmd_switch_false (args : list text) (w w' : world) :
  cmd_switch args w = Ok false w' -> w' = with_out w (w_out w') (w_fs w).
Proof.
  unfold cmd_switch. destruct args as [|pid rest].
  { rewrite print_then_ret. intros H. inversion H. reflexivity. }
  destruct (valid_project_id pid); cbn [negb].
  2:{ rewrite print_then_ret. intros H. inversion H. reflexivity. }
  destruct (glob PROJECTS_DIR (glob_project pid) (w_fs w))
    as [|[folder nd] more].
  { rewrite print_then_ret. intros H. inversion H. reflexivity. }
  unfold bind at 1.
  destruct (rewrite_readme _ _ _ w) as [[] w1| |]; try discriminate.
  unfold bind at 1, set_active_project.
  destruct (m_write_text _ _ w1) as [[] w2| |]; try discriminate.
  unfold bind at 1, print at 1. unfold bind at 1, print at 1.
  unfold bind at 1.
  match goal with |- context[call_git_helper ?c ?x] =>
    destruct (call_git_helper c x) as [b w3| |] end; try discriminate.
  unfold bind, m_exists, m_read_text, print, ret.
  destruct (exists_ _ (w_fs w3)); [|discriminate].
  destruct (read_text _ (w_fs w3)); discriminate.
Qed.

Lemma cmd_stash_false (w w' : world) :
  cmd_stash w = Ok false w' -> w' = with_out w (w_out w') (w_fs w).
Proof.
  unfold cmd_stash. unfold bind at 1.
  destruct (get_active_project w) as [active w0| |] eqn:Ha; try discriminate.
  pose proof (get_active_project_ok _ _ _ Ha) as ->.
  destruct (truthy active); cbn [negb].
  2:{ rewrite print_then_ret. intros H. inversion H. reflexivity. }
  destruct (plain_name (kw_get active [])); cbn [negb]; [|discriminate].
  destruct (glob PROJECTS_DIR (glob_project (kw_get active [])) (w_fs w))
    as [|[folder nd] more].
  { rewrite print_then_ret. intros H. inversion H. reflexivity. }
  unfold bind at 1.
  destruct (rewrite_readme _ _ _ w) as [[] w1| |]; try discriminate.
  unfold bind at 1.
  destruct (m_write_text _ _ w1) as [[] w2| |]; try discriminate.
  unfold bind at 1.
  destruct (m_write_text _ _ w2) as [[] w3| |]; try discriminate.
  unfold bind at 1, print at 1. unfold bind at 1.
  match goal with |- context[update_memory ?m ?x] =>
    destruct (update_memory m x) as [[] w4| |] end; try discriminate.
  unfold bind at 1.
  destruct (call_git_helper _ w4) as [b w5| |]; discriminate.
Qed.

Lemma create_task_none title pid status kw (w w' : world) :
  create_task title pid status kw w = Ok None w' ->
  w' = with_out w (w_out w') (w_fs w).
Proof.
  unfold create_task. unfold bind at 1.
  destruct ((if truthy pid then ret pid else get_active_project) w)
    as [chosen w0| |] eqn:Hres; try discriminate.
  assert (w0 = w) as ->.
  { destruct (truthy pid); [unfold ret in Hres; congruence|].
    eapply get_active_project_ok; eauto. }
  destruct (truthy chosen); cbn [negb].
  2:{ rewrite print_then_ret. intros H. inversion H. reflexivity. }
  destruct (plain_name (kw_get chosen [])); cbn [negb]; [|discriminate].
  destruct (glob PROJECTS_DIR (glob_project (kw_get chosen [])) (w_fs w))
    as [|[folder nd] more].
  { rewrite print_then_ret. intros H. inversion H. reflexivity. }
  unfold bind at 1, get_next_id at 1.
  destruct (existsb (text_eqb (str "..")) _); [discriminate|].
  unfold bind at 1.
  destruct (m_mkdir_exist_ok _ w) as [[] w1| |]; try discriminate.
  unfold bind at 1.
  destruct (m_write_text _ _ w1) as [[] w2| |]; try discriminate.
  unfold bind at 1.
  destruct (m_run_checked w_git_add w2) as [[] w3| |]; try discriminate.
  unfold bind at 1.
  destruct (m_run_checked w_git_commit w3) as [[] w4| |]; try discriminate.
  unfold bind at 1, print at 1. unfold bind at 1.
  match goal with |- context[update_readme ?a ?b ?c ?d] =>
    destruct (update_readme a b c d) as [[] w5| |] end; try discriminate.
  unfold bind at 1, print at 1. unfold bind at 1, print at 1.
  unfold bind at 1.
  match goal with |- context[call_git_helper ?c ?x] =>
    destruct (call_git_helper c x) as [b w6| |] end; discriminate.
Qed.

(** A command that refuses (switch or stash returning False, create_task
    returning None) has only printed: no file was written, created or
    changed. *)
Theorem refused_commands_change_nothing (w w' : world) :
  (forall args, cmd_switch args w = Ok false w' ->
                w' = with_out w (w_out w') (w_fs w)) /\
  (cmd_stash w = Ok false w' -> w' = with_out w (w_out w') (w_fs w)) /\
  (forall title pid status kw,
      create_task title pid status kw w = Ok None w' ->
      w' = with_out w (w_out w') (w_fs w)).
Proof.
  split; [|split].
  - intros args. apply cmd_switch_false.
  - apply cmd_stash_false.
  - intros title pid status kw. apply create_task_none.
Qed.

Lemma refused_commands_change_nothing_witness :
  w_fs (world_after (cmd_switch [str "P007"] w_fresh) w_fresh) = fs_fresh.
Proof.
  assert (H : cmd_switch [str "P007"] w_fresh =
              Ok false (world_after (cmd_switch [str "P007"] w_fresh) w_fresh)).
  { vm_compute. reflexivity. }
  rewrite (proj1 (refused_commands_change_nothing _ _) _ H). reflexivity.
Defined.

End RefusedCommands.

(* ================================================================== *)
(** * Further properties of the identifier allocator *)
(* ================================================================== *)

Section AllocatorExtras.

Local Open Scope gtd_scope.

(** The identifier get_next_id hands out is new: its number is positive
    and larger than the number of every record of the kind, and, for
    tasks, no project holds a record file named after it directly in
    its tasks directory, whatever the slug (a slug without separator,
    as a file name has it). *)
Theorem next_id_exceeds_records (w : world) (prefix : text) :
  exists n,
    get_next_id prefix w = Ok (prefix ++ format_03d n) w /\
    0 < n /\
    (forall e, In e (rglob PROJECTS_DIR (kind_pattern prefix) (w_fs w)) ->
               int_of (take_while is_digit (skipn 1 (name (fst e)))) < n) /\
    (prefix = str "K" ->
     forall project slug,
       one_component slug = true ->
       lookup ((PROJECTS_DIR ++ [project]) ++
               [str "tasks";
                task_file_name (str "K" ++ format_03d n) slug]) (w_fs w)
       = None).
Proof.
  exists (max_list (record_numbers (kind_pattern prefix) (w_fs w)) + 1).
  split; [apply get_next_id_value|]. split; [lia|]. split.
  - intros e He.
    assert (Hin : In (int_of (take_while is_digit (skipn 1 (name (fst e)))))
                     (record_numbers (kind_pattern prefix) (w_fs w))).
    { unfold record_numbers.
      apply (in_map (fun e => int_of (take_while is_digit
                                        (skipn 1 (name (fst e))))) _ e He). }
    apply max_list_ge in Hin. lia.
  - intros -> project slug Hslug.
    rewrite <- task_file_plain;
      [now apply fresh_task_file | apply task_id_one_component | exact Hslug].
Qed.

Lemma next_id_exceeds_records_witness :
  lookup (P001_folder ++ [str "tasks"; str "K002-plan.md"])
         (w_fs first_task_world) = None.
Proof.
  destruct (next_id_exceeds_records first_task_world (str "K"))
    as (n & Hid & _ & _ & Hfresh).
  assert (Hv : get_next_id (str "K") first_task_world =
               Ok (str "K002") first_task_world)
    by (vm_compute; reflexivity).
  rewrite Hv in Hid.
  assert (Hn : format_03d n = str "002").
  { injection Hid as Heq. symmetry. exact Heq. }
  specialize (Hfresh eq_refl (str "P001-demo") (str "plan") eq_refl).
  rewrite Hn in Hfresh. exact Hfresh.
Defined.

(** Entries that are no records of the kind do not count: an entry
    outside projects/, or one whose name does not fit the pattern of the
    kind, leaves the next identifier as it was. *)
Theorem other_entries_do_not_count (w : world) (prefix : text) (p : path)
    (nd : node) (out : list message) :
  under PROJECTS_DIR p = false \/ kind_pattern prefix (name p) = false ->
  exists id,
    get_next_id prefix w = Ok id w /\
    get_next_id prefix (with_out w out (w_fs w ++ [(p, nd)])) =
      Ok id (with_out w out (w_fs w ++ [(p, nd)])).
Proof.
  intros H. eexists. split; [apply get_next_id_value|].
  rewrite get_next_id_value. cbn [with_out w_fs].
  rewrite record_numbers_app.
  assert (Hnone : record_numbers (kind_pattern prefix) [(p, nd)] = []).
  { unfold record_numbers, rglob. cbn [filter fst].
    destruct H as [H | H]; rewrite H;
      [reflexivity | now rewrite andb_false_r]. }
  now rewrite Hnone, app_nil_r.
Qed.

Lemma other_entries_do_not_count_witness :
  get_next_id (str "K")
    (with_out w_fresh []
       (fs_fresh ++ [(P001_folder ++ [str "tasks"; str "Kickoff.md"],
                      File [] 0%Z)])) =
  Ok (str "K001")
    (with_out w_fresh []
       (fs_fresh ++ [(P001_folder ++ [str "tasks"; str "Kickoff.md"],
                      File [] 0%Z)])).
Proof.
  destruct (other_entries_do_not_count w_fresh (str "K")
              (P001_folder ++ [str "tasks"; str "Kickoff.md"])
              (File [] 0%Z) [] (or_intror eq_refl)) as (id & H1 & H2).
  assert (Hv : get_next_id (str "K") w_fresh = Ok (str "K001") w_fresh)
    by (vm_compute; reflexivity).
  rewrite Hv in H1. injection H1 as Hid. rewrite <- Hid in H2. exact H2.
Defined.

End AllocatorExtras.

Section MemoryLog.

Local Open Scope gtd_scope.

Lemma update_memory_last_write (message : text) (w w1 : world) :
  update_memory message w = Ok tt w1 ->
  file_text (MEMORY_DIR ++ [w_today w ++ str ".md"]) (w_fs w1) =
  Some (str "- " ++ message ++ nl).
Proof.
  unfold update_memory, bind, m_exists, ret.
  destruct (exists_ (MEMORY_DIR ++ [w_today w ++ str ".md"]) (w_fs w)).
  - intros H. apply m_write_text_ok in H. destruct H as [H1 _].
    unfold file_text. now rewrite (write_text_same _ _ _ _ _ H1).
  - destruct (m_write_text _ _ w) as [[] w0| |] eqn:H0; try discriminate.
    apply m_write_text_ok in H0. destruct H0 as [_ H02].
    intros H. apply m_write_text_ok in H. destruct H as [H1 _].
    unfold file_text. now rewrite (write_text_same _ _ _ _ _ H1).
Qed.

(** update_memory writes the entry with write_text, which replaces the
    file: afterwards the memory file of the day holds exactly the one
    line of the last message.  The header written for a new file and
    the entries logged before are gone, and no other file is
    touched. *)
Theorem memory_file_holds_last_entry_only (first second : text)
    (w w' : world) :
  (update_memory first ;;; update_memory second) w = Ok tt w' ->
  file_text (MEMORY_DIR ++ [w_today w ++ str ".md"]) (w_fs w') =
    Some (str "- " ++ second ++ nl) /\
  forall q, q <> MEMORY_DIR ++ [w_today w ++ str ".md"] ->
            lookup q (w_fs w') = lookup q (w_fs w).
Proof.
  unfold bind at 1.
  destruct (update_memory first w) as [[] w1| |] eqn:H1; try discriminate.
  intros H2.
  pose proof (update_memory_ok _ _ _ H1) as [E1 F1].
  pose proof (update_memory_ok _ _ _ H2) as [_ F2].
  pose proof (update_memory_last_write _ _ _ H2) as L2.
  assert (Ht : w_today w1 = w_today w) by (rewrite E1; reflexivity).
  rewrite Ht in L2, F2. split; [exact L2|].
  intros q Hq. rewrite (F2 q Hq). exact (F1 q Hq).
Qed.

Lemma memory_file_holds_last_entry_only_witness :
  file_text (MEMORY_DIR ++ [str "2026-01-02.md"])
    (w_fs (world_after
             ((update_memory (str "one") ;;; update_memory (str "two"))
                w_fresh) w_fresh)) =
  Some (str "- two" ++ nl).
Proof.
  refine (proj1 (memory_file_holds_last_entry_only (str "one") (str "two")
                   w_fresh _ _)).
  vm_compute. reflexivity.
Defined.

End MemoryLog.

(* ================================================================== *)
(** * Further properties of the health alerts *)
(* ================================================================== *)

Section HealthExtras.

Local Open Scope gtd_scope.
Local Open Scope Z_scope.

Lemma not_older (now mtime small big : Z) :
  now - mtime <= small * day -> small <= big ->
  (mtime <? now - big * day) = false.
Proof.
  intros H Hle. apply Z.ltb_ge.
  assert (0 < day) by reflexivity. nia.
Qed.

(** A file modified within the last 3 days raises no aging alert at
    all; within the last 7 days it raises no next-stale alert, and a
    stash entry that recent raises no stash-stale alert. *)
Theorem recent_files_raise_no_alert now p content mtime :
  (now - mtime <= 3 * day -> task_alerts now p content mtime = []) /\
  (now - mtime <= 7 * day ->
   filter (has_kind NextStale) (task_alerts now p content mtime) = [] /\
   stash_alerts now p content mtime = []).
Proof.
  split.
  - intros H. unfold task_alerts, aging_rule.
    rewrite (not_older now mtime 3 3 H ltac:(lia)).
    rewrite (not_older now mtime 3 7 H ltac:(lia)).
    now rewrite !andb_false_r.
  - intros H. split.
    + unfold task_alerts. rewrite filter_app.
      assert (Hw : forall l, Forall (fun a => kind_of a = WaitingStale) l ->
                             filter (has_kind NextStale) l = []).
      { induction 1 as [|a l Ha _ IH]; [reflexivity|].
        cbn [filter]. unfold has_kind at 1. rewrite Ha. exact IH. }
      rewrite Hw by (apply aging_rule_kind; reflexivity).
      unfold aging_rule. rewrite (not_older now mtime 7 7 H ltac:(lia)).
      now rewrite andb_false_r.
    + unfold stash_alerts. now rewrite (not_older now mtime 7 7 H ltac:(lia)).
Qed.

Lemma recent_files_raise_no_alert_witness :
  task_alerts (3 * day) (sample_task_file "K002-call-back.md")
              (sample_task "K002" "waiting") 0 = [].
Proof.
  apply (proj1 (recent_files_raise_no_alert (3 * day)
                  (sample_task_file "K002-call-back.md")
                  (sample_task "K002" "waiting") 0)).
  vm_compute. discriminate.
Defined.

Lemma older_days (now mtime limit : Z) :
  (mtime <? now - limit * day) = true -> limit <= days_between now mtime.
Proof.
  intros H. apply Z.ltb_lt in H. unfold days_between.
  apply Z.div_le_lower_bound; [reflexivity | lia].
Qed.

Lemma aging_rule_beyond status limit mk now p content mtime :
  (forall q i t d, limit <= d -> beyond_limit (mk q i t d)) ->
  Forall beyond_limit (aging_rule status limit mk now p content mtime).
Proof.
  intros Hmk. unfold aging_rule.
  destruct (contains (str status) content); cbn [andb]; [|constructor].
  destruct (mtime <? now - limit * day) eqn:E; [|constructor].
  destruct (id_match content); [|constructor].
  destruct (title_match content); constructor; [|constructor].
  apply Hmk. now apply older_days.
Qed.

Lemma inbox_count_filter (entries : list (path * node)) (n : nat) :
  inbox_count entries = Some n ->
  n = List.length (filter (file_says "status: inbox") entries).
Proof.
  unfold inbox_count.
  destruct (for_files _ entries) as [l|] eqn:E; [|discriminate].
  intros H. inversion H; subst. clear H.
  apply for_files_some in E. destruct E as [-> _].
  induction entries as [|[p [c t|]] es IH]; [reflexivity| |exact IH].
  cbn [flat_map on_file filter]. unfold file_says at 1. cbn [snd].
  rewrite length_app.
  destruct (contains (str "status: inbox") (universal_newlines c));
    cbn [List.length]; now rewrite IH.
Qed.

(** Every alert generate_alerts returns is beyond the limit of its
    rule: a waiting-stale alert reports at least 3 days, a next-stale or
    stash-stale alert at least 7 days, and the inbox alert at least 11
    tasks. *)
Theorem alerts_are_beyond_their_limits (w w' : world) (alerts : list alert) :
  generate_alerts w = Ok alerts w' -> Forall beyond_limit alerts.
Proof.
  unfold generate_alerts, bind, check_aging_tasks, check_stashed_projects,
    check_inbox_overflow, ret.
  destruct (for_files (task_alerts (w_now w)) (task_files (w_fs w)))
    as [aging|] eqn:Ha; [|discriminate].
  apply for_files_some in Ha. destruct Ha as [-> _].
  assert (Hag : Forall beyond_limit
                  (flat_map (on_file (task_alerts (w_now w)))
                            (task_files (w_fs w)))).
  { apply Forall_flat_map. intros [p [c t|]]; cbn [on_file]; [|constructor].
    unfold task_alerts. apply Forall_app.
    split; apply aging_rule_beyond; intros q i t0 d Hd; exact Hd. }
  assert (Hst : forall l, for_files (stash_alerts (w_now w))
                            (stash_files (w_fs w)) = Some l ->
                          Forall beyond_limit l).
  { intros l Hl. apply for_files_some in Hl. destruct Hl as [-> _].
    apply Forall_flat_map. intros [p [c t|]]; cbn [on_file]; [|constructor].
    unfold stash_alerts. destruct (t <? w_now w - 7 * day) eqn:E;
      [|constructor].
    destruct (project_match (universal_newlines c)) as [[l i]|];
      constructor; [|constructor].
    cbn [beyond_limit]. now apply older_days. }
  destruct (exists_ STASH_DIR (w_fs w)).
  - destruct (for_files (stash_alerts (w_now w)) (stash_files (w_fs w)))
      as [st|] eqn:Hs; [|discriminate].
    destruct (inbox_count (task_files (w_fs w))) as [n|]; [|discriminate].
    intros H. inversion H; subst.
    apply Forall_app. split; [exact Hag|].
    apply Forall_app. split; [now apply Hst|].
    destruct (10 <? Z.of_nat n) eqn:E; constructor; [|constructor].
    cbn [beyond_limit]. apply Z.ltb_lt in E. lia.
  - destruct (inbox_count (task_files (w_fs w))) as [n|]; [|discriminate].
    intros H. inversion H; subst.
    apply Forall_app. split; [exact Hag|]. cbn [app].
    destruct (10 <? Z.of_nat n) eqn:E; constructor; [|constructor].
    cbn [beyond_limit]. apply Z.ltb_lt in E. lia.
Qed.

Lemma alerts_are_beyond_their_limits_witness :
  Forall beyond_limit
    [AlertNext (sample_task_file "K001-plan.md") (str "K001")
       (str "Call back") 30;
     AlertWaiting (sample_task_file "K002-call-back.md") (str "K002")
       (str "Call back") 30].
Proof.
  apply (alerts_are_beyond_their_limits w_two_tasks w_two_tasks).
  vm_compute. reflexivity.
Defined.

(** The inbox alert: when every task entry is a file, the check counts
    the task files whose text contains "status: inbox" and returns one
    alert carrying the count when it exceeds 10, and nothing up to
    10. *)
Theorem inbox_overflow_threshold (w : world) :
  forallb is_file (task_files (w_fs w)) = true ->
  let n := List.length (filter (file_says "status: inbox")
                               (task_files (w_fs w))) in
  check_inbox_overflow w =
  Ok (if (10 <? n)%nat then [AlertInbox n] else []) w.
Proof.
  intros Hfiles n. unfold check_inbox_overflow.
  destruct (inbox_count (task_files (w_fs w))) as [m|] eqn:E.
  - apply inbox_count_filter in E. fold n in E. subst m.
    destruct (10 <? n)%nat eqn:En.
    + apply Nat.ltb_lt in En.
      assert (Hz : (10 <? Z.of_nat n) = true) by (apply Z.ltb_lt; lia).
      now rewrite Hz.
    + apply Nat.ltb_ge in En.
      assert (Hz : (10 <? Z.of_nat n) = false) by (apply Z.ltb_ge; lia).
      now rewrite Hz.
  - unfold inbox_count in E. rewrite (for_files_total _ _ Hfiles) in E.
    discriminate.
Qed.

Lemma inbox_overflow_threshold_witness :
  check_inbox_overflow w_two_tasks = Ok [] w_two_tasks.
Proof.
  apply (inbox_overflow_threshold w_two_tasks). vm_compute. reflexivity.
Defined.

End HealthExtras.

(* ================================================================== *)
(** * Further properties of the aside detector *)
(* ================================================================== *)

Section AsideExtras.

Import Asides.

Lemma concat_split_runs (p : ascii -> bool) (s : text) (insep : bool) :
  List.concat (split_runs p s insep) = filter (fun c => negb (p c)) s.
Proof.
  revert insep. induction s as [|c s IH]; intros insep; [reflexivity|].
  cbn [split_runs filter]. destruct (p c) eqn:E; cbn [negb].
  - destruct insep; [apply IH | cbn [List.concat app]; apply IH].
  - specialize (IH false).
    destruct (split_runs p s false) as [|h t]; cbn [List.concat app] in *;
      now rewrite <- IH.
Qed.

Lemma split_runs_pieces (p : ascii -> bool) (s : text) (insep : bool) :
  Forall (fun piece => forallb (fun c => negb (p c)) piece = true)
         (split_runs p s insep).
Proof.
  revert insep. induction s as [|c s IH]; intros insep.
  - repeat constructor.
  - cbn [split_runs]. destruct (p c) eqn:E.
    + destruct insep; [apply IH | constructor; [reflexivity | apply IH]].
    + specialize (IH false).
      destruct (split_runs p s false) as [|h t].
      * repeat constructor. cbn [forallb]. now rewrite E.
      * inversion IH; subst. constructor; [|assumption].
        cbn [forallb]. rewrite E. assumption.
Qed.

Lemma drop_while_forallb (q p : ascii -> bool) (s : text) :
  forallb q s = true -> forallb q (drop_while p s) = true.
Proof.
  induction s as [|c s IH]; [reflexivity|].
  cbn [forallb drop_while]. intros H. apply andb_true_iff in H.
  destruct (p c); [apply IH, H|]. cbn [forallb]. now apply andb_true_iff.
Qed.

Lemma forallb_rev (q : ascii -> bool) (s : text) :
  forallb q (rev s) = forallb q s.
Proof.
  induction s as [|c s IH]; [reflexivity|].
  cbn [rev forallb]. rewrite forallb_app, IH. cbn [forallb].
  rewrite andb_true_r. apply andb_comm.
Qed.

Lemma strip_forallb (q : ascii -> bool) (s : text) :
  forallb q s = true -> forallb q (strip s) = true.
Proof.
  intros H. unfold strip. rewrite forallb_rev.
  apply drop_while_forallb. rewrite forallb_rev.
  now apply drop_while_forallb.
Qed.

Lemma drop_while_head (p : ascii -> bool) (s : text) (c : ascii) :
  hd_error (drop_while p s) = Some c -> p c = false.
Proof.
  induction s as [|x s IH]; [discriminate|].
  cbn [drop_while]. destruct (p x) eqn:E; [exact IH|].
  cbn [hd_error]. intros H. inversion H; subst. exact E.
Qed.

Lemma drop_while_suffix (p : ascii -> bool) (s : text) :
  exists a, s = a ++ drop_while p s.
Proof.
  exists (take_while p s). symmetry. apply take_drop_while.
Qed.

(** str.strip leaves no white space at either end. *)
Lemma strip_ends (s : text) (c : ascii) :
  (hd_error (strip s) = Some c -> is_space c = false) /\
  (hd_error (rev (strip s)) = Some c -> is_space c = false).
Proof.
  unfold strip. split.
  - set (a := drop_while is_space s).
    destruct (drop_while_suffix is_space (rev a)) as [x Hx].
    intros H.
    assert (Ha : a = rev (drop_while is_space (rev a)) ++ rev x).
    { rewrite <- rev_app_distr, <- Hx. symmetry. apply rev_involutive. }
    apply (drop_while_head is_space s). fold a. rewrite Ha.
    destruct (rev (drop_while is_space (rev a))); [discriminate | exact H].
  - rewrite rev_involutive. apply drop_while_head.
Qed.

(** Every aside is a clean sentence: its text is not empty, contains
    none of the sentence terminators . ! ? and neither begins nor ends
    with white space. *)
Theorem asides_are_clean_sentences (t s : text) (ty : aside_type) :
  In (s, ty) (detect_asides t) ->
  s <> [] /\
  forallb (fun c => negb (is_terminal c)) s = true /\
  (forall c, hd_error s = Some c -> is_space c = false) /\
  (forall c, hd_error (rev s) = Some c -> is_space c = false).
Proof.
  unfold detect_asides. rewrite in_flat_map.
  intros [raw [Hraw Hin]]. unfold sentence_asides in Hin.
  destruct (strip raw) as [|c rest] eqn:Hs; [contradiction|].
  destruct (ignored (c :: rest)); [contradiction|].
  destruct (triggered (c :: rest)); [|contradiction].
  destruct Hin as [Heq|[]]. inversion Heq; subst s ty. clear Heq.
  rewrite <- Hs. split; [rewrite Hs; discriminate|]. split.
  - apply strip_forallb.
    pose proof (split_runs_pieces is_terminal t false) as Hp.
    rewrite Forall_forall in Hp. now apply Hp.
  - split; intros x; apply strip_ends.
Qed.

Lemma asides_are_clean_sentences_witness :
  forallb (fun c => negb (is_terminal c)) (str "Oh, nice") = true.
Proof.
  refine (proj1 (proj2 (asides_are_clean_sentences
                          (str " Fine.  Oh, nice !") (str "Oh, nice")
                          LaterStandalone _))).
  vm_compute. left. reflexivity.
Defined.

Lemma sentence_asides_reported (raw : text) :
  sentence_asides raw =
  map (fun s => (s, infer_aside_type s))
      (filter reported [strip raw]).
Proof.
  unfold sentence_asides, reported. cbn [filter].
  destruct (strip raw) as [|c rest]; [reflexivity|].
  destruct (ignored (c :: rest)); [reflexivity|]. cbn [negb andb].
  destruct (triggered (c :: rest)); reflexivity.
Qed.

(** The asides follow the order of the sentences, at most one per
    sentence: they are the stripped sentences that are not empty, not
    ignored and triggered, each with the type inferred from its own
    text; and there are no more asides than sentences. *)
Theorem asides_follow_sentence_order (t : text) :
  detect_asides t =
    map (fun s => (s, infer_aside_type s))
        (filter reported (map strip (sentences t))) /\
  List.length (detect_asides t) <= List.length (sentences t).
Proof.
  assert (H : detect_asides t =
              map (fun s => (s, infer_aside_type s))
                  (filter reported (map strip (sentences t)))).
  { unfold detect_asides. induction (sentences t) as [|raw l IH];
      [reflexivity|].
    cbn [flat_map map]. rewrite IH, sentence_asides_reported.
    cbn [filter]. destruct (reported (strip raw)); reflexivity. }
  split; [exact H|].
  rewrite H, length_map.
  etransitivity; [apply filter_length_le|]. now rewrite length_map.
Qed.

(** Splitting into sentences loses the terminators only: the sentences
    put together again are the text without its . ! ? characters. *)
Theorem sentences_lose_terminators_only (t : text) :
  List.concat (sentences t) = filter (fun c => negb (is_terminal c)) t.
Proof. apply concat_split_runs. Qed.

End AsideExtras.

(* ================================================================== *)
(** * More about the regex engine *)
(* ================================================================== *)

Section ReMore.

(** A successful greedy run: some prefix of class characters was taken
    and the continuation accepted what follows. *)
Lemma greedy_some (p : ascii -> bool) (k : cont) (prev : option ascii)
    (s r : text) :
  greedy p k prev s = Some r ->
  exists a b prev', s = a ++ b /\ forallb p a = true /\ k prev' b = Some r.
Proof.
  revert prev. induction s as [|c s IH]; intros prev H.
  - exists [], [], prev. auto.
  - cbn [greedy] in H. destruct (p c) eqn:E.
    + destruct (greedy p k (Some c) s) as [r'|] eqn:G.
      * cbn [or_else] in H. inversion H; subst r'.
        destruct (IH _ G) as (a & b & pv & -> & Ha & Hk).
        exists (c :: a), b, pv. cbn [forallb app]. rewrite E. auto.
      * cbn [or_else] in H. exists [], (c :: s), prev. auto.
    + exists [], (c :: s), prev. auto.
Qed.

(** When the class run is followed by a character outside the class (or
    by the end) and the continuation accepts there, the greedy run takes
    the whole run. *)
Lemma greedy_whole_run (p : ascii -> bool) (k : cont) (prev : option ascii)
    (a b r : text) :
  forallb p a = true ->
  (forall c, hd_error b = Some c -> p c = false) ->
  (forall pv, k pv b = Some r) ->
  greedy p k prev (a ++ b) = Some r.
Proof.
  revert prev. induction a as [|c a IH]; intros prev Ha Hb Hk.
  - cbn [app]. destruct b as [|c b]; cbn [greedy]; [apply Hk|].
    rewrite (Hb c eq_refl). apply Hk.
  - cbn [forallb] in Ha. apply andb_true_iff in Ha. destruct Ha as [Hc Ha].
    cbn [app greedy]. rewrite Hc, (IH (Some c) Ha Hb Hk). reflexivity.
Qed.

(** A literal matches itself and hands over to the continuation. *)
Lemma re_match_lit (l : text) (prev : option ascii) (s : text) (k : cont) :
  exists prev', re_match false (lit_text l) prev (l ++ s) k = k prev' s.
Proof.
  revert prev. induction l as [|c l IH]; intros prev.
  - exists prev. reflexivity.
  - cbn [lit_text re_match app]. unfold chr_eq. rewrite Ascii.eqb_refl.
    destruct (IH (Some c)) as [pv Hpv]. exists pv. exact Hpv.
Qed.

(** A pattern that begins with a literal character cannot match where
    the text has another character. *)
Lemma match_here_first_char (x c : ascii) (l : text) (r : re)
    (prev : option ascii) (s : text) :
  Ascii.eqb x c = false ->
  match_here false (Seq (lit_text (x :: l)) r) prev (c :: s) = None.
Proof.
  intros H. unfold match_here. cbn [lit_text re_match]. unfold chr_eq.
  now rewrite H.
Qed.

(** The search passes over a stretch none of whose characters is the
    first character of the pattern. *)
Lemma search_from_skip (x : ascii) (l : text) (r : re) (a s : text)
    (prev : option ascii) :
  forallb (fun c => negb (Ascii.eqb x c)) a = true ->
  exists prev',
    search_from false (Seq (lit_text (x :: l)) r) prev (a ++ s) =
    search_from false (Seq (lit_text (x :: l)) r) prev' s.
Proof.
  revert prev. induction a as [|c a IH]; intros prev Ha.
  - exists prev. reflexivity.
  - cbn [forallb] in Ha. apply andb_true_iff in Ha. destruct Ha as [Hc Ha].
    apply negb_true_iff in Hc.
    destruct (IH (Some c) Ha) as [pv Hpv]. exists pv.
    cbn [app search_from]. rewrite (match_here_first_char _ _ _ _ _ _ Hc).
    exact Hpv.
Qed.

End ReMore.

(* ================================================================== *)
(** * Project identifiers and the active pointer *)
(* ================================================================== *)

Section PointerExtras.

Local Open Scope gtd_scope.

Lemma is_digit_not_space (c : ascii) : is_digit c = true -> is_space c = false.
Proof.
  unfold is_digit, is_space. rewrite andb_true_iff, !Nat.leb_le.
  intros [H1 H2]. apply orb_false_iff. split; apply andb_false_iff.
  - right. apply Nat.leb_gt. lia.
  - right. apply Nat.leb_gt. lia.
Qed.

(** What re.match(r'^P\d+$', ...) accepts: P, one or more digits, and
    possibly one final newline. *)
Lemma valid_project_id_shape (pid : text) :
  valid_project_id pid = true <->
  exists ds, ds <> [] /\ forallb is_digit ds = true /\
             (pid = "P"%char :: ds \/ pid = "P"%char :: ds ++ [newline]).
Proof.
  unfold valid_project_id, match_start, match_here. split.
  - destruct pid as [|c [|d s]]; cbn [re_match]; try discriminate.
    { destruct (chr_eq false "P" c); discriminate. }
    unfold chr_eq. destruct (Ascii.eqb "P" c) eqn:Ec; [|discriminate].
    apply Ascii.eqb_eq in Ec. subst c.
    destruct (is_digit d) eqn:Ed; [|discriminate].
    match goal with
    | |- context[greedy ?p ?k ?pv ?x] =>
        destruct (greedy p k pv x) as [r|] eqn:G; [|discriminate]
    end.
    intros _. apply greedy_some in G.
    destruct G as (a & b & pv & -> & Ha & Hk).
    exists (d :: a). split; [discriminate|]. split.
    { cbn [forallb]. now rewrite Ed, Ha. }
    destruct b as [|x [|y b]]; cbn [re_match] in Hk.
    + left. now rewrite app_nil_r.
    + destruct (Ascii.eqb x newline) eqn:Ex; [|discriminate].
      apply Ascii.eqb_eq in Ex. subst x. now right.
    + discriminate.
  - intros (ds & Hne & Hds & Hpid).
    destruct ds as [|d a]; [congruence|].
    cbn [forallb] in Hds. apply andb_true_iff in Hds. destruct Hds as [Hd Ha].
    assert (Hpid' : exists b, (b = [] \/ b = [newline]) /\
                             pid = "P"%char :: d :: a ++ b).
    { destruct Hpid as [-> | ->]; [exists [] | exists [newline]];
        (split; [auto|]); [now rewrite app_nil_r | reflexivity]. }
    destruct Hpid' as (b & Hb & ->). clear Hpid.
    cbn [re_match]. unfold chr_eq. rewrite Ascii.eqb_refl, Hd.
    erewrite greedy_whole_run with (r := b); [reflexivity | exact Ha | |].
    + intros c Hc. destruct Hb as [-> | ->]; [discriminate|].
      inversion Hc. reflexivity.
    + intros pv. destruct Hb as [-> | ->]; reflexivity.
Qed.

Lemma drop_while_stops (p : ascii -> bool) (c : ascii) (s : text) :
  p c = false -> drop_while p (c :: s) = c :: s.
Proof. intros H. cbn [drop_while]. now rewrite H. Qed.

Lemma strip_project_id (ds b : text) :
  ds <> [] -> forallb is_digit ds = true ->
  b = [] \/ b = [newline] ->
  strip ("P"%char :: ds ++ b) = "P"%char :: ds.
Proof.
  intros Hne Hds Hb. unfold strip.
  rewrite drop_while_stops by reflexivity.
  assert (Hrev : drop_while is_space (rev ds ++ ["P"%char]) =
                 rev ds ++ ["P"%char]).
  { destruct (rev ds) as [|c r] eqn:E.
    - apply (f_equal (@rev ascii)) in E. rewrite rev_involutive in E.
      cbn in E. congruence.
    - cbn [app]. apply drop_while_stops. apply is_digit_not_space.
      rewrite <- forallb_rev, E in Hds. cbn [forallb] in Hds.
      apply andb_true_iff in Hds. apply Hds. }
  cbn [rev]. rewrite rev_app_distr.
  destruct Hb as [-> | ->]; cbn [rev app].
  - rewrite Hrev, rev_app_distr, rev_involutive. reflexivity.
  - change (drop_while is_space (newline :: rev ds ++ ["P"%char]))
      with (drop_while is_space (rev ds ++ ["P"%char])).
    rewrite Hrev, rev_app_distr, rev_involutive. reflexivity.
Qed.

(** After a successful switch the active project is the identifier
    that was given: get_active_project returns P followed by the
    digits.  The argument itself is that identifier, possibly with one
    final newline, which the pattern ^P\d+$ lets through and the read
    strips. *)
Theorem switch_sets_the_pointer (args : list text) (w w' : world) :
  cmd_switch args w = Ok true w' ->
  exists ds rest,
    ds <> [] /\ forallb is_digit ds = true /\
    (args = ("P"%char :: ds) :: rest \/
     args = ("P"%char :: ds ++ [newline]) :: rest) /\
    get_active_project w' = Ok (Some ("P"%char :: ds)) w'.
Proof.
  intros H. apply cmd_switch_true in H.
  destruct H as (pid & rest & folder & nd & more & -> & Hv & _ & _ & Hp).
  apply valid_project_id_shape in Hv. destruct Hv as (ds & Hne & Hds & Hpid).
  exists ds, rest. split; [exact Hne|]. split; [exact Hds|]. split.
  { destruct Hpid as [-> | ->]; auto. }
  rewrite (get_active_project_value _ _ Hp). do 2 f_equal.
  assert (Hcr : no_cr pid = true).
  { assert (Hd : no_cr ds = true).
    { clear -Hds. unfold no_cr. induction ds as [|c ds IH]; [reflexivity|].
      cbn [forallb] in *. apply andb_true_iff in Hds. destruct Hds as [Hc Hds].
      rewrite (IH Hds), andb_true_r. apply negb_true_iff.
      unfold is_digit in Hc. apply andb_true_iff in Hc.
      rewrite !Nat.leb_le in Hc. apply Nat.eqb_neq. lia. }
    destruct Hpid as [-> | ->].
    - exact Hd.
    - change ("P"%char :: ds ++ [newline]) with (("P"%char :: ds) ++ [newline]).
      rewrite no_cr_app. change (no_cr ("P"%char :: ds)) with (no_cr ds).
      now rewrite Hd. }
  rewrite (universal_newlines_plain _ Hcr).
  destruct Hpid as [-> | ->].
  - rewrite <- (app_nil_r ds) at 1. apply strip_project_id; auto.
  - apply strip_project_id; auto.
Qed.

Lemma switch_sets_the_pointer_witness :
  exists ds rest,
    ds <> [] /\ forallb is_digit ds = true /\
    ([str "P001"] = ("P"%char :: ds) :: rest \/
     [str "P001"] = ("P"%char :: ds ++ [newline]) :: rest) /\
    get_active_project
      (world_after (cmd_switch [str "P001"] w_fresh) w_fresh) =
    Ok (Some ("P"%char :: ds))
       (world_after (cmd_switch [str "P001"] w_fresh) w_fresh).
Proof.
  apply (switch_sets_the_pointer [str "P001"] w_fresh).
  vm_compute. reflexivity.
Defined.

End PointerExtras.

(* ================================================================== *)
(** * The stash entry is read back *)
(* ================================================================== *)

Section StashEntry.

Local Open Scope gtd_scope.
Local Open Scope Z_scope.

Lemma firstn_all_but (x r : text) :
  firstn (List.length (x ++ r) - List.length r) (x ++ r) = x.
Proof.
  rewrite length_app.
  replace (List.length x + List.length r - List.length r)%nat
    with (List.length x + 0)%nat by lia.
  rewrite firstn_app_2. cbn [firstn]. apply app_nil_r.
Qed.







End StashEntry.

(* ================================================================== *)
(** * The task record is read back *)
(* ================================================================== *)

Section RecordReadBack.

Local Open Scope gtd_scope.
Local Open Scope Z_scope.

Lemma search_from_here (ic : bool) (r : re) (prev : option ascii)
    (s m : text) :
  match_here ic r prev s = Some m -> search_from ic r prev s = Some m.
Proof. intros H. destruct s; cbn [search_from]; now rewrite H. Qed.

Lemma re_match_seq (ic : bool) (r1 r2 : re) (prev : option ascii)
    (s : text) (k : cont) :
  re_match ic (Seq r1 r2) prev s k =
  re_match ic r1 prev s (fun prev' s' => re_match ic r2 prev' s' k).
Proof. reflexivity. Qed.

(** literal class+ on a text that begins with the literal and one
    character of the class: the match is the literal and the whole run
    of the class. *)
Lemma lit_plus_match_here (l : text) (p : ascii -> bool) (d : ascii)
    (rest : text) (prev : option ascii) :
  p d = true ->
  match_here false (Seq (lit_text l) (Plus p)) prev (l ++ d :: rest) =
  Some (l ++ take_while p (d :: rest)).
Proof.
  intros Hd. unfold match_here. rewrite re_match_seq.
  destruct (re_match_lit l prev (d :: rest)
              (fun prev' s' => re_match false (Plus p) prev' s'
                                 (fun _ r => Some r))) as [pv Hpv].
  rewrite Hpv. cbn [re_match]. rewrite Hd, greedy_final. f_equal.
  pose proof (take_drop_while p (d :: rest)) as Htd.
  cbn [drop_while] in Htd. rewrite Hd in Htd.
  rewrite <- Htd at 1 2. rewrite app_assoc. apply firstn_all_but.
Qed.

(** The pattern cannot match where the second character differs. *)
Lemma match_here_second_char (x y c : ascii) (l : text) (r : re)
    (prev : option ascii) (s : text) :
  Ascii.eqb y c = false ->
  match_here false (Seq (lit_text (x :: y :: l)) r) prev (x :: c :: s) = None.
Proof.
  intros H. unfold match_here. cbn [lit_text re_match]. unfold chr_eq.
  now rewrite Ascii.eqb_refl, H.
Qed.

Lemma search_from_step (ic : bool) (r : re) (prev : option ascii)
    (c : ascii) (s : text) :
  match_here ic r prev (c :: s) = None ->
  search_from ic r prev (c :: s) = search_from ic r (Some c) s.
Proof. intros H. cbn [search_from]. now rewrite H. Qed.

Lemma contains_app (p a b : text) : contains p (a ++ p ++ b) = true.
Proof.
  induction a as [|c a IH].
  - cbn [app]. pose proof (starts_with_app p b) as H.
    destruct (p ++ b); cbn [contains]; now rewrite H.
  - cbn [app contains]. rewrite IH. apply orb_true_r.
Qed.

Lemma digits_are_not (x : ascii) (ds : text) :
  is_digit x = false ->
  forallb is_digit ds = true ->
  forallb (fun c => negb (Ascii.eqb x c)) ds = true.
Proof.
  intros Hx. induction ds as [|c ds IH]; [reflexivity|].
  cbn [forallb]. rewrite !andb_true_iff. intros [Hc Hds].
  split; [|now apply IH]. apply negb_true_iff.
  destruct (Ascii.eqb x c) eqn:E; [|reflexivity].
  apply Ascii.eqb_eq in E. subst c. congruence.
Qed.

Lemma record_header_text (tid pid title status : text) :
  record_header tid pid title status =
  str "---" ++ nl ++ str "id: " ++ tid ++ nl ++ str "project: " ++ pid ++ nl
  ++ str "title: " ++ title ++ nl ++ str "status: " ++ status ++ nl.
Proof.
  unfold record_header, line. cbn [List.concat].
  rewrite ?app_nil_r, <- ?app_assoc. reflexivity.
Qed.

(** id: (K\d+) finds the identifier of a record. *)
Lemma id_match_record (ds pid title status rest : text) :
  ds <> [] -> forallb is_digit ds = true ->
  id_match (record_header ("K"%char :: ds) pid title status ++ rest) =
  Some ("K"%char :: ds).
Proof.
  intros Hne Hds. destruct ds as [|d ds]; [congruence|].
  cbn [forallb] in Hds. apply andb_true_iff in Hds. destruct Hds as [Hd Hds].
  unfold id_match, Re.search. rewrite record_header_text.
  change (lit "id: K") with (lit_text ("i"%char :: str "d: K")).
  rewrite <- !app_assoc.
  destruct (search_from_skip "i" (str "d: K") (Plus is_digit)
              (str "---" ++ nl)
              (str "id: " ++ ("K"%char :: d :: ds) ++ nl ++ str "project: " ++
               pid ++ nl ++ str "title: " ++ title ++ nl ++ str "status: " ++
               status ++ nl ++ rest) None eq_refl) as [pv Hpv].
  rewrite <- !app_assoc in Hpv. rewrite Hpv. clear Hpv.
  change (str "id: " ++ ("K"%char :: d :: ds) ++ ?x)
    with (("i"%char :: str "d: K") ++ d :: ds ++ x).
  erewrite search_from_here;
    [|apply (lit_plus_match_here ("i"%char :: str "d: K") is_digit d); exact Hd].
  cbn [option_map]. f_equal.
  change (take_while is_digit (d :: ds ++ ?x))
    with (take_while is_digit ((d :: ds) ++ x)).
  rewrite take_while_all by (cbn [forallb]; now rewrite Hd, Hds).
  change (nl ++ ?x) with (newline :: x). cbn [take_while].
  change (is_digit newline) with false. cbv iota.
  rewrite app_nil_r. reflexivity.
Qed.

(** title: ([^\n]+) finds the title of a record, when the project
    identifier holds no letter t and the title is one non-empty line. *)
Lemma title_match_record (ds pid title status rest : text) :
  forallb is_digit ds = true ->
  forallb (fun c => negb (Ascii.eqb "t" c)) pid = true ->
  title <> [] -> forallb dot title = true ->
  title_match (record_header ("K"%char :: ds) pid title status ++ rest) =
  Some title.
Proof.
  intros Hds Hpid Hne Htitle. destruct title as [|t0 title]; [congruence|].
  pose proof Htitle as Hall.
  cbn [forallb] in Htitle. apply andb_true_iff in Htitle.
  destruct Htitle as [Ht0 Htitle].
  unfold title_match, Re.search. rewrite record_header_text.
  change (lit "title: ") with (lit_text ("t"%char :: str "itle: ")).
  set (r := Seq (lit_text ("t"%char :: str "itle: ")) (Plus dot)).
  set (tail := nl ++ str "status: " ++ status ++ nl ++ rest).
  assert (Htext :
    (str "---" ++ nl ++ str "id: " ++ ("K"%char :: ds) ++ nl ++
     str "project: " ++ pid ++ nl ++ str "title: " ++ (t0 :: title) ++ nl ++
     str "status: " ++ status ++ nl) ++ rest =
    (str "---" ++ nl ++ str "id: K" ++ ds ++ nl ++ str "projec") ++
    "t"%char :: ":"%char ::
      (" "%char :: pid ++ nl) ++
      (("t"%char :: str "itle: ") ++ t0 :: title ++ tail)).
  { unfold tail. rewrite <- !app_assoc. cbn [app]. rewrite <- !app_assoc.
    reflexivity. }
  rewrite Htext. clear Htext.
  destruct (search_from_skip "t" (str "itle: ") (Plus dot)
              (str "---" ++ nl ++ str "id: K" ++ ds ++ nl ++ str "projec")
              ("t"%char :: ":"%char ::
                 (" "%char :: pid ++ nl) ++
                 (("t"%char :: str "itle: ") ++ t0 :: title ++ tail)) None)
    as [pv1 H1].
  { rewrite !forallb_app. rewrite (digits_are_not "t" ds eq_refl Hds).
    reflexivity. }
  fold r in H1. rewrite H1. clear H1.
  erewrite search_from_step;
    [|apply (match_here_second_char "t" "i" ":" (str "tle: ")); reflexivity].
  destruct (search_from_skip "t" (str "itle: ") (Plus dot)
              (":"%char :: " "%char :: pid ++ nl)
              (("t"%char :: str "itle: ") ++ t0 :: title ++ tail) (Some "t"%char))
    as [pv2 H2].
  { cbn [forallb]. rewrite forallb_app, Hpid. reflexivity. }
  fold r in H2.
  change (":"%char :: (" "%char :: pid ++ nl) ++ ?x)
    with ((":"%char :: " "%char :: pid ++ nl) ++ x).
  rewrite H2. clear H2.
  erewrite search_from_here;
    [|apply (lit_plus_match_here ("t"%char :: str "itle: ") dot t0); exact Ht0].
  cbn [option_map]. f_equal.
  change (skipn 7 (("t"%char :: str "itle: ") ++ ?x)) with x.
  change (t0 :: title ++ tail) with ((t0 :: title) ++ tail).
  rewrite take_while_all by exact Hall.
  unfold tail. change (nl ++ ?x) with (newline :: x). cbn [take_while].
  change (dot newline) with false. cbv iota.
  now rewrite app_nil_r.
Qed.

Lemma next_alerts_of_task now task_file content mtime :
  filter (has_kind NextStale) (task_alerts now task_file content mtime) =
  aging_rule "status: next" 7 AlertNext now task_file content mtime.
Proof.
  unfold task_alerts. rewrite filter_app.
  assert (H1 : forall l, Forall (fun a => kind_of a = NextStale) l ->
                         filter (has_kind NextStale) l = l).
  { induction 1 as [|a l Ha _ IH]; [reflexivity|].
    cbn [filter]. unfold has_kind at 1. rewrite Ha. now rewrite IH. }
  assert (H2 : forall l, Forall (fun a => kind_of a = WaitingStale) l ->
                         filter (has_kind NextStale) l = []).
  { induction 1 as [|a l Ha _ IH]; [reflexivity|].
    cbn [filter]. unfold has_kind at 1. rewrite Ha. exact IH. }
  rewrite H2 by (apply aging_rule_kind; reflexivity).
  rewrite H1 by (apply aging_rule_kind; reflexivity).
  reflexivity.
Qed.

Lemma record_header_no_cr (tid pid title status : text) :
  no_cr tid = true -> no_cr pid = true -> no_cr title = true ->
  no_cr status = true ->
  no_cr (record_header tid pid title status) = true.
Proof.
  intros H1 H2 H3 H4. rewrite record_header_text.
  rewrite !no_cr_app, H1, H2, H3, H4. reflexivity.
Qed.

Lemma filter_singleton_in {A} (q : A -> bool) (l : list A) (x : A) :
  filter q l = [x] -> In x l.
Proof.
  intros H. assert (Hin : In x (filter q l)) by (rewrite H; now left).
  apply filter_In in Hin. apply Hin.
Qed.

(** What create_task writes, the health check reads back.  For a task
    created without a status in a project P<digits>, with a title that
    is one non-empty line (no "\n", no "\r") and whose slug holds no
    separator: the record is one of the files the aging check scans;
    in the text it reads there, the patterns find the identifier
    create_task returned and the title; and once the record is more
    than 7 days old, check_aging_tasks reports a next-stale alert
    naming that record, identifier and title.  The check returns
    whenever the entries it scans are files (a directory named K*.md
    makes read_text raise). *)
Theorem created_task_is_read_back title ds kw w tid w' :
  create_task title (Some ("P"%char :: ds)) None kw w = Ok (Some tid) w' ->
  forallb is_digit ds = true ->
  title <> [] ->
  forallb dot title = true ->
  no_cr title = true ->
  one_component (slug_of title) = true ->
  exists folder stored,
    In folder (map fst (glob PROJECTS_DIR (glob_project ("P"%char :: ds))
                          (w_fs w))) /\
    let task_file := task_file_of folder tid (slug_of title) in
    In (task_file, File stored (w_now w)) (task_files (w_fs w')) /\
    read_text task_file (w_fs w') = Some (universal_newlines stored) /\
    id_match (universal_newlines stored) = Some tid /\
    title_match (universal_newlines stored) = Some title /\
    forall later,
      w_fs later = w_fs w' ->
      7 * day < w_now later - w_now w ->
      (forall alerts later',
          check_aging_tasks later = Ok alerts later' ->
          In (AlertNext task_file tid title
                        (days_between (w_now later) (w_now w))) alerts) /\
      (forallb is_file (task_files (w_fs later)) = true ->
       exists alerts, check_aging_tasks later = Ok alerts later).
Proof.
  intros Hc Hds Hne Htitle Hcr Hslug.
  pose proof (create_task_id _ _ _ _ _ _ _ Hc) as Htid.
  pose proof Hc as Hplain.
  apply create_task_effect in Hc.
  destruct Hc as (pid & folder & nd & more & Hpid & Hg & Hr & _).
  cbn [truthy] in Hpid. injection Hpid as Hpid. subst pid.
  cbn [kw_get] in Hr. cbv zeta in Hr.
  destruct (create_task_plain _ _ _ _ _ _ _ _ _ _ _ Hplain Hg Hslug)
    as (Hfile & _ & _).
  set (n := (max_list (record_numbers glob_K_digit_md (w_fs w)) + 1)%nat)
    in *.
  destruct (task_content_header tid ("P"%char :: ds) title (str "next") kw
              (w_today w)
              (split_1 (("P"%char :: ds) ++ str "-") (name folder)))
    as [rest Hrest].
  rewrite Hrest in Hr.
  set (task_file := task_file_of folder tid (slug_of title)) in *.
  exists folder. eexists. split; [rewrite Hg; now left|].
  cbv zeta. fold task_file.
  assert (Htid' : tid = "K"%char :: format_03d n) by exact Htid.
  assert (Hin : In (folder, nd)
                   (glob PROJECTS_DIR (glob_project ("P"%char :: ds))
                         (w_fs w))).
  { rewrite Hg. now left. }
  apply glob_child in Hin. destruct Hin as [nm [Hfolder _]].
  assert (Hscan : In (task_file,
                      File (record_header tid ("P"%char :: ds) title
                              (str "next") ++ rest) (w_now w))
                     (task_files (w_fs w'))).
  { unfold task_files, rglob. apply filter_In.
    split; [now apply lookup_in|]. cbn [fst].
    rewrite Hfile, Hfolder.
    change [str "tasks"; task_file_name tid (slug_of title)]
      with ([str "tasks"] ++ [task_file_name tid (slug_of title)]).
    rewrite under_projects. rewrite app_assoc, name_snoc.
    rewrite Htid'. unfold task_file_name. cbn [app glob_letter_md andb].
    rewrite Ascii.eqb_refl. cbn [andb].
    replace (format_03d n ++ str "-" ++ slug_of title ++ str ".md")
      with ((format_03d n ++ str "-" ++ slug_of title) ++ str ".md")
      by (rewrite <- !app_assoc; reflexivity).
    apply ends_with_app. }
  split; [exact Hscan|].
  split.
  { apply read_text_of_file. unfold file_text. now rewrite Hr. }
  assert (Hhead : universal_newlines
                    (record_header tid ("P"%char :: ds) title (str "next")
                     ++ rest) =
                  record_header tid ("P"%char :: ds) title (str "next") ++
                  universal_newlines rest).
  { apply read_newlines_app_plain. apply record_header_no_cr; auto.
    - rewrite Htid'.
      change (no_cr ("K"%char :: format_03d n)) with (no_cr (format_03d n)).
      apply digits_no_cr, format_03d_all_digits.
    - change (no_cr ("P"%char :: ds)) with (no_cr ds).
      now apply digits_no_cr. }
  rewrite Hhead.
  assert (Hi : id_match (record_header tid ("P"%char :: ds) title
                           (str "next") ++ universal_newlines rest)
               = Some tid).
  { rewrite Htid'. apply id_match_record;
      [apply format_03d_nonempty | apply format_03d_all_digits]. }
  assert (Ht : title_match (record_header tid ("P"%char :: ds) title
                              (str "next") ++ universal_newlines rest)
               = Some title).
  { rewrite Htid'. apply title_match_record; auto.
    - apply format_03d_all_digits.
    - cbn [forallb]. now rewrite (digits_are_not "t" ds eq_refl Hds). }
  split; [exact Hi|]. split; [exact Ht|].
  intros later Hfs Hold. split.
  2:{ intros Hfiles. unfold check_aging_tasks.
      rewrite (for_files_total _ _ Hfiles). eauto. }
  intros alerts later'. unfold check_aging_tasks.
  destruct (for_files (task_alerts (w_now later)) (task_files (w_fs later)))
    as [l|] eqn:Hl; [|discriminate].
  intros H. inversion H; subst l later'. clear H.
  apply for_files_some in Hl. destruct Hl as [-> _].
  apply in_flat_map. eexists. split; [rewrite Hfs; exact Hscan|].
  cbn [on_file]. rewrite Hhead.
  apply (filter_singleton_in (has_kind NextStale)).
  rewrite next_alerts_of_task. unfold aging_rule.
  assert (Hs : contains (str "status: next")
                 (record_header tid ("P"%char :: ds) title (str "next")
                  ++ universal_newlines rest) = true).
  { rewrite record_header_text.
    replace ((str "---" ++ nl ++ str "id: " ++ tid ++ nl ++ str "project: " ++
              ("P"%char :: ds) ++ nl ++ str "title: " ++ title ++ nl ++
              str "status: " ++ str "next" ++ nl) ++ universal_newlines rest)
      with ((str "---" ++ nl ++ str "id: " ++ tid ++ nl ++ str "project: " ++
             ("P"%char :: ds) ++ nl ++ str "title: " ++ title ++ nl) ++
            str "status: next" ++ (nl ++ universal_newlines rest)).
    - apply contains_app.
    - rewrite <- !app_assoc. reflexivity. }
  assert (Hlt : (w_now w <? w_now later - 7 * day) = true)
    by (apply Z.ltb_lt; lia).
  now rewrite Hs, Hlt, Hi, Ht.
Qed.

Lemma created_task_is_read_back_witness :
  exists folder stored,
    In folder (map fst (glob PROJECTS_DIR (glob_project (str "P001"))
                          (w_fs w_with_stash))) /\
    let task_file :=
      task_file_of folder (str "K001") (slug_of (str "Write spec")) in
    In (task_file, File stored (w_now w_with_stash))
       (task_files (w_fs first_task_world)) /\
    read_text task_file (w_fs first_task_world) =
      Some (universal_newlines stored) /\
    id_match (universal_newlines stored) = Some (str "K001") /\
    title_match (universal_newlines stored) = Some (str "Write spec") /\
    forall later,
      w_fs later = w_fs first_task_world ->
      7 * day < w_now later - w_now w_with_stash ->
      (forall alerts later',
          check_aging_tasks later = Ok alerts later' ->
          In (AlertNext task_file (str "K001") (str "Write spec")
                        (days_between (w_now later) (w_now w_with_stash)))
             alerts) /\
      (forallb is_file (task_files (w_fs later)) = true ->
       exists alerts, check_aging_tasks later = Ok alerts later).
Proof.
  apply (created_task_is_read_back (str "Write spec") (str "001") no_kwargs
           w_with_stash (str "K001") first_task_world).
  - vm_compute. reflexivity.
  - reflexivity.
  - discriminate.
  - reflexivity.
  - reflexivity.
  - reflexivity.
Defined.

End RecordReadBack.

(* ================================================================== *)
(** * Slugs, the pointer file, repeated stash *)
(* ================================================================== *)

Section SmallExtras.

Local Open Scope gtd_scope.

Lemma lower_not_upper (c : ascii) : is_upper (lower c) = false.
Proof.
  unfold lower. destruct (is_upper c) eqn:E; [|exact E].
  unfold is_upper in *. apply andb_true_iff in E.
  rewrite !Nat.leb_le in E. unfold code in *.
  pose proof (nat_ascii_bounded c) as Hb.
  rewrite nat_ascii_embedding by lia.
  apply andb_false_iff. right. apply Nat.leb_gt. lia.
Qed.

Lemma forallb_firstn (q : ascii -> bool) (n : nat) (s : text) :
  forallb q s = true -> forallb q (firstn n s) = true.
Proof.
  revert n. induction s as [|c s IH]; intros [|n] H; try reflexivity.
  cbn [firstn forallb] in *. apply andb_true_iff in H.
  apply andb_true_iff. split; [apply H | apply IH, H].
Qed.

(** The slug of a title, which becomes part of the file name of the
    record, has at most 50 characters, no space and no capital
    letter. *)
Theorem slug_is_plain (title : text) :
  List.length (slug_of title) <= 50 /\
  forallb (fun c => negb (Ascii.eqb c " ") && negb (is_upper c))
          (slug_of title) = true.
Proof.
  unfold slug_of. split; [apply firstn_le_length|].
  apply forallb_firstn. unfold replace_char, to_lower.
  induction title as [|c title IH]; [reflexivity|].
  cbn [map flat_map]. rewrite forallb_app, IH, andb_true_r.
  destruct (Ascii.eqb (lower c) " ") eqn:E; [reflexivity|].
  cbn [forallb]. now rewrite E, lower_not_upper.
Qed.

Lemma drop_while_nil (p : ascii -> bool) (s : text) :
  drop_while p s = [] <-> forallb p s = true.
Proof.
  induction s as [|c s IH]; [cbn; tauto|].
  cbn [drop_while forallb]. destruct (p c); cbn [andb]; [exact IH|].
  split; discriminate.
Qed.

Lemma strip_nil (s : text) : strip s = [] <-> forallb is_space s = true.
Proof.
  unfold strip. split.
  - intros H. apply (f_equal (@rev ascii)) in H.
    rewrite rev_involutive in H. cbn [rev] in H.
    apply drop_while_nil in H. rewrite forallb_rev in H.
    destruct (drop_while is_space s) as [|c r] eqn:E.
    + now apply drop_while_nil.
    + cbn [forallb] in H. apply andb_true_iff in H.
      pose proof (drop_while_head is_space s c) as Hc.
      rewrite E in Hc. specialize (Hc eq_refl). destruct H; congruence.
  - intros H. apply drop_while_nil in H. rewrite H. reflexivity.
Qed.

(** There is no active project exactly when the pointer file is missing
    or holds white space only; otherwise the active project is the
    content of the file without the white space around it.  Reading
    changes nothing. *)
Theorem active_pointer_reading (w w' : world) (active : option text) :
  get_active_project w = Ok active w' ->
  w' = w /\
  (truthy active = false <->
   (exists_ ACTIVE_FILE (w_fs w) = false \/
    exists c, read_text ACTIVE_FILE (w_fs w) = Some c /\
              forallb is_space c = true)) /\
  (truthy active = true ->
   exists c, read_text ACTIVE_FILE (w_fs w) = Some c /\
             active = Some (strip c)).
Proof.
  unfold get_active_project, bind, m_exists, m_read_text, ret.
  destruct (exists_ ACTIVE_FILE (w_fs w)) eqn:He.
  - destruct (read_text ACTIVE_FILE (w_fs w)) as [c|] eqn:Hr;
      [|discriminate].
    intros H. inversion H; subst. split; [reflexivity|]. split.
    + split.
      * intros Ht. right. exists c. split; [reflexivity|].
        apply strip_nil. cbn [truthy] in Ht.
        destruct (strip c); [reflexivity | discriminate].
      * intros [Hf | [c' [Hc' Hs]]]; [discriminate|].
        inversion Hc'; subst c'. apply strip_nil in Hs.
        cbn [truthy]. now rewrite Hs.
    + intros _. exists c. auto.
  - intros H. inversion H; subst. split; [reflexivity|]. split.
    + split; [auto | reflexivity].
    + discriminate.
Qed.

Lemma active_pointer_reading_witness :
  world_after (get_active_project w_active) w_fresh = w_active.
Proof.
  refine (proj1 (active_pointer_reading w_active _ (Some (str "P001")) _)).
  vm_compute. reflexivity.
Defined.

(** A stash cannot be repeated: after a successful stash a second one
    finds no active project, prints the error, returns False and
    changes no file. *)
Theorem second_stash_is_refused (w w1 : world) :
  cmd_stash w = Ok true w1 ->
  cmd_stash w1 =
  Ok false (with_out w1 (w_out w1 ++ [MsgNoActiveToStash]) (w_fs w1)).
Proof.
  intros H. apply stash_clears_pointer in H.
  destruct H as (active & Ha & Ht).
  exact (stash_without_active w1 active Ha Ht).
Qed.

Lemma second_stash_is_refused_witness :
  w_fs (world_after
          (cmd_stash (world_after (cmd_stash w_active) w_active)) w_fresh) =
  w_fs (world_after (cmd_stash w_active) w_active).
Proof.
  rewrite (second_stash_is_refused w_active
             (world_after (cmd_stash w_active) w_active));
    [reflexivity | vm_compute; reflexivity].
Defined.

(** The identifiers cmd_switch and cmd_defer accept, with the pattern
    ^P\d+$: the letter P, one or more digits and, because $ also
    matches before a final newline, possibly one newline at the end. *)
Theorem project_id_pattern (project_id : text) :
  valid_project_id project_id = true <->
  exists ds, ds <> [] /\ forallb is_digit ds = true /\
             (project_id = "P"%char :: ds \/
              project_id = "P"%char :: ds ++ [newline]).
Proof. apply valid_project_id_shape. Qed.

End SmallExtras.

(* ================================================================== *)
(** * Someday items and deferred tasks *)
(* ================================================================== *)

Section LaterAndDefer.

Local Open Scope gtd_scope.

Lemma date_no_backslash (today : text) :
  is_date today = true -> has_backslash today = false.
Proof.
  unfold is_date, has_backslash.
  induction today as [|c today IH]; [reflexivity|].
  cbn [forallb existsb]. rewrite andb_true_iff. intros [Hc Ht].
  rewrite (IH Ht), orb_false_r.
  apply orb_true_iff in Hc. destruct Hc as [Hc | Hc].
  - unfold is_digit in Hc. apply andb_true_iff in Hc.
    rewrite !Nat.leb_le in Hc. apply Nat.eqb_neq. lia.
  - apply Ascii.eqb_eq in Hc. subst c. reflexivity.
Qed.

(** The item of cmd_later in the new content of Someday.md, for a date
    [today].
    - Without the text "## {today}" and without a line "---" to anchor
      a new section, the content stays as it is: the item is not
      recorded.
    - Without the text "## {today}" and with exactly one line "---", a
      section for today with the item is inserted right after that
      line.
    - With the text "## {today}", the item is put after every heading
      line "## {today}\n" by re.sub, with the entry as replacement
      template: the backslash escapes of the title are expanded, or the
      error of the template is raised.  So for a title without
      backslash and exactly one heading line the entry "- [ ] {title}"
      is inserted right after the heading; and when the text
      "## {today}" is there but never as a whole line, the content
      stays as it is and the item is not recorded.
    Everything else in the document is unchanged. *)
Theorem later_content_cases (today title content : text) :
  is_date today = true ->
  let heading := str "## " ++ today in
  let entry := str "- [ ] " ++ title ++ nl in
  (contains heading content = false ->
   occurrences (str "---" ++ nl) content = 0 ->
   later_content today title content = Expanded content) /\
  (forall pre post,
      content = pre ++ (str "---" ++ nl) ++ post ->
      contains heading content = false ->
      occurrences (str "---" ++ nl) content = 1 ->
      later_content today title content =
      Expanded (pre ++ (str "---" ++ nl ++ nl ++ heading ++ nl ++ entry)
                ++ post)) /\
  (contains heading content = true ->
   later_content today title content =
   match expand_template (heading ++ nl) entry with
   | Expanded line =>
       Expanded (sub_lit (heading ++ nl) (heading ++ nl ++ line) 0 content)
   | failure => failure
   end) /\
  (forall pre post,
      content = pre ++ (heading ++ nl) ++ post ->
      has_backslash title = false ->
      occurrences (heading ++ nl) content = 1 ->
      later_content today title content =
      Expanded (pre ++ (heading ++ nl ++ entry) ++ post)) /\
  (contains heading content = true ->
   has_backslash title = false ->
   occurrences (heading ++ nl) content = 0 ->
   later_content today title content = Expanded content).
Proof.
  intros Hdate heading entry. unfold later_content. rewrite Hdate.
  cbn [negb]. fold heading. fold entry.
  assert (Hplain : has_backslash (heading ++ nl) = false).
  { unfold heading. rewrite !has_backslash_app, (date_no_backslash _ Hdate).
    reflexivity. }
  assert (Hsub : Re.sub (heading ++ nl) (heading ++ nl ++ entry) content =
                 match expand_template (heading ++ nl) entry with
                 | Expanded line =>
                     Expanded (sub_lit (heading ++ nl)
                                 (heading ++ nl ++ line) 0 content)
                 | failure => failure
                 end).
  { unfold Re.sub, expand_template. rewrite app_assoc.
    rewrite parse_template_app_plain by exact Hplain.
    destruct (parse_template (heading ++ nl) TNormal entry); cbn [emit];
      try reflexivity.
    now rewrite <- app_assoc. }
  assert (Hentry : has_backslash title = false ->
                   expand_template (heading ++ nl) entry = Expanded entry).
  { intros Hb. apply expand_template_plain. unfold entry.
    now rewrite !has_backslash_app, Hb. }
  split; [|split; [|split; [|split]]].
  - intros Hh Hocc. rewrite Hh. cbn [negb]. f_equal.
    now apply sub_lit_none.
  - intros pre post -> Hh Hocc. rewrite Hh. cbn [negb]. f_equal.
    apply sub_lit_single; [discriminate | exact Hocc].
  - intros Hh. rewrite Hh. cbn [negb]. exact Hsub.
  - intros pre post -> Hb Hocc.
    assert (Hh : contains heading (pre ++ (heading ++ nl) ++ post) = true).
    { rewrite <- app_assoc. apply contains_app. }
    rewrite Hh. cbn [negb]. rewrite Hsub, (Hentry Hb). f_equal.
    rewrite sub_lit_single; [|unfold heading; discriminate|exact Hocc].
    now rewrite <- !app_assoc.
  - intros Hh Hb Hocc. rewrite Hh. cbn [negb].
    rewrite Hsub, (Hentry Hb). f_equal. now apply sub_lit_none.
Qed.

Lemma later_content_cases_witness :
  later_content (str "2026-01-02") (str "Learn Rocq")
    (str "# Someday" ++ nl ++ str "## 2026-01-02" ++ nl ++
     str "- [ ] Sleep" ++ nl) =
  Expanded (str "# Someday" ++ nl ++ str "## 2026-01-02" ++ nl ++
            str "- [ ] Learn Rocq" ++ nl ++ str "- [ ] Sleep" ++ nl).
Proof.
  exact (proj1 (proj2 (proj2 (proj2
           (later_content_cases (str "2026-01-02") (str "Learn Rocq")
              (str "# Someday" ++ nl ++ str "## 2026-01-02" ++ nl ++
               str "- [ ] Sleep" ++ nl) eq_refl))))
           (str "# Someday" ++ nl) (str "- [ ] Sleep" ++ nl)
           eq_refl eq_refl eq_refl).
Defined.

(** A title with a backslash in cmd_later: "\n" in the title becomes a
    line break of the entry, and a title that ends a Windows path in
    "\Users" makes re.sub raise. *)
Lemma later_content_backslash :
  later_content (str "2026-01-02") (str "Tidy C:\new")
    (str "## 2026-01-02" ++ nl) =
  Expanded (str "## 2026-01-02" ++ nl ++ str "- [ ] Tidy C:" ++ nl ++
            str "ew" ++ nl) /\
  later_content (str "2026-01-02") (str "Tidy C:\Users")
    (str "## 2026-01-02" ++ nl) = BadEscape.
Proof. evaluate. Qed.

Lemma keeps_env_ret {A} (a : A) : keeps_env (ret a).
Proof. intros w b w1 H. inversion H; subst. now rewrite world_eta. Qed.

Lemma keeps_env_bind {A B} (m : M A) (k : A -> M B) :
  keeps_env m -> (forall a, keeps_env (k a)) -> keeps_env (bind m k).
Proof.
  intros Hm Hk w b w2. unfold bind.
  destruct (m w) as [a w1| |] eqn:E; try discriminate.
  intros H. apply Hm in E. apply Hk in H. rewrite E in H. exact H.
Qed.

Lemma keeps_env_print (m : message) : keeps_env (print m).
Proof. intros w a w1 H. inversion H; subst. reflexivity. Qed.

Lemma keeps_env_write (p : path) (c : text) : keeps_env (m_write_text p c).
Proof.
  intros w a w1. unfold m_write_text. destruct (has_nul p); [discriminate|].
  destruct (write_text p c (w_now w) (w_fs w)); [|discriminate].
  intros H. inversion H; subst. reflexivity.
Qed.

Lemma keeps_env_mkdir (p : path) : keeps_env (m_mkdir_exist_ok p).
Proof.
  intros w a w1. unfold m_mkdir_exist_ok.
  destruct (has_nul p); [discriminate|].
  destruct (mkdir_exist_ok p (w_fs w)); [|discriminate].
  intros H. inversion H; subst. reflexivity.
Qed.

Lemma keeps_env_run (result : world -> proc) : keeps_env (m_run_checked result).
Proof.
  intros w a w1. unfold m_run_checked.
  destruct (result w); try discriminate.
  intros H. inversion H; subst. now rewrite world_eta.
Qed.

Lemma keeps_env_helper (command : text) : keeps_env (call_git_helper command).
Proof.
  intros w b w1 H. apply call_git_helper_ok in H. destruct H as [out ->].
  reflexivity.
Qed.

Lemma keeps_env_update_readme folder tid title :
  keeps_env (update_readme folder tid title).
Proof.
  intros w [] w1 H. apply update_readme_ok in H. destruct H as [H _].
  rewrite H. reflexivity.
Qed.

Lemma keeps_env_update_memory (message : text) :
  keeps_env (update_memory message).
Proof.
  intros w [] w1 H. apply update_memory_ok in H. destruct H as [H _].
  assert (Ho : w_out w1 = w_out w) by (rewrite H; reflexivity).
  rewrite Ho. exact H.
Qed.

Lemma keeps_env_create_task title pid status kw :
  keeps_env (create_task title pid status kw).
Proof.
  unfold create_task. apply keeps_env_bind.
  { destruct (truthy pid); [apply keeps_env_ret|].
    intros w a w1 H. apply get_active_project_ok in H. subst.
    now rewrite world_eta. }
  intros chosen. destruct (truthy chosen); cbn [negb].
  2:{ apply keeps_env_bind; [apply keeps_env_print|].
      intros _. apply keeps_env_ret. }
  destruct (plain_name (kw_get chosen [])); cbn [negb];
    [|intros w a w1 H; discriminate].
  intros w a w1.
  destruct (glob PROJECTS_DIR (glob_project (kw_get chosen [])) (w_fs w))
    as [|[folder nd] more].
  { apply keeps_env_bind; [apply keeps_env_print|].
    intros _. apply keeps_env_ret. }
  revert w a w1. apply keeps_env_bind.
  { intros w a w1 H. inversion H; subst. now rewrite world_eta. }
  intros tid. destruct (existsb (text_eqb (str "..")) _);
    [intros w a w1 H; discriminate|].
  apply keeps_env_bind; [apply keeps_env_mkdir|]. intros _.
  apply keeps_env_bind.
  { intros w a w1. apply keeps_env_write. }
  intros _. apply keeps_env_bind; [apply keeps_env_run|]. intros _.
  apply keeps_env_bind; [apply keeps_env_run|]. intros _.
  apply keeps_env_bind; [apply keeps_env_print|]. intros _.
  apply keeps_env_bind; [apply keeps_env_update_readme|]. intros _.
  apply keeps_env_bind; [apply keeps_env_print|]. intros _.
  apply keeps_env_bind; [apply keeps_env_print|]. intros _.
  apply keeps_env_bind; [apply keeps_env_helper|]. intros _.
  apply keeps_env_ret.
Qed.

Lemma defer_fold (args : list text) (st : option text * list text) :
  fold_left
    (fun (st : option text * list text) (arg : text) =>
       if valid_project_id arg then (Some arg, snd st)
       else (fst st, snd st ++ [arg]))
    args st =
  (match rev (filter valid_project_id args) with
   | p :: _ => Some p
   | [] => fst st
   end,
   snd st ++ filter (fun a => negb (valid_project_id a)) args).
Proof.
  revert st. induction args as [|a args IH]; intros [o l].
  - cbn. now rewrite app_nil_r.
  - cbn [fold_left filter]. rewrite IH.
    destruct (valid_project_id a) eqn:E; cbn [negb fst snd].
    + f_equal. cbn [rev].
      destruct (rev (filter valid_project_id args)); reflexivity.
    + f_equal. now rewrite <- app_assoc.
Qed.

(** A task record lies below projects/, the memory log below
    memory/. *)
Lemma task_file_not_memory (nm tid slug today : text) :
  task_file_of (PROJECTS_DIR ++ [nm]) tid slug <> MEMORY_DIR ++ [today].
Proof.
  unfold task_file_of, PROJECTS_DIR, MEMORY_DIR. cbn [app].
  intros E. inversion E.
Qed.

(** The arguments of cmd_defer: the project is the last argument of the
    form P<digits>, if there is one, and the title is made of the other
    arguments in their order. *)
Lemma defer_args_value (args : list text) :
  defer_args args =
  (match rev (filter valid_project_id args) with
   | p :: _ => Some p
   | [] => None
   end,
   filter (fun a => negb (valid_project_id a)) args).
Proof. unfold defer_args. now rewrite defer_fold. Qed.

(** A task deferred with cmd_defer.  When the command succeeds, the
    task went to the project named by the last argument of the form
    P<digits>, whatever the active project is, and to the active project
    when no argument has that form; its title is the other arguments
    joined by spaces; its record carries "status: later"; and the
    memory file of the day holds the line that announces it. *)
Theorem deferred_task (args : list text) (w w' : world) :
  cmd_defer args w = Ok true w' ->
  let title :=
    join_words (filter (fun a => negb (valid_project_id a)) args) in
  exists tid pid folder rest,
    match rev (filter valid_project_id args) with
    | p :: _ => pid = p
    | [] => get_active_project w = Ok (Some pid) w
    end /\
    In folder (map fst (glob PROJECTS_DIR (glob_project pid) (w_fs w))) /\
    file_text (task_file_of folder tid (slug_of title)) (w_fs w') =
      Some (record_header tid pid title (str "later") ++ rest) /\
    file_text (MEMORY_DIR ++ [w_today w ++ str ".md"]) (w_fs w') =
      Some (str "- " ++ deferred_message tid title ++ nl).
Proof.
  unfold cmd_defer. destruct args as [|a0 args0]; [discriminate|].
  set (args := a0 :: args0). rewrite (defer_args_value args).
  cbn [fst snd]. cbv zeta.
  set (title := join_words (filter (fun a => negb (valid_project_id a)) args)).
  set (project := match rev (filter valid_project_id args) with
                  | p :: _ => Some p
                  | [] => None
                  end).
  unfold bind at 1.
  destruct (create_task title project (Some (str "later")) no_kwargs w)
    as [[tid|] w1| |] eqn:Hc; try discriminate.
  destruct tid as [|c tid]; [cbn [truthy]; unfold ret; discriminate|].
  cbn [truthy kw_get]. unfold bind.
  destruct (update_memory (deferred_message (c :: tid) title) w1)
    as [[] w2| |] eqn:Hm; try discriminate.
  unfold ret. intros H. inversion H; subst w2. clear H.
  pose proof (keeps_env_create_task _ _ _ _ _ _ _ Hc) as Henv.
  assert (Htoday : w_today w1 = w_today w) by (rewrite Henv; reflexivity).
  pose proof (update_memory_last_write _ _ _ Hm) as Hlast.
  pose proof (update_memory_ok _ _ _ Hm) as [_ Hframe].
  rewrite Htoday in Hlast, Hframe.
  apply create_task_effect in Hc.
  destruct Hc as (pid & folder & nd & more & Hpid & Hg & Hr & _).
  cbn [kw_get] in Hr. cbv zeta in Hr.
  destruct (task_content_header (c :: tid) pid title (str "later") no_kwargs
              (w_today w) (split_1 (pid ++ str "-") (name folder)))
    as [rest Hrest].
  exists (c :: tid), pid, folder, rest.
  assert (Hin : In (folder, nd)
                   (glob PROJECTS_DIR (glob_project pid) (w_fs w))).
  { rewrite Hg. now left. }
  apply glob_child in Hin. destruct Hin as [nm [Hfolder _]].
  split; [|split; [rewrite Hg; now left|split; [|exact Hlast]]].
  - unfold project in Hpid.
    destruct (rev (filter valid_project_id args)) as [|p l] eqn:Er.
    + exact Hpid.
    + assert (Hv : valid_project_id p = true).
      { assert (Hinp : In p (filter valid_project_id args)).
        { apply in_rev. rewrite Er. now left. }
        apply filter_In in Hinp. apply Hinp. }
      apply valid_project_id_shape in Hv.
      destruct Hv as (ds & _ & _ & [-> | ->]); cbn [truthy] in Hpid;
        congruence.
  - unfold file_text. rewrite Hframe.
    + rewrite Hr, Hrest. reflexivity.
    + rewrite Hfolder. apply task_file_not_memory.
Qed.

Lemma deferred_task_witness :
  exists tid pid folder rest,
    pid = str "P001" /\
    In folder (map fst (glob PROJECTS_DIR (glob_project pid)
                          (w_fs w_with_stash))) /\
    file_text (task_file_of folder tid (slug_of (str "Buy milk")))
              (w_fs (world_after
                       (cmd_defer [str "Buy"; str "P001"; str "milk"]
                                  w_with_stash) w_with_stash)) =
      Some (record_header tid pid (str "Buy milk") (str "later") ++ rest) /\
    file_text (MEMORY_DIR ++ [str "2026-01-02.md"])
              (w_fs (world_after
                       (cmd_defer [str "Buy"; str "P001"; str "milk"]
                                  w_with_stash) w_with_stash)) =
      Some (str "- " ++ deferred_message tid (str "Buy milk") ++ nl).
Proof.
  apply (deferred_task [str "Buy"; str "P001"; str "milk"] w_with_stash).
  vm_compute. reflexivity.
Defined.

(** A task added with cmd_add_task.  When the command succeeds there
    was an active project, the task went there with the arguments
    joined by spaces as its title and "status: next", and the memory
    file of the day holds the line that announces it.  Without an
    active project the command returns False and changes no file. *)
Theorem added_task (args : list text) (w w' : world) :
  (cmd_add_task args w = Ok true w' ->
   exists tid pid folder rest,
     get_active_project w = Ok (Some pid) w /\
     In folder (map fst (glob PROJECTS_DIR (glob_project pid) (w_fs w))) /\
     file_text (task_file_of folder tid (slug_of (join_words args)))
               (w_fs w') =
       Some (record_header tid pid (join_words args) (str "next") ++ rest) /\
     file_text (MEMORY_DIR ++ [w_today w ++ str ".md"]) (w_fs w') =
       Some (str "- " ++ created_message tid (join_words args) ++ nl)) /\
  (cmd_add_task args w = Ok false w' ->
   w' = with_out w (w_out w') (w_fs w)).
Proof.
  unfold cmd_add_task. destruct args as [|a0 args0];
    [split; discriminate|].
  set (args := a0 :: args0). set (title := join_words args).
  unfold bind.
  destruct (create_task title None None no_kwargs w)
    as [[tid|] w1| |] eqn:Hc; try (split; discriminate).
  - destruct tid as [|c tid].
    { cbn [truthy]. unfold ret. split; [discriminate|].
      pose proof (create_task_id _ _ _ _ _ _ _ Hc) as Hid.
      discriminate Hid. }
    cbn [truthy kw_get]. unfold bind.
    destruct (update_memory (created_message (c :: tid) title) w1)
      as [[] w2| |] eqn:Hm; try (split; discriminate).
    unfold ret. split; [|discriminate].
    intros H. inversion H; subst w2. clear H.
    pose proof (keeps_env_create_task _ _ _ _ _ _ _ Hc) as Henv.
    assert (Htoday : w_today w1 = w_today w) by (rewrite Henv; reflexivity).
    pose proof (update_memory_last_write _ _ _ Hm) as Hlast.
    pose proof (update_memory_ok _ _ _ Hm) as [_ Hframe].
    rewrite Htoday in Hlast, Hframe.
    apply create_task_effect in Hc.
    destruct Hc as (pid & folder & nd & more & Hpid & Hg & Hr & _).
    cbn [truthy kw_get] in Hpid, Hr. cbv zeta in Hr.
    destruct (task_content_header (c :: tid) pid title (str "next") no_kwargs
                (w_today w) (split_1 (pid ++ str "-") (name folder)))
      as [rest Hrest].
    exists (c :: tid), pid, folder, rest.
    assert (Hin : In (folder, nd)
                     (glob PROJECTS_DIR (glob_project pid) (w_fs w))).
    { rewrite Hg. now left. }
    apply glob_child in Hin. destruct Hin as [nm [Hfolder _]].
    split; [exact Hpid|]. split; [rewrite Hg; now left|].
    split; [|exact Hlast].
    unfold file_text. rewrite Hframe.
    + rewrite Hr, Hrest. reflexivity.
    + rewrite Hfolder. apply task_file_not_memory.
  - cbn [truthy]. unfold ret. split; [discriminate|].
    intros H. inversion H; subst w1.
    now apply (create_task_none title None None no_kwargs).
Qed.

Lemma added_task_witness :
  w_fs (world_after (cmd_add_task [str "Buy"; str "milk"] w_fresh) w_active)
  = fs_fresh.
Proof.
  assert (H : cmd_add_task [str "Buy"; str "milk"] w_fresh =
              Ok false (world_after
                          (cmd_add_task [str "Buy"; str "milk"] w_fresh)
                          w_active)).
  { vm_compute. reflexivity. }
  rewrite (proj2 (added_task _ _ _) H). reflexivity.
Defined.

End LaterAndDefer.
